(** * ixbrl-parse: a shallow embedding of [ixbrlparse/core.py]

    The development follows the layout of the Python module:
    - [Py]: the few [str] and [dict] operations the module relies on;
    - [Soup]: the tree-query facade (BeautifulSoup) as a finite tree with
      explicit element handles;
    - the component records ([ixbrlContext], [ixbrlNonNumeric],
      [ixbrlNumeric], [ixbrlError]);
    - [BaseParser], [IXBRLParser], [XBRLParser] and the [IXBRL] front end;
    - the properties of the extraction pipeline and of the projection layer. *)

From Stdlib Require Import String Ascii ZArith Lia.
From stdpp Require Import base option list strings gmap.

Set Warnings "-register-all".

Local Open Scope string_scope.
Local Open Scope stdpp_scope.
Local Open Scope list_scope.

(** ** Python values and exceptions *)

(** The exceptions that can travel through the extraction code.  All of them
    derive from [Exception], so every [except Exception] clause of the module
    catches each of them. *)
Inductive exn : Type :=
| KeyError (key : string)
| TypeError (msg : string)
| ValueError (msg : string)
| RecursionError
| IXBRLParseError (msg : string).

(** A computation that either returns or raises. *)
Inductive result (A : Type) : Type :=
| Ok (a : A)
| Raise (e : exn).
Arguments Ok {A} a.
Arguments Raise {A} e.

#[export] Instance result_ret : MRet result := fun A a => Ok a.
#[export] Instance result_bind : MBind result := fun A B f r =>
  match r with
  | Ok a => f a
  | Raise e => Raise e
  end.

Definition raises {A} (r : result A) : bool :=
  match r with Ok _ => false | Raise _ => true end.

(** The values a row of [to_table] can hold. *)
Inductive pyval : Type :=
| PyNone
| PyBool (b : bool)
| PyInt (z : Z)
| PyStr (s : string).

Module Py.

(** [str.isspace] on the ASCII range: TAB, LF, VT, FF, CR, the four
    separators 0x1c-0x1f and the space. *)
Definition isspace (c : ascii) : bool :=
  let n := nat_of_ascii c in
  (Nat.leb 9 n && Nat.leb n 13) || (Nat.leb 28 n && Nat.leb n 32).

Fixpoint lstrip (s : string) : string :=
  match s with
  | EmptyString => EmptyString
  | String c s' => if isspace c then lstrip s' else s
  end.

Fixpoint rstrip (s : string) : string :=
  match s with
  | EmptyString => EmptyString
  | String c s' =>
      match rstrip s' with
      | EmptyString => if isspace c then EmptyString else String c EmptyString
      | t => String c t
      end
  end.

(** [s.strip()] *)
Definition strip (s : string) : string := rstrip (lstrip s).

Definition newline : ascii := "010"%char.

(** [s.replace("\n", "")] *)
Fixpoint remove_newlines (s : string) : string :=
  match s with
  | EmptyString => EmptyString
  | String c s' =>
      if Ascii.eqb c newline then remove_newlines s'
      else String c (remove_newlines s')
  end.

(** [s.split(sep)] for a one-character separator: empty fields are kept. *)
Fixpoint split (sep : ascii) (s : string) : list string :=
  match s with
  | EmptyString => [EmptyString]
  | String c s' =>
      if Ascii.eqb c sep then EmptyString :: split sep s'
      else match split sep s' with
           | [] => [String c EmptyString]
           | w :: ws => String c w :: ws
           end
  end.

(** [sep.join(l)] *)
Fixpoint join (sep : string) (l : list string) : string :=
  match l with
  | [] => EmptyString
  | [w] => w
  | w :: ws => w +:+ sep +:+ join sep ws
  end.

(** [s.startswith(p)] *)
Definition startswith (p s : string) : bool := String.prefix p s.

(** [c in s] for a single character [c]. *)
Fixpoint contains (c : ascii) (s : string) : bool :=
  match s with
  | EmptyString => false
  | String d s' => Ascii.eqb c d || contains c s'
  end.

(** Truthiness of the result of [tag.get(key)]: [None] and the empty
    string are falsy. *)
Definition truthy (o : option string) : bool :=
  match o with
  | Some s => negb (s =? "")%string
  | None => false
  end.

(** [str(n)] for a non-negative integer. *)
Definition digit (n : nat) : ascii := ascii_of_nat (48 + n).

Fixpoint str_of_nat_aux (fuel n : nat) (acc : string) : string :=
  match fuel with
  | 0 => acc
  | S fuel' =>
      let acc' := String (digit (n mod 10)) acc in
      if Nat.ltb n 10 then acc' else str_of_nat_aux fuel' (n / 10) acc'
  end.

Definition str_of_nat (n : nat) : string := str_of_nat_aux (S n) n EmptyString.

(** Insertion-ordered dictionaries with string keys, as association
    lists without repeated keys. *)
Definition dict (V : Type) : Type := list (string * V).

Fixpoint get {V} (d : dict V) (k : string) : option V :=
  match d with
  | [] => None
  | (k', v) :: d' => if (k' =? k)%string then Some v else get d' k
  end.

(** [d[k] = v]: an existing key keeps its position. *)
Fixpoint set {V} (d : dict V) (k : string) (v : V) : dict V :=
  match d with
  | [] => [(k, v)]
  | (k', v') :: d' =>
      if (k' =? k)%string then (k, v) :: d' else (k', v') :: set d' k v
  end.

(** [{**d, **e}] *)
Definition update {V} (d e : dict V) : dict V :=
  fold_left (fun acc kv => set acc (fst kv) (snd kv)) e d.

(** [str(x)] as used by [str.format]. *)
Definition str_of_opt (o : option string) : string :=
  match o with
  | Some s => s
  | None => "None"
  end.

End Py.

(** ** The tree-query facade *)

Module Soup.

(** A parsed document.  [attached] is cleared by [extract]: a detached
    element is no longer reachable from its former ancestors, but a
    reference to it that is already held stays valid. *)
Inductive node : Type :=
| Tag (attached : bool) (prefix : option string) (name : string)
      (attrs : Py.dict string) (contents : list node)
| NavigableString (s : string).

(** An element handle: the position of the element in the document, as
    the list of child indices from the document node. *)
Definition path : Type := list nat.

Definition name_of (n : node) : string :=
  match n with
  | Tag _ _ nm _ _ => nm
  | NavigableString _ => EmptyString
  end.

Definition attrs_of (n : node) : Py.dict string :=
  match n with
  | Tag _ _ _ ats _ => ats
  | NavigableString _ => []
  end.

Definition contents_of (n : node) : list node :=
  match n with
  | Tag _ _ _ _ cs => cs
  | NavigableString _ => []
  end.

Definition is_attached (n : node) : bool :=
  match n with
  | Tag a _ _ _ _ => a
  | NavigableString _ => true
  end.

Definition is_tag (n : node) : bool :=
  match n with
  | Tag _ _ _ _ _ => true
  | NavigableString _ => false
  end.

(** [tag.get(key)] *)
Definition get (n : node) (key : string) : option string :=
  Py.get (attrs_of n) key.

(** [tag[key]] *)
Definition getitem (n : node) (key : string) : result string :=
  match get n key with
  | Some v => Ok v
  | None => Raise (KeyError key)
  end.

(** [tag.text]: the strings below the element, in document order. *)
Fixpoint text (n : node) : string :=
  match n with
  | NavigableString s => s
  | Tag _ _ _ _ cs =>
      (fix texts (l : list node) : string :=
         match l with
         | [] => EmptyString
         | c :: l' =>
             (if is_attached c then text c else EmptyString) +:+ texts l'
         end) cs
  end.

(** The element behind a handle. *)
Fixpoint deref (n : node) (p : path) : node :=
  match p with
  | [] => n
  | i :: p' =>
      match contents_of n !! i with
      | Some c => deref c p'
      | None => NavigableString EmptyString
      end
  end.

(** All elements strictly below [n], in document order, with their
    handles; [p] is the handle of [n]. *)
Fixpoint descendants (p : path) (n : node) : list (path * node) :=
  match n with
  | NavigableString _ => []
  | Tag _ _ _ _ cs =>
      (fix walk (i : nat) (l : list node) : list (path * node) :=
         match l with
         | [] => []
         | c :: l' =>
             (if is_attached c && is_tag c
              then (p ++ [i], c) :: descendants (p ++ [i]) c
              else []) ++ walk (S i) l'
         end) 0 cs
  end.

(** Whether an element answers to a tag name: by its local name, or by
    its prefixed name when it has a prefix. *)
Definition matches (alias : string) (n : node) : bool :=
  match n with
  | NavigableString _ => false
  | Tag _ pf nm _ _ =>
      (nm =? alias)%string ||
      match pf with
      | Some p => negb (p =? "")%string && (p +:+ ":" +:+ nm =? alias)%string
      | None => false
      end
  end.

Definition matches_any (aliases : list string) (n : node) : bool :=
  existsb (fun a => matches a n) aliases.

(** [tag.find_all(aliases)], for the element with handle [p] of [doc]. *)
Definition find_all (doc : node) (p : path) (aliases : list string) : list path :=
  map fst (List.filter (fun e => matches_any aliases (snd e)) (descendants p (deref doc p))).

(** [tag.find_all(True)] *)
Definition find_all_tags (doc : node) (p : path) : list path :=
  map fst (descendants p (deref doc p)).

(** [tag.find(aliases)] *)
Definition find (doc : node) (p : path) (aliases : list string) : option path :=
  head (find_all doc p aliases).

(** [soup.find(id=value)] *)
Definition find_id (doc : node) (value : string) : option path :=
  head (map fst (List.filter (fun e => bool_decide (get (snd e) "id" = Some value))
                        (descendants [] doc))).

Definition detach (n : node) : node :=
  match n with
  | Tag _ pf nm ats cs => Tag false pf nm ats cs
  | NavigableString s => NavigableString s
  end.

Fixpoint update_at (f : node -> node) (p : path) (n : node) : node :=
  match p with
  | [] => f n
  | i :: p' =>
      match n with
      | Tag a pf nm ats cs => Tag a pf nm ats (alter (update_at f p') i cs)
      | NavigableString s => NavigableString s
      end
  end.

(** [tag.extract()]: unlink the element with handle [p] from the tree. *)
Definition extract (doc : node) (p : path) : node := update_at detach p doc.

(** An element as the parser writes it down: attached, no prefix. *)
Definition El (nm : string) (ats : Py.dict string) (cs : list node) : node :=
  Tag true None nm ats cs.

(** A prefixed element, [<pf:nm ...>]. *)
Definition ElNS (pf nm : string) (ats : Py.dict string) (cs : list node) : node :=
  Tag true (Some pf) nm ats cs.

(** The [BeautifulSoup] object: the document node above the root element. *)
Definition Document (cs : list node) : node :=
  Tag true None "[document]" [] cs.

End Soup.

Export Soup(node, Tag, NavigableString, path, El, ElNS, Document).

(** ** The component records

    [ixbrlparse.components] is imported by [core.py]; the records below
    hold what [core.py] passes to the constructors and reads back. *)

(** The result of [self.contexts.get(ref, ref)]: a context, or the
    reference itself when the table has no such key. *)
Inductive resolved (A : Type) : Type :=
| Resolved (a : A)
| Raw (ref : string).
Arguments Resolved {A} a.
Arguments Raw {A} ref.

Record ixbrlContext : Type := {
  ctx_id : string;
  ctx_entity_scheme : option string;
  ctx_entity_identifier : option string;
  ctx_segments : list (Py.dict string);
  ctx_instant : option string;
  ctx_startdate : option string;
  ctx_enddate : option string }.

Record ixbrlNonNumeric : Type := {
  nn_context : resolved ixbrlContext;
  nn_schema : string;
  nn_name : string;
  nn_format : option string;
  nn_value : pyval;
  nn_soup_tag : path }.

Record ixbrlNumeric : Type := {
  num_context : resolved ixbrlContext;
  num_unit : option string;
  num_schema : string;
  num_name : pyval;
  num_value : pyval;
  num_text : string;
  num_soup_tag : path;
  num_attrs : Py.dict string }.

(** An entry of the error list: the [ixbrlError] object, or the plain
    dictionary that [XBRLParser._get_numeric] appends. *)
Inductive error_entry : Type :=
| ixbrlError (error : exn) (element : path)
| error_dict (error : exn) (element : path).

Definition entry_error (x : error_entry) : exn :=
  match x with ixbrlError e _ | error_dict e _ => e end.

Definition entry_element (x : error_entry) : path :=
  match x with ixbrlError _ s | error_dict _ s => s end.

(** What [core.py] runs on without defining it: the constructors of the
    component classes and the interpreter's recursion limit.  The classes
    live in [ixbrlparse.components]: each constructor may raise, and what
    it computes from its arguments is taken as a parameter.
    - [context_period instant startdate enddate]: the three period fields
      as [ixbrlContext] stores them;
    - [nonnumeric_fields name format_ value]: the schema, name and value of
      an [ixbrlNonNumeric];
    - [numeric_fields name text attrs]: the schema, name and value of an
      [ixbrlNumeric], from the [name] keyword (if any), the text and the
      pass-through attributes;
    - [recursion_limit]: the depth at which the interpreter stops a
      recursion with [RecursionError]. *)
Class Runtime : Type := {
  context_period :
    option string -> option string -> option string ->
    result (option string * option string * option string);
  nonnumeric_fields :
    string -> option string -> string -> result (string * string * pyval);
  numeric_fields :
    option string -> string -> Py.dict string -> result (string * pyval * pyval);
  recursion_limit : nat }.

(** Modelled from the spec: the constructor of [ixbrlContext] (module
    [ixbrlparse.components], not part of [core.py]).  It stores the
    identifier, the entity, the segments in the order given and the period
    fields. *)
Definition ixbrlContext_init `{Runtime}
    (_id : string) (scheme identifier : option string)
    (segments : list (Py.dict string))
    (instant startdate enddate : option string) : result ixbrlContext :=
  period ← context_period instant startdate enddate;
  let '(i, s, e) := period in
  mret {| ctx_id := _id;
          ctx_entity_scheme := scheme;
          ctx_entity_identifier := identifier;
          ctx_segments := segments;
          ctx_instant := i;
          ctx_startdate := s;
          ctx_enddate := e |}.

(** Modelled from the spec: the constructor of [ixbrlNonNumeric] (module
    [ixbrlparse.components]).  It stores the resolved context, the format
    and the originating element. *)
Definition ixbrlNonNumeric_init `{Runtime}
    (context : resolved ixbrlContext) (name : string)
    (format_ : option string) (value : string) (soup_tag : path)
  : result ixbrlNonNumeric :=
  fields ← nonnumeric_fields name format_ value;
  let '(sch, nm, v) := fields in
  mret {| nn_context := context;
          nn_schema := sch;
          nn_name := nm;
          nn_format := format_;
          nn_value := v;
          nn_soup_tag := soup_tag |}.

(** The keyword arguments written out at a call site must not reappear
    among the unpacked [**s.attrs]: Python raises [TypeError] before the
    constructor runs. *)
Definition check_kwargs (explicit : list string) (attrs : Py.dict string)
  : result unit :=
  match List.filter (fun k => existsb (String.eqb k) explicit) (map fst attrs) with
  | [] => Ok tt
  | k :: _ => Raise (TypeError ("got multiple values for keyword argument " +:+ k))
  end.

(** Modelled from the spec: the constructor of [ixbrlNumeric] (module
    [ixbrlparse.components]).  It stores the raw text, the resolved context
    and unit, the originating element and the remaining attributes. *)
Definition ixbrlNumeric_init `{Runtime}
    (name : option string) (text : string)
    (context : resolved ixbrlContext) (unit_ : option string)
    (soup_tag : path) (attrs : Py.dict string) : result ixbrlNumeric :=
  _ ← check_kwargs ((match name with Some _ => ["name"] | None => [] end)
                     ++ ["text"; "context"; "unit"; "soup_tag"]) attrs;
  fields ← numeric_fields name text attrs;
  let '(sch, nm, v) := fields in
  mret {| num_context := context;
          num_unit := unit_;
          num_schema := sch;
          num_name := nm;
          num_value := v;
          num_text := text;
          num_soup_tag := soup_tag;
          num_attrs := attrs |}.

(** ** The parser object *)

Record parser : Type := {
  soup : node;
  raise_on_error : bool;
  errors : list error_entry;
  contexts : gmap string ixbrlContext;
  schema : option string;
  namespaces : gmap string (list string);
  nonnumeric : list ixbrlNonNumeric;
  numeric : list ixbrlNumeric;
  units : gmap string (option string) }.

(** [__init__] of the parser classes.  [units] is first assigned by
    [_get_units]; it is empty until then. *)
Definition parser_init (soup : node) (raise_on_error : bool) : parser :=
  {| soup := soup; raise_on_error := raise_on_error; errors := [];
     contexts := ∅; schema := None; namespaces := ∅;
     nonnumeric := []; numeric := []; units := ∅ |}.

Definition set_soup (d : node) (P : parser) : parser :=
  {| soup := d; raise_on_error := raise_on_error P; errors := errors P;
     contexts := contexts P; schema := schema P; namespaces := namespaces P;
     nonnumeric := nonnumeric P; numeric := numeric P; units := units P |}.

Definition set_errors (l : list error_entry) (P : parser) : parser :=
  {| soup := soup P; raise_on_error := raise_on_error P; errors := l;
     contexts := contexts P; schema := schema P; namespaces := namespaces P;
     nonnumeric := nonnumeric P; numeric := numeric P; units := units P |}.

Definition set_contexts (m : gmap string ixbrlContext) (P : parser) : parser :=
  {| soup := soup P; raise_on_error := raise_on_error P; errors := errors P;
     contexts := m; schema := schema P; namespaces := namespaces P;
     nonnumeric := nonnumeric P; numeric := numeric P; units := units P |}.

Definition set_schema (o : option string) (P : parser) : parser :=
  {| soup := soup P; raise_on_error := raise_on_error P; errors := errors P;
     contexts := contexts P; schema := o; namespaces := namespaces P;
     nonnumeric := nonnumeric P; numeric := numeric P; units := units P |}.

Definition set_namespaces (m : gmap string (list string)) (P : parser) : parser :=
  {| soup := soup P; raise_on_error := raise_on_error P; errors := errors P;
     contexts := contexts P; schema := schema P; namespaces := m;
     nonnumeric := nonnumeric P; numeric := numeric P; units := units P |}.

Definition set_nonnumeric (l : list ixbrlNonNumeric) (P : parser) : parser :=
  {| soup := soup P; raise_on_error := raise_on_error P; errors := errors P;
     contexts := contexts P; schema := schema P; namespaces := namespaces P;
     nonnumeric := l; numeric := numeric P; units := units P |}.

Definition set_numeric (l : list ixbrlNumeric) (P : parser) : parser :=
  {| soup := soup P; raise_on_error := raise_on_error P; errors := errors P;
     contexts := contexts P; schema := schema P; namespaces := namespaces P;
     nonnumeric := nonnumeric P; numeric := l; units := units P |}.

Definition set_units (m : gmap string (option string)) (P : parser) : parser :=
  {| soup := soup P; raise_on_error := raise_on_error P; errors := errors P;
     contexts := contexts P; schema := schema P; namespaces := namespaces P;
     nonnumeric := nonnumeric P; numeric := numeric P; units := m |}.

(** ** Methods: computations over the parser object that may raise *)

Definition M (A : Type) : Type := parser -> result A * parser.

Definition ret {A} (a : A) : M A := fun P => (Ok a, P).

Definition bind {A B} (m : M A) (k : A -> M B) : M B := fun P =>
  match m P with
  | (Ok a, P') => k a P'
  | (Raise e, P') => (Raise e, P')
  end.

Definition lift {A} (r : result A) : M A := fun P => (r, P).

Definition raise {A} (e : exn) : M A := fun P => (Raise e, P).

Definition gets {A} (f : parser -> A) : M A := fun P => (Ok (f P), P).

Definition modify (f : parser -> parser) : M unit := fun P => (Ok tt, f P).

Declare Scope method_scope.
Delimit Scope method_scope with method.
Notation "'let*' x := e 'in' k" := (bind e (fun x => k))
  (at level 10, x name, e at level 100, k at level 200) : method_scope.
Notation "e ;; k" := (bind e (fun _ => k))
  (at level 100, k at level 200, right associativity) : method_scope.

(** [try: body  except Exception as e: handler e] *)
Definition try_except (body : M unit) (handler : exn -> M unit) : M unit :=
  fun P =>
    match body P with
    | (Ok tt, P') => (Ok tt, P')
    | (Raise e, P') => handler e P'
    end.

(** [for s in elems: body s] *)
Fixpoint for_each (elems : list path) (body : path -> M unit) : M unit :=
  match elems with
  | [] => ret tt
  | s :: rest => bind (body s) (fun _ => for_each rest body)
  end.

(** The handler shared by the extraction loops:
    [self.errors.append(entry); if self.raise_on_error: raise]. *)
Definition record_error (entry : error_entry) (e : exn) : M unit :=
  (modify (fun P => set_errors (errors P ++ [entry]) P);;
   let* fail_fast := gets raise_on_error in
   if fail_fast then raise e else ret tt)%method.

(** [try: attempt  except Exception as e: self.errors.append(mk e s); ...] *)
Definition guarded (mk : exn -> path -> error_entry) (s : path)
    (attempt : M unit) : M unit :=
  try_except attempt (fun e => record_error (mk e s) e).

(** ** [class BaseParser] *)

Module BaseParser.

Definition _get_tag_attribute (doc : node) (s : path) (tag : list string)
    (attribute : string) : option string :=
  match Soup.find doc s tag with
  | Some t =>
      match Soup.get (Soup.deref doc t) attribute with
      | Some v => Some (Py.strip v)
      | None => None
      end
  | None => None
  end.

(** A method call may raise; this one never does. *)
Definition _get_tag_text (doc : node) (s : path) (tag : list string)
  : result (option string) :=
  match Soup.find doc s tag with
  | Some t => Ok (Some (Py.strip (Soup.text (Soup.deref doc t))))
  | None => Ok None
  end.

Definition _get_tag_children (doc : node) (s : path) (tag : list string)
  : list path :=
  match Soup.find doc s tag with
  | Some t => Soup.find_all_tags doc t
  | None => []
  end.

End BaseParser.

(** ** [class IXBRLParser(BaseParser)] *)

(** [self.contexts.get(ref, ref)] *)
Definition resolve_context (table : gmap string ixbrlContext) (ref : string)
  : resolved ixbrlContext :=
  match table !! ref with
  | Some c => Resolved c
  | None => Raw ref
  end.

(** [self.units.get(ref, ref)]: the stored measure (possibly [None]) or
    the reference. *)
Definition resolve_unit (table : gmap string (option string)) (ref : string)
  : option string :=
  match table !! ref with
  | Some m => m
  | None => Some ref
  end.

Module IXBRLParser.

Definition root_element : string := "html".

Definition namespace_attrs (attrs : Py.dict string) : gmap string (list string) :=
  fold_left
    (fun ns kv =>
       if Py.startswith "xmlns" (fst kv) || Py.contains ":"%char (fst kv)
       then <[fst kv := Py.split " "%char (snd kv)]> ns
       else ns)
    attrs ∅.

(** [root_element] is looked up on [self]: ["html"] here, ["xbrl"] in
    [XBRLParser]. *)
Definition _get_schema (root_element : string) : M unit :=
  (modify (set_schema None);;
   let* doc := gets soup in
   match Soup.find doc [] ["link:schemaRef"; "schemaRef"; "link:schemaref"; "schemaref"] with
   | Some schema_tag =>
       if Py.truthy (Soup.get (Soup.deref doc schema_tag) "xlink:href")
       then let* schema := lift (Soup.getitem (Soup.deref doc schema_tag) "xlink:href") in
            modify (set_schema (Some (Py.strip schema)))
       else ret tt
   | None => ret tt
   end;;
   modify (set_namespaces ∅);;
   match Soup.find doc [] [root_element] with
   | Some namespace_tag =>
       modify (set_namespaces (namespace_attrs (Soup.attrs_of (Soup.deref doc namespace_tag))))
   | None => ret tt
   end)%method.

Definition _get_context_elements (doc : node) : list path :=
  match Soup.find doc [] ["ix:resources"; "resources"] with
  | Some resources => Soup.find_all doc resources ["xbrli:context"; "context"]
  | None => []
  end.

Definition _get_unit_elements (doc : node) : list path :=
  match Soup.find doc [] ["ix:resources"; "resources"] with
  | Some resources => Soup.find_all doc resources ["xbrli:unit"; "unit"]
  | None => []
  end.

(** The dictionary built for one child of the segment element:
    [{"tag": x.name, "value": x.text.strip(), **x.attrs}]. *)
Definition segment_dict (x : node) : Py.dict string :=
  Py.update [("tag", Soup.name_of x); ("value", Py.strip (Soup.text x))]
            (Soup.attrs_of x).

Section Methods.

Context `{Runtime}.

(** [self._get_tag_text], [self._get_context_elements] and
    [self._get_unit_elements] as found on [self]. *)
Variable get_tag_text : node -> path -> list string -> result (option string).
Variable context_elements : node -> list path.
Variable unit_elements : node -> list path.

(** The expression assigned to [self.contexts[s_id]]. *)
Definition build_context (doc : node) (s : path) (s_id : string)
  : result ixbrlContext :=
  let scheme := BaseParser._get_tag_attribute doc s ["xbrli:identifier"; "identifier"] "scheme" in
  identifier ← get_tag_text doc s ["xbrli:identifier"; "identifier"];
  let segments :=
    map (fun x => segment_dict (Soup.deref doc x))
        (BaseParser._get_tag_children doc s ["xbrli:segment"; "segment"]) in
  instant ← get_tag_text doc s ["xbrli:instant"; "instant"];
  startdate ← get_tag_text doc s ["xbrli:startDate"; "startDate"];
  enddate ← get_tag_text doc s ["xbrli:endDate"; "endDate"];
  ixbrlContext_init s_id scheme identifier segments instant startdate enddate.

(** The body of the [try] statement of [_get_contexts]. *)
Definition context_entry (doc : node) (s : path) (s_id : string) : M unit :=
  (let* c := lift (build_context doc s s_id) in
   modify (fun P => set_contexts (<[s_id := c]> (contexts P)) P))%method.

(** The body of the loop of [_get_contexts]. *)
Definition context_body (doc : node) (s : path) : M unit :=
  (if negb (Py.truthy (Soup.get (Soup.deref doc s) "id")) then ret tt
   else
     let* s_id := lift (Soup.getitem (Soup.deref doc s) "id") in
     guarded ixbrlError s (context_entry doc s s_id))%method.

Definition _get_contexts : M unit :=
  (modify (set_contexts ∅);;
   let* doc := gets soup in
   for_each (context_elements doc) (context_body doc))%method.

(** The body of the loop of [_get_units]. *)
Definition unit_body (doc : node) (s : path) : M unit :=
  (match Soup.get (Soup.deref doc s) "id" with
   | Some s_id =>
       let* measure := lift (get_tag_text doc s ["xbrli:measure"; "measure"]) in
       modify (fun P => set_units (<[s_id := measure]> (units P)) P)
   | None => ret tt
   end)%method.

Definition _get_units : M unit :=
  (modify (set_units ∅);;
   let* doc := gets soup in
   for_each (unit_elements doc) (unit_body doc))%method.

End Methods.

(** [depth] is what is left of the interpreter's recursion limit. *)
Fixpoint _get_tag_continuation (depth : nat) (doc : node) (s : path)
    (start_str : string) : result string :=
  match depth with
  | 0 => Raise RecursionError
  | S depth' =>
      let el := Soup.deref doc s in
      if negb (Soup.is_tag el) then Ok start_str
      else
        let start_str := start_str +:+ Soup.text el in
        match Soup.get el "continuedAt" with
        | Some continuedAt =>
            if Py.truthy (Some continuedAt) then
              match Soup.find_id doc continuedAt with
              | Some continuation_tag =>
                  if (Soup.name_of (Soup.deref doc continuation_tag) =? "continuation")%string
                  then _get_tag_continuation depth' doc continuation_tag start_str
                  else Ok start_str
              | None => Ok start_str
              end
            else Ok start_str
        | None => Ok start_str
        end
  end.

(** The text of a non-numeric element once its exclusion is gone: its
    own text, or the assembled continuation. *)
Definition nonnumeric_text (depth : nat) (doc : node) (s : path) : result string :=
  if Py.truthy (Soup.get (Soup.deref doc s) "continuedAt")
  then _get_tag_continuation depth doc s ""
  else Ok (Soup.text (Soup.deref doc s)).

(** [text.strip().replace("\n", "")] *)
Definition clean (text : string) : string := Py.remove_newlines (Py.strip text).

(** The body of the [try] statement of [_get_nonnumeric]. *)
Definition nonnumeric_fact `{Runtime} (s : path) : M unit :=
  (let* doc := gets soup in
   let* context_ref := lift (Soup.getitem (Soup.deref doc s) "contextRef") in
   let* table := gets contexts in
   let context := resolve_context table context_ref in
   let format_ := Soup.get (Soup.deref doc s) "format" in
   match Soup.find doc s ["exclude"] with
   | Some exclusion => modify (fun P => set_soup (Soup.extract (soup P) exclusion) P)
   | None => ret tt
   end;;
   let* doc := gets soup in
   let* text := lift (nonnumeric_text recursion_limit doc s) in
   let* name := lift (Soup.getitem (Soup.deref doc s) "name") in
   let* fact := lift (ixbrlNonNumeric_init context name format_ (clean text) s) in
   modify (fun P => set_nonnumeric (nonnumeric P ++ [fact]) P))%method.

(** The body of the loop of [_get_nonnumeric]. *)
Definition nonnumeric_body `{Runtime} (s : path) : M unit :=
  guarded ixbrlError s (nonnumeric_fact s).

Definition _get_nonnumeric `{Runtime} : M unit :=
  (modify (set_nonnumeric []);;
   let* doc := gets soup in
   for_each (Soup.find_all doc [] ["nonNumeric"]) nonnumeric_body)%method.

(** The body of the [try] statement of [_get_numeric]. *)
Definition numeric_fact `{Runtime} (s : path) : M unit :=
  (let* doc := gets soup in
   let el := Soup.deref doc s in
   let* context_ref := lift (Soup.getitem el "contextRef") in
   let* ctable := gets contexts in
   let* unit_ref := lift (Soup.getitem el "unitRef") in
   let* utable := gets units in
   let* fact := lift (ixbrlNumeric_init None (Soup.text el)
                        (resolve_context ctable context_ref)
                        (resolve_unit utable unit_ref)
                        s (Soup.attrs_of el)) in
   modify (fun P => set_numeric (numeric P ++ [fact]) P))%method.

(** The body of the loop of [_get_numeric]. *)
Definition numeric_body `{Runtime} (s : path) : M unit :=
  guarded ixbrlError s (numeric_fact s).

Definition _get_numeric `{Runtime} : M unit :=
  (modify (set_numeric []);;
   let* doc := gets soup in
   for_each (Soup.find_all doc [] ["nonFraction"]) numeric_body)%method.

End IXBRLParser.

(** ** [class XBRLParser(IXBRLParser)] *)

Module XBRLParser.

Definition root_element : string := "xbrl".

Definition _get_context_elements (doc : node) : list path :=
  Soup.find_all doc [] ["xbrli:context"; "context"].

Definition _get_unit_elements (doc : node) : list path :=
  Soup.find_all doc [] ["xbrli:unit"; "unit"].

Definition _get_elements (doc : node) : list path :=
  match Soup.find doc [] [root_element] with
  | Some resource => Soup.find_all_tags doc resource
  | None => []
  end.

(** The body of the [try] statement of [_get_numeric]. *)
Definition numeric_fact `{Runtime} (doc : node) (s : path)
    (context_ref unit_ref : string) : M unit :=
  (let el := Soup.deref doc s in
   let* ctable := gets contexts in
   let* utable := gets units in
   let* fact := lift (ixbrlNumeric_init (Some (Soup.name_of el)) (Soup.text el)
                        (resolve_context ctable context_ref)
                        (resolve_unit utable unit_ref)
                        s (Soup.attrs_of el)) in
   modify (fun P => set_numeric (numeric P ++ [fact]) P))%method.

(** The body of the loop of [_get_numeric]. *)
Definition numeric_body `{Runtime} (doc : node) (s : path) : M unit :=
  (let el := Soup.deref doc s in
   if negb (Py.truthy (Soup.get el "contextRef")) || negb (Py.truthy (Soup.get el "unitRef"))
   then ret tt
   else
     let* context_ref := lift (Soup.getitem el "contextRef") in
     let* unit_ref := lift (Soup.getitem el "unitRef") in
     guarded error_dict s (numeric_fact doc s context_ref unit_ref))%method.

Definition _get_numeric `{Runtime} : M unit :=
  (modify (set_numeric []);;
   let* doc := gets soup in
   for_each (_get_elements doc) (numeric_body doc))%method.

(** The body of the [try] statement of [_get_nonnumeric]. *)
Definition nonnumeric_fact `{Runtime} (doc : node) (s : path) : M unit :=
  (let el := Soup.deref doc s in
   if negb (Py.truthy (Soup.get el "contextRef")) || Py.truthy (Soup.get el "unitRef")
   then ret tt
   else
     let* context_ref := lift (Soup.getitem el "contextRef") in
     let* table := gets contexts in
     let context := resolve_context table context_ref in
     let format_ := Soup.get el "format" in
     let text := Soup.text el in
     let* fact := lift (ixbrlNonNumeric_init context (Soup.name_of el) format_
                          (IXBRLParser.clean text) s) in
     modify (fun P => set_nonnumeric (nonnumeric P ++ [fact]) P))%method.

(** The body of the loop of [_get_nonnumeric]. *)
Definition nonnumeric_body `{Runtime} (doc : node) (s : path) : M unit :=
  guarded ixbrlError s (nonnumeric_fact doc s).

Definition _get_nonnumeric `{Runtime} : M unit :=
  (modify (set_nonnumeric []);;
   let* doc := gets soup in
   for_each (_get_elements doc) (nonnumeric_body doc))%method.

End XBRLParser.

(** ** [class IXBRL] *)

Definition FILETYPE_IXBRL : string := "ixbrl".
Definition FILETYPE_XBRL : string := "xbrl".

(** The two parser classes [_get_parser] chooses between. *)
Inductive parser_class : Type :=
| IXBRLParser_class
| XBRLParser_class.

Record IXBRL : Type := {
  filetype : string;
  parser_cls : parser_class;
  parser_obj : parser }.

(** Method lookup on [self.parser]. *)
Definition _get_schema (cls : parser_class) : M unit :=
  match cls with
  | IXBRLParser_class => IXBRLParser._get_schema IXBRLParser.root_element
  | XBRLParser_class => IXBRLParser._get_schema XBRLParser.root_element
  end.

Definition _get_contexts `{Runtime} (cls : parser_class) : M unit :=
  match cls with
  | IXBRLParser_class =>
      IXBRLParser._get_contexts BaseParser._get_tag_text IXBRLParser._get_context_elements
  | XBRLParser_class =>
      IXBRLParser._get_contexts BaseParser._get_tag_text XBRLParser._get_context_elements
  end.

Definition _get_units (cls : parser_class) : M unit :=
  match cls with
  | IXBRLParser_class =>
      IXBRLParser._get_units BaseParser._get_tag_text IXBRLParser._get_unit_elements
  | XBRLParser_class =>
      IXBRLParser._get_units BaseParser._get_tag_text XBRLParser._get_unit_elements
  end.

Definition _get_nonnumeric `{Runtime} (cls : parser_class) : M unit :=
  match cls with
  | IXBRLParser_class => IXBRLParser._get_nonnumeric
  | XBRLParser_class => XBRLParser._get_nonnumeric
  end.

Definition _get_numeric `{Runtime} (cls : parser_class) : M unit :=
  match cls with
  | IXBRLParser_class => IXBRLParser._get_numeric
  | XBRLParser_class => XBRLParser._get_numeric
  end.

(** [IXBRL._get_parser]: the file type and the parser class, or
    [IXBRLParseError]. *)
Definition _get_parser (doc : node) : result (string * parser_class) :=
  match Soup.find doc [] ["html"] with
  | Some _ => Ok (FILETYPE_IXBRL, IXBRLParser_class)
  | None =>
      match Soup.find doc [] ["xbrl"] with
      | Some _ => Ok (FILETYPE_XBRL, XBRLParser_class)
      | None => Raise (IXBRLParseError "Filetype not recognised")
      end
  end.

(** The five extraction calls of [IXBRL.__init__], in order. *)
Definition extraction `{Runtime} (cls : parser_class) : M unit :=
  (_get_schema cls;;
   _get_contexts cls;;
   _get_units cls;;
   _get_nonnumeric cls;;
   _get_numeric cls)%method.

(** [IXBRL(f, raise_on_error)], from the tree [BeautifulSoup] built. *)
Definition IXBRL_init `{Runtime} (doc : node) (raise_on_error : bool)
  : result IXBRL :=
  sel ← _get_parser doc;
  match extraction (snd sel) (parser_init doc raise_on_error) with
  | (Ok tt, P) => Ok {| filetype := fst sel; parser_cls := snd sel; parser_obj := P |}
  | (Raise e, _) => Raise e
  end.

(** *** [IXBRL.to_table] *)

Inductive fact : Type :=
| NonNumeric (v : ixbrlNonNumeric)
| Numeric (v : ixbrlNumeric).

Definition fact_context (v : fact) : resolved ixbrlContext :=
  match v with
  | NonNumeric f => nn_context f
  | Numeric f => num_context f
  end.

Definition fact_schema (v : fact) : string :=
  match v with
  | NonNumeric f => nn_schema f
  | Numeric f => num_schema f
  end.

Definition fact_name (v : fact) : pyval :=
  match v with
  | NonNumeric f => PyStr (nn_name f)
  | Numeric f => num_name f
  end.

Definition fact_value (v : fact) : pyval :=
  match v with
  | NonNumeric f => nn_value f
  | Numeric f => num_value f
  end.

Definition opt_str (o : option string) : pyval :=
  match o with
  | Some s => PyStr s
  | None => PyNone
  end.

(** [v.unit if hasattr(v, "unit") else None] *)
Definition fact_unit (v : fact) : pyval :=
  match v with
  | NonNumeric _ => PyNone
  | Numeric f => opt_str (num_unit f)
  end.

(** ["{} {} {}".format(s.get("tag", ""), s.get("dimension"), s.get("value")).strip()] *)
Definition segment_label (s : Py.dict string) : string :=
  Py.strip (default "" (Py.get s "tag") +:+ " " +:+
            Py.str_of_opt (Py.get s "dimension") +:+ " " +:+
            Py.str_of_opt (Py.get s "value")).

(** [enumerate] *)
Fixpoint enumerate {A} (i : nat) (l : list A) : list (nat * A) :=
  match l with
  | [] => []
  | x :: l' => (i, x) :: enumerate (S i) l'
  end.

Definition segment_columns (v : fact) : Py.dict pyval :=
  match fact_context v with
  | Resolved c =>
      match ctx_segments c with
      | [] => [("segment:0", PyStr "")]
      | segs =>
          Py.update []
            (map (fun '(i, s) => ("segment:" +:+ Py.str_of_nat i, PyStr (segment_label s)))
                 (enumerate 0 segs))
      end
  | Raw _ => [("segment:0", PyStr "")]
  end.

(** [str(v.context.<field>) if isinstance(v.context, ixbrlContext) and
    v.context.<field> else None] *)
Definition period_column (field : ixbrlContext -> option string) (v : fact) : pyval :=
  match fact_context v with
  | Resolved c => if Py.truthy (field c) then opt_str (field c) else PyNone
  | Raw _ => PyNone
  end.

Definition to_row (x : IXBRL) (v : fact) : Py.dict pyval :=
  Py.update
    (Py.update []
       [("schema", PyStr (Py.join " "
           (default [fact_schema v]
              (namespaces (parser_obj x) !! ("xmlns:" +:+ fact_schema v)))));
        ("name", fact_name v);
        ("value", fact_value v);
        ("unit", fact_unit v);
        ("instant", period_column ctx_instant v);
        ("startdate", period_column ctx_startdate v);
        ("enddate", period_column ctx_enddate v)])
    (segment_columns v).

Definition to_table (x : IXBRL) (fields : string) : list (Py.dict pyval) :=
  let values :=
    if (fields =? "nonnumeric")%string then map NonNumeric (nonnumeric (parser_obj x))
    else if (fields =? "numeric")%string then map Numeric (numeric (parser_obj x))
    else map NonNumeric (nonnumeric (parser_obj x)) ++ map Numeric (numeric (parser_obj x)) in
  map (to_row x) values.

(** ** The command line ([ixbrlparse/cli/__init__.py]) *)

Module cli.

(** [dict.fromkeys(keys)] *)
Definition fromkeys (keys : list string) : Py.dict pyval :=
  Py.update [] (map (fun k => (k, PyNone)) keys).

(** [columns = {}]
    [for r in values: columns = {**dict.fromkeys(r.keys()), **columns}] *)
Definition columns (values : list (Py.dict pyval)) : Py.dict pyval :=
  fold_left (fun columns r => Py.update (fromkeys (map fst r)) columns) values [].

(** [columns.keys()], the field names handed to [csv.DictWriter]. *)
Definition fieldnames (values : list (Py.dict pyval)) : list string :=
  map fst (columns values).

(** The field names of the [csv] branch of [ixbrlparse_cli]:
    [x = IXBRL(infile)] leaves [raise_on_error] at its default, [True]. *)
Definition csv_fieldnames `{Runtime} (doc : node) (fields : string)
  : result (list string) :=
  x ← IXBRL_init doc true;
  mret (fieldnames (to_table x fields)).

End cli.

(** ** A runtime to run the examples with

    Dates are accepted in the shape [dddd-dd-dd]; a name is split at its
    first colon into schema and name; a numeric text is a run of digits. *)

Definition is_digit (c : ascii) : bool :=
  Nat.leb 48 (nat_of_ascii c) && Nat.leb (nat_of_ascii c) 57.

Fixpoint date_shape (pattern : list bool) (s : string) : bool :=
  match pattern, s with
  | [], EmptyString => true
  | true :: pattern', String c s' => is_digit c && date_shape pattern' s'
  | false :: pattern', String c s' => Ascii.eqb c "-"%char && date_shape pattern' s'
  | _, _ => false
  end.

Definition sample_date (o : option string) : result (option string) :=
  match o with
  | Some s =>
      if Py.truthy (Some s) then
        if date_shape [true; true; true; true; false; true; true; false; true; true] (Py.strip s)
        then Ok (Some (Py.strip s))
        else Raise (ValueError ("time data does not match format: " +:+ s))
      else Ok None
  | None => Ok None
  end.

Definition sample_split_name (name : string) : string * string :=
  match Py.split ":"%char name with
  | [a] => ("unknown", a)
  | a :: rest => (a, Py.join ":" rest)
  | [] => ("unknown", "")
  end.

Fixpoint digits_value (s : string) (acc : Z) : option Z :=
  match s with
  | EmptyString => Some acc
  | String c s' =>
      if is_digit c
      then digits_value s' (10 * acc + Z.of_nat (nat_of_ascii c - 48))%Z
      else None
  end.

Definition sample_number (text : string) : result pyval :=
  match Py.strip text with
  | EmptyString => Raise (ValueError "empty numeric text")
  | t => match digits_value t 0 with
         | Some z => Ok (PyInt z)
         | None => Raise (ValueError ("could not convert: " +:+ text))
         end
  end.

#[local] Instance sample_runtime : Runtime := {|
  context_period := fun instant startdate enddate =>
    i ← sample_date instant;
    s ← sample_date startdate;
    e ← sample_date enddate;
    mret (i, s, e);
  nonnumeric_fields := fun name format_ value =>
    Ok (fst (sample_split_name name), snd (sample_split_name name), PyStr value);
  numeric_fields := fun name text attrs =>
    let nm := match name with Some n => Some n | None => Py.get attrs "name" end in
    v ← sample_number text;
    mret (match nm with Some n => fst (sample_split_name n) | None => "unknown" end,
          match nm with Some n => PyStr (snd (sample_split_name n)) | None => PyNone end,
          v);
  recursion_limit := 1000 |}.

(** * Properties *)

(** ** Definitions used to state the properties *)

(** Some element of the document answers to the tag name [alias]. *)
Definition has_element (doc : node) (alias : string) : bool :=
  existsb (fun e => Soup.matches alias (snd e)) (Soup.descendants [] doc).

(** The root element: the first element among the children of the
    document node. *)
Definition root_tag (doc : node) : option node :=
  head (List.filter (fun c => Soup.is_attached c && Soup.is_tag c) (Soup.contents_of doc)).

Definition root_name (doc : node) : option string :=
  Soup.name_of <$> root_tag doc.

(** The children of an element contribute their own descendants in order. *)
Fixpoint walk (p : path) (i : nat) (l : list node) : list (path * node) :=
  match l with
  | [] => []
  | c :: l' =>
      (if Soup.is_attached c && Soup.is_tag c
       then (p ++ [i], c) :: Soup.descendants (p ++ [i]) c
       else []) ++ walk p (S i) l'
  end.

(** *** Sample documents *)

(** A bare document that quotes an [html] element below its root. *)
Definition nested_html_doc : node :=
  Document [El "xbrl" [] [El "note" [] [El "html" [] [NavigableString "text"]]]].

Definition single_segment_fact (seg : Py.dict string) : fact :=
  Numeric {| num_context := Resolved {| ctx_id := "c1";
                                        ctx_entity_scheme := None;
                                        ctx_entity_identifier := None;
                                        ctx_segments := [seg];
                                        ctx_instant := None;
                                        ctx_startdate := None;
                                        ctx_enddate := None |};
             num_unit := Some "GBP"; num_schema := "uk"; num_name := PyStr "Cash";
             num_value := PyInt 100; num_text := "100"; num_soup_tag := [0; 1];
             num_attrs := [] |}.

Definition empty_document : IXBRL :=
  {| filetype := FILETYPE_IXBRL; parser_cls := IXBRLParser_class;
     parser_obj := parser_init (Document []) false |}.

(** Three continuation elements that refer to one another in a circle,
    headed by a non-numeric element. *)
Definition cycle_doc : node :=
  Document [El "html" [] [
    ElNS "ix" "nonNumeric" [("contextRef", "c1"); ("name", "uk:Note"); ("continuedAt", "k1")]
         [NavigableString "A"];
    ElNS "ix" "continuation" [("id", "k1"); ("continuedAt", "k2")] [NavigableString "B"];
    ElNS "ix" "continuation" [("id", "k2"); ("continuedAt", "k3")] [NavigableString "C"];
    ElNS "ix" "continuation" [("id", "k3"); ("continuedAt", "k1")] [NavigableString "D"]]].

Definition cycle_head : path := [0; 0].

(** A minimal inline document. *)
Definition html_doc : node :=
  Document [El "html" [] [El "body" [] [NavigableString "text"]]].

(** *** Reference resolution *)

(** The element [s] refers to a context the table does not hold only if
    the resolved value [c] is that very reference. *)
Definition unresolved_context_stays_raw (doc : node)
    (table : gmap string ixbrlContext) (s : path) (c : resolved ixbrlContext) : Prop :=
  forall ref, Soup.get (Soup.deref doc s) "contextRef" = Some ref ->
              table !! ref = None -> c = Raw ref.

Definition unresolved_unit_stays_raw (doc : node)
    (table : gmap string (option string)) (s : path) (u : option string) : Prop :=
  forall ref, Soup.get (Soup.deref doc s) "unitRef" = Some ref ->
              table !! ref = None -> u = Some ref.

(** Two parser objects that differ at most in their context and unit
    tables and in the facts extracted so far. *)
Definition same_but_tables (P Q : parser) : Prop :=
  soup P = soup Q /\ raise_on_error P = raise_on_error Q /\ errors P = errors Q.

(** A numeric fact that refers to a context and to a unit nobody declared. *)
Definition dangling_refs_doc : node :=
  Document [El "html" [] [
    ElNS "ix" "nonFraction" [("contextRef", "c9"); ("unitRef", "u9"); ("name", "uk:Cash")]
         [NavigableString "100"];
    ElNS "ix" "nonNumeric" [("contextRef", "c9"); ("name", "uk:Note")]
         [NavigableString "text"]]].

(** *** The extraction loops, by parser class *)

Definition numeric_elements (cls : parser_class) (doc : node) : list path :=
  match cls with
  | IXBRLParser_class => Soup.find_all doc [] ["nonFraction"]
  | XBRLParser_class => XBRLParser._get_elements doc
  end.

Definition nonnumeric_elements (cls : parser_class) (doc : node) : list path :=
  match cls with
  | IXBRLParser_class => Soup.find_all doc [] ["nonNumeric"]
  | XBRLParser_class => XBRLParser._get_elements doc
  end.

Definition numeric_loop_body `{Runtime} (cls : parser_class) (doc : node) : path -> M unit :=
  match cls with
  | IXBRLParser_class => IXBRLParser.numeric_body
  | XBRLParser_class => XBRLParser.numeric_body doc
  end.

Definition nonnumeric_loop_body `{Runtime} (cls : parser_class) (doc : node)
  : path -> M unit :=
  match cls with
  | IXBRLParser_class => IXBRLParser.nonnumeric_body
  | XBRLParser_class => XBRLParser.nonnumeric_body doc
  end.

(** What the numeric loops keep true of the facts gathered so far. *)
Definition numeric_refs_kept (P0 P : parser) : Prop :=
  soup P = soup P0 /\ contexts P = contexts P0 /\ units P = units P0 /\
  Forall (fun f =>
            unresolved_context_stays_raw (soup P0) (contexts P0)
              (num_soup_tag f) (num_context f) /\
            unresolved_unit_stays_raw (soup P0) (units P0)
              (num_soup_tag f) (num_unit f))
         (numeric P).

(** What the non-numeric loops keep true of the facts gathered so far.
    The inline loop detaches exclusions, which changes no attribute. *)
Definition nonnumeric_refs_kept (P0 P : parser) : Prop :=
  (forall p key, Soup.get (Soup.deref (soup P) p) key
                 = Soup.get (Soup.deref (soup P0) p) key) /\
  contexts P = contexts P0 /\
  Forall (fun f =>
            unresolved_context_stays_raw (soup P0) (contexts P0)
              (nn_soup_tag f) (nn_context f))
         (nonnumeric P).

Definition context_elements (cls : parser_class) (doc : node) : list path :=
  match cls with
  | IXBRLParser_class => IXBRLParser._get_context_elements doc
  | XBRLParser_class => XBRLParser._get_context_elements doc
  end.

Definition unit_elements (cls : parser_class) (doc : node) : list path :=
  match cls with
  | IXBRLParser_class => IXBRLParser._get_unit_elements doc
  | XBRLParser_class => XBRLParser._get_unit_elements doc
  end.

(** A bare document with empty references and an empty context id. *)
Definition empty_refs_doc : node :=
  Document [El "xbrl" [] [
    El "context" [("id", "")] [El "instant" [] [NavigableString "2020-01-01"]];
    El "context" [("id", "c1")] [El "instant" [] [NavigableString "2020-01-01"]];
    El "unit" [("id", "u1")] [El "measure" [] [NavigableString "GBP"]];
    ElNS "uk" "Cash" [("contextRef", ""); ("unitRef", "u1")] [NavigableString "1"];
    ElNS "uk" "Debt" [("contextRef", "c1"); ("unitRef", "")] [NavigableString "2"];
    ElNS "uk" "Note" [("contextRef", "")] [NavigableString "n"]]].

(** *** Continuation chains *)

(** The element the continuation recursion moves to from [s], if any:
    the first element whose id is the [continuedAt] reference of [s],
    provided it is a [continuation] element. *)
Definition continuation_of (doc : node) (s : path) : option path :=
  match Soup.get (Soup.deref doc s) "continuedAt" with
  | Some ref =>
      if Py.truthy (Some ref) then
        match Soup.find_id doc ref with
        | Some t =>
            if (Soup.name_of (Soup.deref doc t) =? "continuation")%string
            then Some t else None
        | None => None
        end
      else None
  | None => None
  end.

(** [is_chain doc s rest]: the links from [s] lead through the elements
    of [rest], in this order, and end at the last of them. *)
Fixpoint is_chain (doc : node) (s : path) (rest : list path) : Prop :=
  match rest with
  | [] => continuation_of doc s = None
  | t :: rest' => continuation_of doc s = Some t /\ is_chain doc t rest'
  end.

Fixpoint concat_texts (doc : node) (l : list path) : string :=
  match l with
  | [] => EmptyString
  | p :: l' => Soup.text (Soup.deref doc p) +:+ concat_texts doc l'
  end.

(** The document once the non-numeric element [s] has lost its exclusion. *)
Definition after_exclusion (doc : node) (s : path) : node :=
  match Soup.find doc s ["exclude"] with
  | Some exclusion => Soup.extract doc exclusion
  | None => doc
  end.

(** A non-numeric element continued twice. *)
Definition chain_doc : node :=
  Document [El "html" [] [
    ElNS "ix" "nonNumeric" [("contextRef", "c1"); ("name", "uk:Note"); ("continuedAt", "k1")]
         [NavigableString "A"];
    ElNS "ix" "continuation" [("id", "k1"); ("continuedAt", "k2")] [NavigableString "-B"];
    ElNS "ix" "continuation" [("id", "k2")] [NavigableString "-C"]]].

(** A non-numeric element with two exclusions. *)
Definition two_exclusions_doc : node :=
  Document [El "html" [] [
    ElNS "ix" "nonNumeric" [("contextRef", "c1"); ("name", "uk:Note")]
         [NavigableString "A";
          ElNS "ix" "exclude" [] [NavigableString "X"];
          NavigableString "B";
          ElNS "ix" "exclude" [] [NavigableString "Y"];
          NavigableString "C"]]].

(** *** Best-effort extraction *)

(** The statements the loops guard with [try], with the tests that
    precede them. *)
Definition context_attempt `{Runtime}
    (get_tag_text : node -> path -> list string -> result (option string))
    (doc : node) (s : path) : M unit :=
  (if negb (Py.truthy (Soup.get (Soup.deref doc s) "id")) then ret tt
   else
     let* s_id := lift (Soup.getitem (Soup.deref doc s) "id") in
     IXBRLParser.context_entry get_tag_text doc s s_id)%method.

Definition bare_numeric_attempt `{Runtime} (doc : node) (s : path) : M unit :=
  (let el := Soup.deref doc s in
   if negb (Py.truthy (Soup.get el "contextRef")) || negb (Py.truthy (Soup.get el "unitRef"))
   then ret tt
   else
     let* context_ref := lift (Soup.getitem el "contextRef") in
     let* unit_ref := lift (Soup.getitem el "unitRef") in
     XBRLParser.numeric_fact doc s context_ref unit_ref)%method.

Definition numeric_attempt `{Runtime} (cls : parser_class) (doc : node)
  : path -> M unit :=
  match cls with
  | IXBRLParser_class => IXBRLParser.numeric_fact
  | XBRLParser_class => bare_numeric_attempt doc
  end.

Definition nonnumeric_attempt `{Runtime} (cls : parser_class) (doc : node)
  : path -> M unit :=
  match cls with
  | IXBRLParser_class => IXBRLParser.nonnumeric_fact
  | XBRLParser_class => XBRLParser.nonnumeric_fact doc
  end.

(** The kind of entry the numeric loop of each class appends. *)
Definition numeric_entry (cls : parser_class) : exn -> path -> error_entry :=
  match cls with
  | IXBRLParser_class => ixbrlError
  | XBRLParser_class => error_dict
  end.

(** The elements are attempted in encounter order, each in the state its
    predecessors left; an entry is due for each attempt that raises. *)
Fixpoint attempt_all (mk : exn -> path -> error_entry) (attempt : path -> M unit)
    (elems : list path) (P : parser) : list error_entry * parser :=
  match elems with
  | [] => ([], P)
  | s :: rest =>
      match attempt s P with
      | (Ok _, P') => attempt_all mk attempt rest P'
      | (Raise e, P') =>
          (mk e s :: fst (attempt_all mk attempt rest P'),
           snd (attempt_all mk attempt rest P'))
      end
  end.

(** One entry per element whose attempt raised, in encounter order. *)
Definition failed_elements (mk : exn -> path -> error_entry) (attempt : path -> M unit)
    (elems : list path) (P : parser) : list error_entry :=
  fst (attempt_all mk attempt elems P).

(** [body] is [attempt] under the handler of the extraction loops. *)
Definition guards (mk : exn -> path -> error_entry) (attempt body : path -> M unit) : Prop :=
  forall s P,
    body s P =
    match attempt s P with
    | (Ok _, P') => (Ok tt, P')
    | (Raise e, P') => record_error (mk e s) e P'
    end.

(** [attempt] neither reads nor writes the error list and the flag. *)
Definition error_frame (attempt : path -> M unit) : Prop :=
  forall s P,
    raise_on_error (snd (attempt s P)) = raise_on_error P /\
    errors (snd (attempt s P)) = errors P /\
    forall l, attempt s (set_errors l P)
              = (fst (attempt s P), set_errors l (snd (attempt s P))).

(** What becomes of a context element: skipped, or its id with the
    context built or the exception raised. *)
Definition context_outcome `{Runtime} (doc : node) (s : path)
  : option (string * result ixbrlContext) :=
  match Soup.get (Soup.deref doc s) "id" with
  | Some s_id =>
      if Py.truthy (Some s_id)
      then Some (s_id, IXBRLParser.build_context BaseParser._get_tag_text doc s s_id)
      else None
  | None => None
  end.

Definition failed_contexts `{Runtime} (doc : node) (elems : list path)
  : list error_entry :=
  omap (fun s => match context_outcome doc s with
                 | Some (_, Raise e) => Some (ixbrlError e s)
                 | _ => None
                 end) elems.

Definition valid_contexts `{Runtime} (doc : node) (elems : list path)
    (table : gmap string ixbrlContext) : gmap string ixbrlContext :=
  fold_left (fun m s => match context_outcome doc s with
                        | Some (s_id, Ok c) => <[s_id := c]> m
                        | _ => m
                        end) elems table.

(** A well-formed document that is neither inline nor bare XBRL. *)
Definition report_doc : node :=
  Document [El "report" [] [El "item" [] [NavigableString "text"]]].

(** A context with one segment, and two facts: one in that context, one
    in a context nobody declared. *)
Definition segment_doc : node :=
  Document [El "html" [] [
    ElNS "ix" "resources" [] [
      ElNS "xbrli" "context" [("id", "c1")]
           [ElNS "xbrli" "entity" [] [
              ElNS "xbrli" "identifier" [("scheme", "registry")] [NavigableString "0123"];
              ElNS "xbrli" "segment" [] [
                El "x" [("dimension", "d1")] [NavigableString " v1 "]]];
            ElNS "xbrli" "instant" [] [NavigableString "2020-01-01"]];
      ElNS "xbrli" "unit" [("id", "u1")]
           [ElNS "xbrli" "measure" [] [NavigableString "iso4217:GBP"]]];
    ElNS "ix" "nonFraction" [("contextRef", "c1"); ("unitRef", "u1"); ("name", "uk:Cash")]
         [NavigableString "100"];
    ElNS "ix" "nonNumeric" [("contextRef", "c9"); ("name", "uk:Note")]
         [NavigableString "text"]]].

(** One malformed context among three. *)
Definition three_contexts_doc : node :=
  Document [El "html" [] [
    ElNS "ix" "resources" [] [
      ElNS "xbrli" "context" [("id", "c1")]
           [ElNS "xbrli" "instant" [] [NavigableString "2020-01-01"]];
      ElNS "xbrli" "context" [("id", "c2")]
           [ElNS "xbrli" "instant" [] [NavigableString "yesterday"]];
      ElNS "xbrli" "context" [("id", "c3")]
           [ElNS "xbrli" "startDate" [] [NavigableString "2020-01-01"];
            ElNS "xbrli" "endDate" [] [NavigableString "2020-12-31"]]]]].

(** *** Unit resolution *)

(** The first exception reading a measure raises, among the unit elements
    that carry an id. *)
Fixpoint first_unit_failure
    (get_tag_text : node -> path -> list string -> result (option string))
    (doc : node) (elems : list path) : option exn :=
  match elems with
  | [] => None
  | s :: rest =>
      match Soup.get (Soup.deref doc s) "id" with
      | Some _ =>
          match get_tag_text doc s ["xbrli:measure"; "measure"] with
          | Raise e => Some e
          | Ok _ => first_unit_failure get_tag_text doc rest
          end
      | None => first_unit_failure get_tag_text doc rest
      end
  end.

(** A reader that fails on every element. *)
Definition failing_reader (doc : node) (s : path) (tag : list string)
  : result (option string) :=
  Raise (ValueError "unreadable").

Definition one_unit_doc : node :=
  Document [El "html" [] [
    ElNS "ix" "resources" [] [
      ElNS "xbrli" "unit" [] [ElNS "xbrli" "measure" [] [NavigableString "pure"]];
      ElNS "xbrli" "unit" [("id", "u1")]
           [ElNS "xbrli" "measure" [] [NavigableString "iso4217:GBP"]]]]].

(** *** Proof steps that recur *)

Ltac unfold_method :=
  unfold guarded, try_except, record_error, bind, lift, gets, modify, ret, raise in *.

(** The outcome of a constructor call and the error it reports do not
    depend on the resolved values passed in: [Lnum] and [Lnn] are the
    lemmas that say so for the two constructors. *)
Ltac same_constructor_outcome Lnum Lnn E1 E2 Hsame :=
  match type of E1 with
  | ixbrlNumeric_init ?n ?t ?c ?u ?s ?a = _ =>
      match type of E2 with
      | ixbrlNumeric_init _ _ ?c' ?u' _ _ = _ =>
          let Hr := fresh "Hr" in
          destruct (Lnum n t c u c' u' s a) as [Hr Hsame];
          rewrite E1, E2 in Hr; simpl in Hr
      end
  | ixbrlNonNumeric_init ?c ?n ?f ?v ?s = _ =>
      match type of E2 with
      | ixbrlNonNumeric_init ?c' _ _ _ _ = _ =>
          let Hr := fresh "Hr" in
          destruct (Lnn c c' n f v s) as [Hr Hsame];
          rewrite E1, E2 in Hr; simpl in Hr
      end
  end.

Ltac same_tables :=
  repeat match goal with
         | |- context [raise_on_error ?P] => is_var P; destruct (raise_on_error P) eqn:?
         end;
  unfold same_but_tables in *; simpl in *; repeat split; congruence.

Ltac frame_cases :=
  unfold_method; simpl;
  repeat (case_match; simplify_eq; simpl in *);
  repeat split; intros; simpl;
  repeat match goal with
         | E : ?x = _ |- context [?x] => rewrite E
         end;
  try reflexivity; try congruence.


(** *** Further definitions: strings, rows and the two modes *)

(** The number a decimal numeral stands for. *)
Fixpoint decimal_value (s : string) : nat :=
  match s with
  | EmptyString => 0
  | String c s' => (nat_of_ascii c - 48) * 10 ^ String.length s' + decimal_value s'
  end.

(** The columns every row of [to_table] starts with. *)
Definition fixed_columns : list string :=
  ["schema"; "name"; "value"; "unit"; "instant"; "startdate"; "enddate"].

(** [f"segment:{i}"] *)
Definition segment_key (i : nat) : string := "segment:" +:+ Py.str_of_nat i.

(** The segments of the context of a fact: none when the context is an
    unresolved reference. *)
Definition row_segments (v : fact) : list (Py.dict string) :=
  match fact_context v with
  | Resolved c => ctx_segments c
  | Raw _ => []
  end.

(** The number of segment columns of the row of a fact. *)
Definition segment_count (v : fact) : nat := Nat.max 1 (length (row_segments v)).

(** The facts [to_table] makes rows of. *)
Definition selected_facts (x : IXBRL) (fields : string) : list fact :=
  if (fields =? "nonnumeric")%string then map NonNumeric (nonnumeric (parser_obj x))
  else if (fields =? "numeric")%string then map Numeric (numeric (parser_obj x))
  else map NonNumeric (nonnumeric (parser_obj x)) ++ map Numeric (numeric (parser_obj x)).

(** The header of a table whose widest row has [m] segment columns; no
    row, no column. *)
Definition header (m : nat) : list string :=
  match m with
  | 0 => []
  | S _ => fixed_columns ++ map segment_key (seq 0 m)
  end.

Definition widest (vs : list fact) : nat :=
  fold_left (fun m v => Nat.max m (segment_count v)) vs 0.

(** *** The two modes *)

Definition set_raise_on_error (b : bool) (P : parser) : parser :=
  {| soup := soup P; raise_on_error := b; errors := errors P;
     contexts := contexts P; schema := schema P; namespaces := namespaces P;
     nonnumeric := nonnumeric P; numeric := numeric P; units := units P |}.

(** [attempt] does not look at the flag. *)
Definition flag_frame (attempt : path -> M unit) : Prop :=
  forall s P b,
    attempt s (set_raise_on_error b P)
    = (fst (attempt s P), set_raise_on_error b (snd (attempt s P))).

(** A method that does not look at the flag. *)
Definition flag_blind (m : M unit) : Prop :=
  forall P b, m (set_raise_on_error b P) = (fst (m P), set_raise_on_error b (snd (m P))).

(** A method that neither raises nor touches the error list and the flag. *)
Definition quiet (m : M unit) : Prop :=
  forall P, m P = (Ok tt, snd (m P)) /\
            raise_on_error (snd (m P)) = raise_on_error P /\
            errors (snd (m P)) = errors P.

(** The two modes of a method: best effort returns and appends the
    entries [F]; fail fast ends in the same state when [F] is empty, and
    raises the error of the first entry of [F] otherwise. *)
Definition modes_agree (m : M unit) : Prop :=
  forall P, raise_on_error P = false ->
    exists P' F,
      m P = (Ok tt, P') /\ raise_on_error P' = false /\ errors P' = errors P ++ F /\
      match F with
      | [] => m (set_raise_on_error true P) = (Ok tt, set_raise_on_error true P')
      | entry :: _ => fst (m (set_raise_on_error true P)) = Raise (entry_error entry)
      end.


(** *** What each pass leaves alone *)

Definition schema_pass_keeps (P Q : parser) : Prop :=
  soup Q = soup P /\ raise_on_error Q = raise_on_error P /\ errors Q = errors P /\
  contexts Q = contexts P /\ units Q = units P /\
  nonnumeric Q = nonnumeric P /\ numeric Q = numeric P.

Definition contexts_pass_keeps (P Q : parser) : Prop :=
  soup Q = soup P /\ raise_on_error Q = raise_on_error P /\
  schema Q = schema P /\ namespaces Q = namespaces P /\ units Q = units P /\
  nonnumeric Q = nonnumeric P /\ numeric Q = numeric P.

Definition units_pass_keeps (P Q : parser) : Prop :=
  soup Q = soup P /\ raise_on_error Q = raise_on_error P /\ errors Q = errors P /\
  schema Q = schema P /\ namespaces Q = namespaces P /\ contexts Q = contexts P /\
  nonnumeric Q = nonnumeric P /\ numeric Q = numeric P.

(** The inline non-numeric pass detaches exclusions: it keeps the
    attributes of every element, not the document. *)
Definition nonnumeric_pass_keeps (P Q : parser) : Prop :=
  raise_on_error Q = raise_on_error P /\
  schema Q = schema P /\ namespaces Q = namespaces P /\
  contexts Q = contexts P /\ units Q = units P /\ numeric Q = numeric P /\
  forall p, Soup.attrs_of (Soup.deref (soup Q) p) = Soup.attrs_of (Soup.deref (soup P) p).

Definition numeric_pass_keeps (P Q : parser) : Prop :=
  soup Q = soup P /\ raise_on_error Q = raise_on_error P /\
  schema Q = schema P /\ namespaces Q = namespaces P /\
  contexts Q = contexts P /\ units Q = units P /\ nonnumeric Q = nonnumeric P.

Ltac pass_frame :=
  unfold_method; simpl;
  repeat (case_match; simplify_eq; simpl in * );
  repeat split; simpl; try congruence.

(** *** Candidates *)

(** The elements a numeric pass tries to make a fact of: every
    [nonFraction] element in the inline variant; in the bare variant the
    elements with a context reference and a unit reference. *)
Definition numeric_candidate (cls : parser_class) (doc : node) (s : path) : bool :=
  match cls with
  | IXBRLParser_class => true
  | XBRLParser_class =>
      Py.truthy (Soup.get (Soup.deref doc s) "contextRef") &&
      Py.truthy (Soup.get (Soup.deref doc s) "unitRef")
  end.

(** The elements a non-numeric pass tries to make a fact of: every
    [nonNumeric] element in the inline variant; in the bare variant the
    elements with a context reference and no unit reference. *)
Definition nonnumeric_candidate (cls : parser_class) (doc : node) (s : path) : bool :=
  match cls with
  | IXBRLParser_class => true
  | XBRLParser_class =>
      Py.truthy (Soup.get (Soup.deref doc s) "contextRef") &&
      negb (Py.truthy (Soup.get (Soup.deref doc s) "unitRef"))
  end.

Definition numeric_candidates (cls : parser_class) (doc : node) : list path :=
  List.filter (numeric_candidate cls doc) (numeric_elements cls doc).

Definition nonnumeric_candidates (cls : parser_class) (doc : node) : list path :=
  List.filter (nonnumeric_candidate cls doc) (nonnumeric_elements cls doc).

(** *** Further sample documents *)

(** An inline document with two numeric and two non-numeric candidates;
    one of each cannot be made a fact of. *)
Definition mixed_facts_doc : node :=
  Document [El "html" [] [
    ElNS "ix" "nonFraction" [("contextRef", "c1"); ("unitRef", "u1"); ("name", "uk:Cash")]
         [NavigableString "100"];
    ElNS "ix" "nonFraction" [("contextRef", "c1"); ("unitRef", "u1"); ("name", "uk:Debt")]
         [NavigableString "n/a"];
    ElNS "ix" "nonNumeric" [("contextRef", "c1"); ("name", "uk:Note")]
         [NavigableString "text"];
    ElNS "ix" "nonNumeric" [("contextRef", "c1")]
         [NavigableString "nameless"]]].

(** A bare document with a numeric and a non-numeric fact. *)
Definition bare_facts_doc : node :=
  Document [El "xbrl" [("xmlns:uk", "http://example.com/uk 2020")] [
    El "context" [("id", "c1")] [El "instant" [] [NavigableString "2020-01-01"]];
    El "unit" [("id", "u1")] [El "measure" [] [NavigableString "iso4217:GBP"]];
    ElNS "uk" "Cash" [("contextRef", "c1"); ("unitRef", "u1")] [NavigableString "100"];
    ElNS "uk" "Note" [("contextRef", "c1")] [NavigableString "text"]]].

(** An inline document whose root declares a namespace. *)
Definition namespaced_doc : node :=
  Document [El "html" [("xmlns:uk", "http://example.com/uk 2020"); ("lang", "en")] [
    ElNS "link" "schemaRef" [("xlink:href", " http://example.com/uk.xsd ")] [];
    ElNS "ix" "nonFraction" [("contextRef", "c1"); ("unitRef", "u1"); ("name", "uk:Cash")]
         [NavigableString "100"];
    ElNS "ix" "nonFraction" [("contextRef", "c1"); ("unitRef", "u1"); ("name", "fr:Cash")]
         [NavigableString "200"]]].

(** *** The header fields *)

(** [self.root_element] *)
Definition root_element_of (cls : parser_class) : string :=
  match cls with
  | IXBRLParser_class => IXBRLParser.root_element
  | XBRLParser_class => XBRLParser.root_element
  end.

(** The attributes [_get_schema] takes for namespace declarations. *)
Definition is_namespace_key (k : string) : bool :=
  Py.startswith "xmlns" k || Py.contains ":"%char k.

(** *** The tables *)

(** The key and the value the unit pass stores for a unit element. *)
Definition unit_entry (doc : node) (s : path) : option (string * option string) :=
  match Soup.get (Soup.deref doc s) "id" with
  | Some s_id =>
      Some (s_id,
            match Soup.find doc s ["xbrli:measure"; "measure"] with
            | Some t => Some (Py.strip (Soup.text (Soup.deref doc t)))
            | None => None
            end)
  | None => None
  end.

(** The key and the value the context pass stores for a context element
    whose construction succeeds. *)
Definition context_entry_of `{Runtime} (doc : node) (s : path)
  : option (string * ixbrlContext) :=
  match context_outcome doc s with
  | Some (s_id, Ok c) => Some (s_id, c)
  | _ => None
  end.

(** The value of the last element of [elems] that has an entry under [k]. *)
Definition last_entry {V} (entry : path -> option (string * V))
    (elems : list path) (k : string) : option V :=
  last (omap (fun s => match entry s with
                       | Some (k', v) => if bool_decide (k' = k) then Some v else None
                       | None => None
                       end) elems).

(** Identifiers declared more than once: the context [c1] three times,
    the last time with a date that cannot be read; the unit [u1] twice;
    a unit with an empty identifier. *)
Definition redeclared_doc : node :=
  Document [El "html" [] [
    ElNS "ix" "resources" [] [
      ElNS "xbrli" "context" [("id", "c1")]
           [ElNS "xbrli" "instant" [] [NavigableString "2020-01-01"]];
      ElNS "xbrli" "context" [("id", "c1")]
           [ElNS "xbrli" "instant" [] [NavigableString "2021-01-01"]];
      ElNS "xbrli" "context" [("id", "c1")]
           [ElNS "xbrli" "instant" [] [NavigableString "next year"]];
      ElNS "xbrli" "unit" [("id", "u1")]
           [ElNS "xbrli" "measure" [] [NavigableString "iso4217:GBP"]];
      ElNS "xbrli" "unit" [("id", "u1")]
           [ElNS "xbrli" "measure" [] [NavigableString " iso4217:USD "]];
      ElNS "xbrli" "unit" [("id", "")] []]]].

(** A segment member with an attribute named [value]. *)
Definition overriding_member : node :=
  El "explicitMember" [("dimension", "d1"); ("value", "v2")] [NavigableString " v1 "].

(** An inline numeric element with an attribute named [unit]. *)
Definition keyword_clash_doc : node :=
  Document [El "html" [] [
    ElNS "ix" "nonFraction"
         [("contextRef", "c1"); ("unitRef", "u1"); ("name", "uk:Cash"); ("unit", "GBP")]
         [NavigableString "100"]]].

(** The keywords the inline numeric pass writes out in its call of the
    constructor of [ixbrlNumeric]. *)
Definition inline_numeric_keywords : list string :=
  ["text"; "context"; "unit"; "soup_tag"].

(** *** Documents *)

(** Induction on documents, the children of an element first. *)
Fixpoint node_children_ind (P : node -> Prop)
    (Hstr : forall s, P (NavigableString s))
    (Htag : forall a pf nm ats cs, Forall P cs -> P (Tag a pf nm ats cs))
    (n : node) : P n :=
  match n with
  | NavigableString s => Hstr s
  | Tag a pf nm ats cs =>
      Htag a pf nm ats cs
        ((fix children (l : list node) : Forall P l :=
            match l with
            | [] => @List.Forall_nil node P
            | c :: l' =>
                @List.Forall_cons node P c l'
                  (node_children_ind P Hstr Htag c) (children l')
            end) cs)
  end.

(** What the child at index [k] of the element [q] contributes to the
    descendants of [q]. *)
Definition item (q : path) (k : nat) (c : node) : list (path * node) :=
  if Soup.is_attached c && Soup.is_tag c
  then (q ++ [k], c) :: Soup.descendants (q ++ [k]) c
  else [].

(** What tag matching looks at: the prefix and the name of an element. *)
Definition label (n : node) : option (option string * string) :=
  match n with
  | Tag _ pf nm _ _ => Some (pf, nm)
  | NavigableString _ => None
  end.

Definition key (e : path * node) : path * option (option string * string) :=
  (fst e, label (snd e)).

Definition label_matches (aliases : list string)
    (l : option (option string * string)) : bool :=
  match l with
  | Some (pf, nm) => Soup.matches_any aliases (Tag true pf nm [] [])
  | None => false
  end.

(** A numeric element inside the exclusion of a non-numeric element, and
    one outside. *)
Definition excluded_fact_doc : node :=
  Document [El "html" [] [
    ElNS "ix" "nonNumeric" [("contextRef", "c1"); ("name", "uk:Note")]
         [NavigableString "A";
          ElNS "ix" "exclude" []
               [ElNS "ix" "nonFraction"
                     [("contextRef", "c1"); ("unitRef", "u1"); ("name", "uk:Cash")]
                     [NavigableString "100"]];
          NavigableString "B"];
    ElNS "ix" "nonFraction" [("contextRef", "c1"); ("unitRef", "u1"); ("name", "uk:Debt")]
         [NavigableString "200"]]].


(** ** Format detection *)

Lemma head_map_filter_is_Some {A B} (f : A -> B) (q : A -> bool) (l : list A) :
  is_Some (head (map f (List.filter q l))) <-> existsb q l = true.
Proof.
  induction l as [|a l IH]; simpl.
  - split; [intros [? ?]; discriminate | discriminate].
  - destruct (q a) eqn:E; simpl.
    + split; eauto.
    + exact IH.
Qed.

Lemma find_single_is_Some (doc : node) (alias : string) :
  is_Some (Soup.find doc [] [alias]) <-> has_element doc alias = true.
Proof.
  unfold Soup.find, Soup.find_all, has_element.
  rewrite head_map_filter_is_Some.
  change (Soup.deref doc []) with doc.
  enough (E : forall l : list (path * node),
             existsb (fun e => Soup.matches_any [alias] (snd e)) l
             = existsb (fun e => Soup.matches alias (snd e)) l)
    by now rewrite E.
  induction l as [|e l IH]; cbn [existsb]; [reflexivity|].
  rewrite IH. unfold Soup.matches_any. cbn [existsb]. now rewrite orb_false_r.
Qed.

Lemma descendants_Tag p a pf nm ats cs :
  Soup.descendants p (Tag a pf nm ats cs) = walk p 0 cs.
Proof.
  simpl. generalize 0. induction cs as [|c cs IH]; intros i; simpl.
  - reflexivity.
  - now rewrite IH.
Qed.

Lemma root_is_first_descendant (doc r : node) :
  root_tag doc = Some r ->
  exists p rest, Soup.descendants [] doc = (p, r) :: rest.
Proof.
  unfold root_tag. destruct doc as [a pf nm ats cs|s]; simpl Soup.contents_of.
  - rewrite descendants_Tag. generalize 0.
    induction cs as [|c cs IH]; intros i Hr.
    + discriminate.
    + simpl in Hr. simpl.
      destruct (Soup.is_attached c && Soup.is_tag c) eqn:E.
      * injection Hr as ->. simpl. eauto.
      * simpl. apply IH. exact Hr.
  - discriminate.
Qed.

Lemma root_html_has_element (doc : node) :
  root_name doc = Some "html" -> has_element doc "html" = true.
Proof.
  unfold root_name. destruct (root_tag doc) as [r|] eqn:Hr; [|discriminate].
  intros Hn. injection Hn as Hn.
  destruct (root_is_first_descendant _ _ Hr) as (p & rest & E).
  unfold has_element. rewrite E. simpl.
  destruct r as [a pf nm ats cs|s]; simpl in *; [|discriminate].
  subst nm. reflexivity.
Qed.

(** C2, as the claim states it, fails: the root element of
    [nested_html_doc] is [xbrl] and not [html], yet the inline parser is
    selected, because an [html] element occurs further down. *)
Lemma nested_html_selects_inline :
  root_name nested_html_doc = Some "xbrl" /\
  _get_parser nested_html_doc = Ok (FILETYPE_IXBRL, IXBRLParser_class).
Proof. split; reflexivity. Qed.

(** C2 (amended): [_get_parser] selects the inline parser exactly when some
    element named [html] occurs anywhere in the document, in particular
    when the root element is [html]; otherwise it selects the bare parser
    exactly when some element named [xbrl] occurs; otherwise it raises
    [IXBRLParseError], and then the constructor raises the same error for
    either value of the flag: no object is built and no extraction step
    runs. *)
Theorem format_detection `{Runtime} (doc : node) :
  (_get_parser doc = Ok (FILETYPE_IXBRL, IXBRLParser_class)
     <-> has_element doc "html" = true) /\
  (root_name doc = Some "html"
     -> _get_parser doc = Ok (FILETYPE_IXBRL, IXBRLParser_class)) /\
  (_get_parser doc = Ok (FILETYPE_XBRL, XBRLParser_class)
     <-> has_element doc "html" = false /\ has_element doc "xbrl" = true) /\
  (_get_parser doc = Raise (IXBRLParseError "Filetype not recognised")
     <-> has_element doc "html" = false /\ has_element doc "xbrl" = false) /\
  (forall e flag, _get_parser doc = Raise e -> IXBRL_init doc flag = Raise e).
Proof.
  assert (Hh := find_single_is_Some doc "html").
  assert (Hx := find_single_is_Some doc "xbrl").
  assert (Hsel : _get_parser doc =
                 if has_element doc "html" then Ok (FILETYPE_IXBRL, IXBRLParser_class)
                 else if has_element doc "xbrl" then Ok (FILETYPE_XBRL, XBRLParser_class)
                 else Raise (IXBRLParseError "Filetype not recognised")).
  { unfold _get_parser.
    destruct (Soup.find doc [] ["html"]) as [t|] eqn:Eh.
    - rewrite (proj1 Hh) by eauto. reflexivity.
    - destruct (has_element doc "html") eqn:Bh.
      + destruct (proj2 Hh eq_refl) as [? ?]; discriminate.
      + destruct (Soup.find doc [] ["xbrl"]) as [t|] eqn:Ex.
        * rewrite (proj1 Hx) by eauto. reflexivity.
        * destruct (has_element doc "xbrl") eqn:Bx; [|reflexivity].
          destruct (proj2 Hx eq_refl) as [? ?]; discriminate. }
  rewrite Hsel. split; [|split; [|split; [|split]]].
  - destruct (has_element doc "html"); [tauto|].
    destruct (has_element doc "xbrl"); split; discriminate.
  - intros E. rewrite (root_html_has_element doc E). reflexivity.
  - destruct (has_element doc "html"); [split; [discriminate|intros [? _]; discriminate]|].
    destruct (has_element doc "xbrl"); [tauto|].
    split; [discriminate|intros [_ ?]; discriminate].
  - destruct (has_element doc "html"); [split; [discriminate|intros [? _]; discriminate]|].
    destruct (has_element doc "xbrl"); [|tauto].
    split; [discriminate|intros [_ ?]; discriminate].
  - intros e flag E. unfold IXBRL_init. rewrite <- Hsel in E. rewrite E. reflexivity.
Qed.

Lemma format_detection_witness :
  root_name html_doc = Some "html" /\
  _get_parser html_doc = Ok (FILETYPE_IXBRL, IXBRLParser_class) /\
  IXBRL_init (Document []) true = Raise (IXBRLParseError "Filetype not recognised").
Proof.
  split; [reflexivity|]. split.
  - apply (proj1 (proj2 (format_detection html_doc))). reflexivity.
  - apply (proj2 (proj2 (proj2 (proj2 (format_detection (Document [])))))).
    reflexivity.
Defined.

(** ** Projection *)

(** C7: [to_table "numeric"] yields the rows of the numeric facts,
    [to_table "nonnumeric"] the rows of the non-numeric facts, and
    [to_table "all"] the non-numeric rows followed by the numeric rows, as
    many as both lists together. *)
Theorem to_table_selection (x : IXBRL) :
  to_table x "numeric" = map (to_row x) (map Numeric (numeric (parser_obj x))) /\
  to_table x "nonnumeric" = map (to_row x) (map NonNumeric (nonnumeric (parser_obj x))) /\
  to_table x "all" = to_table x "nonnumeric" ++ to_table x "numeric" /\
  length (to_table x "all")
    = length (nonnumeric (parser_obj x)) + length (numeric (parser_obj x)).
Proof.
  unfold to_table. cbn [String.eqb Ascii.eqb Bool.eqb].
  repeat split.
  - apply map_app.
  - rewrite !length_map, length_app, !length_map. reflexivity.
Qed.

Lemma row_segment_0 (x : IXBRL) (v : fact) (label : pyval) :
  segment_columns v = [("segment:0", label)] ->
  Py.get (to_row x v) "segment:0" = Some label.
Proof.
  intros E. unfold to_row. rewrite E. reflexivity.
Qed.

(** C8: in a row of [to_table], a fact whose context has the single
    segment with tag [x], dimension [d1] and value [v1] carries
    [segment:0 = "x d1 v1"]; a fact whose context has no segments, or whose
    context is an unresolved reference, carries the single segment column
    [segment:0 = ""]. *)
Theorem segment_columns_of_row (x : IXBRL) (v : fact) :
  (forall c seg,
      fact_context v = Resolved c -> ctx_segments c = [seg] ->
      Py.get seg "tag" = Some "x" -> Py.get seg "dimension" = Some "d1" ->
      Py.get seg "value" = Some "v1" ->
      segment_columns v = [("segment:0", PyStr "x d1 v1")] /\
      Py.get (to_row x v) "segment:0" = Some (PyStr "x d1 v1")) /\
  (forall c,
      fact_context v = Resolved c -> ctx_segments c = [] ->
      segment_columns v = [("segment:0", PyStr "")] /\
      Py.get (to_row x v) "segment:0" = Some (PyStr "")) /\
  (forall ref,
      fact_context v = Raw ref ->
      segment_columns v = [("segment:0", PyStr "")] /\
      Py.get (to_row x v) "segment:0" = Some (PyStr "")).
Proof.
  assert (Hone : forall c seg,
             fact_context v = Resolved c -> ctx_segments c = [seg] ->
             Py.get seg "tag" = Some "x" -> Py.get seg "dimension" = Some "d1" ->
             Py.get seg "value" = Some "v1" ->
             segment_columns v = [("segment:0", PyStr "x d1 v1")]).
  { intros c seg Hc Hs Ht Hd Hv. unfold segment_columns. rewrite Hc, Hs.
    cbn [enumerate map]. unfold segment_label. rewrite Ht, Hd, Hv. reflexivity. }
  assert (Hnone : forall c,
             fact_context v = Resolved c -> ctx_segments c = [] ->
             segment_columns v = [("segment:0", PyStr "")]).
  { intros c Hc Hs. unfold segment_columns. now rewrite Hc, Hs. }
  assert (Hraw : forall ref,
             fact_context v = Raw ref ->
             segment_columns v = [("segment:0", PyStr "")]).
  { intros ref Hc. unfold segment_columns. now rewrite Hc. }
  split; [|split].
  - intros c seg Hc Hs Ht Hd Hv. split; [eauto|]. apply row_segment_0. eauto.
  - intros c Hc Hs. split; [eauto|]. apply row_segment_0. eauto.
  - intros ref Hc. split; [eauto|]. apply row_segment_0. eauto.
Qed.

Lemma segment_columns_of_row_witness :
  Py.get (to_row empty_document
            (single_segment_fact [("tag", "x"); ("value", "v1"); ("dimension", "d1")]))
         "segment:0" = Some (PyStr "x d1 v1").
Proof.
  pose (seg := [("tag", "x"); ("value", "v1"); ("dimension", "d1")] : Py.dict string).
  destruct (segment_columns_of_row empty_document (single_segment_fact seg)) as [H _].
  exact (proj2 (H _ seg eq_refl eq_refl eq_refl eq_refl eq_refl)).
Defined.

(** The rows of [segment_doc], from the document to the table: the
    non-numeric fact with the unknown context comes first and has the empty
    segment column, the numeric fact has the column of its segment. *)
Example segment_doc_table :
  match IXBRL_init segment_doc false with
  | Ok x =>
      map (fun row => (Py.get row "name", Py.get row "segment:0")) (to_table x "all")
      = [(Some (PyStr "Note"), Some (PyStr ""));
         (Some (PyStr "Cash"), Some (PyStr "x d1 v1"))] /\
      length (to_table x "numeric") = 1 /\ length (to_table x "nonnumeric") = 1
  | Raise _ => False
  end.
Proof. vm_compute. repeat split. Qed.

(** ** Continuation *)

Lemma cycle_step (depth : nat) (start : string) :
  IXBRLParser._get_tag_continuation (S depth) cycle_doc [0; 1] start
    = IXBRLParser._get_tag_continuation depth cycle_doc [0; 2] (start +:+ "B") /\
  IXBRLParser._get_tag_continuation (S depth) cycle_doc [0; 2] start
    = IXBRLParser._get_tag_continuation depth cycle_doc [0; 3] (start +:+ "C") /\
  IXBRLParser._get_tag_continuation (S depth) cycle_doc [0; 3] start
    = IXBRLParser._get_tag_continuation depth cycle_doc [0; 1] (start +:+ "D").
Proof. repeat split. Qed.

Lemma cycle_never_returns (depth : nat) :
  forall start,
    IXBRLParser._get_tag_continuation depth cycle_doc [0; 1] start = Raise RecursionError /\
    IXBRLParser._get_tag_continuation depth cycle_doc [0; 2] start = Raise RecursionError /\
    IXBRLParser._get_tag_continuation depth cycle_doc [0; 3] start = Raise RecursionError.
Proof.
  induction depth as [|depth IH]; intros start.
  - repeat split.
  - destruct (cycle_step depth start) as (E1 & E2 & E3).
    rewrite E1, E2, E3.
    split; [apply IH|]. split; apply IH.
Qed.

(** C6: continuation resolution has no guard against a circle of
    references.  On [cycle_doc], whose continuation elements refer to one
    another in a circle, the recursion started at the non-numeric element
    never returns a string: whatever depth the interpreter allows, the
    recursion uses it up ([RecursionError]).  The references do form a
    circle: [k1] continues at [k2], [k2] at [k3] and [k3] at [k1] again. *)
Theorem continuation_cycle_is_unbounded :
  (forall depth start,
      IXBRLParser._get_tag_continuation depth cycle_doc cycle_head start
        = Raise RecursionError) /\
  (forall depth start,
      IXBRLParser.nonnumeric_text depth cycle_doc cycle_head <> Ok start) /\
  Soup.find_id cycle_doc "k1" = Some [0; 1] /\
  Soup.get (Soup.deref cycle_doc [0; 1]) "continuedAt" = Some "k2" /\
  Soup.find_id cycle_doc "k2" = Some [0; 2] /\
  Soup.get (Soup.deref cycle_doc [0; 2]) "continuedAt" = Some "k3" /\
  Soup.find_id cycle_doc "k3" = Some [0; 3] /\
  Soup.get (Soup.deref cycle_doc [0; 3]) "continuedAt" = Some "k1".
Proof.
  assert (Hhead : forall depth start,
             IXBRLParser._get_tag_continuation depth cycle_doc cycle_head start
             = Raise RecursionError).
  { intros [|depth] start; [reflexivity|].
    change (IXBRLParser._get_tag_continuation (S depth) cycle_doc cycle_head start)
      with (IXBRLParser._get_tag_continuation depth cycle_doc [0; 1] (start +:+ "A")).
    apply cycle_never_returns. }
  split; [exact Hhead|]. split; [|repeat split].
  intros depth start. unfold IXBRLParser.nonnumeric_text.
  change (Py.truthy (Soup.get (Soup.deref cycle_doc cycle_head) "continuedAt")) with true.
  cbv iota. rewrite Hhead. discriminate.
Qed.

(** Run through the constructor with the interpreter's usual limit, the
    circle costs the fact: the [RecursionError] is caught like any other
    exception of the element. *)
Example cycle_doc_parsed :
  match IXBRL_init cycle_doc false with
  | Ok x => nonnumeric (parser_obj x) = [] /\
            errors (parser_obj x) = [ixbrlError RecursionError cycle_head]
  | Raise _ => False
  end.
Proof. vm_compute. split; reflexivity. Qed.

(** ** Loops and handlers *)

Lemma for_each_cons (s : path) (rest : list path) (body : path -> M unit) (P : parser) :
  for_each (s :: rest) body P =
  match body s P with
  | (Ok _, P') => for_each rest body P'
  | (Raise e, P') => (Raise e, P')
  end.
Proof. reflexivity. Qed.

Lemma for_each_invariant (I : parser -> Prop) (elems : list path)
    (body : path -> M unit) :
  (forall s P, I P -> I (snd (body s P))) ->
  forall P, I P -> I (snd (for_each elems body P)).
Proof.
  intros Hbody. induction elems as [|s rest IH]; intros P HP.
  - exact HP.
  - rewrite for_each_cons. specialize (Hbody s P HP).
    destruct (body s P) as [[[]|e] P']; simpl in *; auto.
Qed.

Lemma for_each_related (R : parser -> parser -> Prop) (elems : list path)
    (body1 body2 : path -> M unit) :
  (forall s P Q, R P Q ->
     fst (body1 s P) = fst (body2 s Q) /\ R (snd (body1 s P)) (snd (body2 s Q))) ->
  forall P Q, R P Q ->
    fst (for_each elems body1 P) = fst (for_each elems body2 Q) /\
    R (snd (for_each elems body1 P)) (snd (for_each elems body2 Q)).
Proof.
  intros Hbody. induction elems as [|s rest IH]; intros P Q HR.
  - split; [reflexivity|exact HR].
  - rewrite !for_each_cons. destruct (Hbody s P Q HR) as [Hf Hs].
    destruct (body1 s P) as [[[]|e1] P'], (body2 s Q) as [[[]|e2] Q'];
      simpl in *; try discriminate; auto.
Qed.

Lemma guarded_snd (mk : exn -> path -> error_entry) (s : path) (attempt : M unit)
    (P : parser) :
  snd (guarded mk s attempt P) =
  match attempt P with
  | (Ok _, P') => P'
  | (Raise e, P') => set_errors (errors P' ++ [mk e s]) P'
  end.
Proof.
  unfold_method. destruct (attempt P) as [[[]|e] P']; simpl; [reflexivity|].
  destruct (raise_on_error P'); reflexivity.
Qed.

(** Detaching an element leaves the attributes of every element alone. *)
Lemma attrs_of_detach (n : node) : Soup.attrs_of (Soup.detach n) = Soup.attrs_of n.
Proof. destruct n; reflexivity. Qed.

Lemma contents_of_detach (n : node) : Soup.contents_of (Soup.detach n) = Soup.contents_of n.
Proof. destruct n; reflexivity. Qed.

Lemma attrs_of_deref_extract (x : path) :
  forall (doc : node) (p : path),
    Soup.attrs_of (Soup.deref (Soup.extract doc x) p) = Soup.attrs_of (Soup.deref doc p).
Proof.
  unfold Soup.extract. induction x as [|i x IH]; intros doc p.
  - destruct p as [|j p]; simpl.
    + apply attrs_of_detach.
    + now rewrite contents_of_detach.
  - destruct doc as [a pf nm ats cs|str]; [|reflexivity].
    destruct p as [|j p]; [reflexivity|].
    simpl. rewrite list_lookup_alter.
    destruct (decide (i = j)) as [->|Hne].
    + destruct (cs !! j) as [c|]; simpl; [apply IH|reflexivity].
    + reflexivity.
Qed.

Lemma get_deref_extract (doc : node) (x p : path) (key : string) :
  Soup.get (Soup.deref (Soup.extract doc x) p) key = Soup.get (Soup.deref doc p) key.
Proof. unfold Soup.get. now rewrite attrs_of_deref_extract. Qed.

(** ** Reference resolution *)

Lemma resolve_context_unresolved (table : gmap string ixbrlContext) (ref : string) :
  table !! ref = None -> resolve_context table ref = Raw ref.
Proof. intros E. unfold resolve_context. now rewrite E. Qed.

Lemma resolve_unit_unresolved (table : gmap string (option string)) (ref : string) :
  table !! ref = None -> resolve_unit table ref = Some ref.
Proof. intros E. unfold resolve_unit. now rewrite E. Qed.

Lemma ixbrlNumeric_init_fields `{Runtime} name text c u s attrs f :
  ixbrlNumeric_init name text c u s attrs = Ok f ->
  num_context f = c /\ num_unit f = u /\ num_soup_tag f = s.
Proof.
  unfold ixbrlNumeric_init. intros E.
  destruct (check_kwargs _ attrs) as [[]|e]; simpl in E; [|discriminate].
  destruct (numeric_fields name text attrs) as [[[sch nm] v]|e]; simpl in E;
    [|discriminate].
  injection E as <-. auto.
Qed.

Lemma ixbrlNumeric_init_raises `{Runtime} name text c u c' u' s attrs :
  raises (ixbrlNumeric_init name text c u s attrs)
  = raises (ixbrlNumeric_init name text c' u' s attrs) /\
  (forall e, ixbrlNumeric_init name text c u s attrs = Raise e ->
             ixbrlNumeric_init name text c' u' s attrs = Raise e).
Proof.
  unfold ixbrlNumeric_init.
  destruct (check_kwargs _ attrs) as [[]|e]; simpl; [|auto].
  destruct (numeric_fields name text attrs) as [[[sch nm] v]|e]; simpl; [|auto].
  split; [reflexivity|discriminate].
Qed.

Lemma ixbrlNonNumeric_init_fields `{Runtime} c name format_ value s f :
  ixbrlNonNumeric_init c name format_ value s = Ok f ->
  nn_context f = c /\ nn_soup_tag f = s.
Proof.
  unfold ixbrlNonNumeric_init. intros E.
  destruct (nonnumeric_fields name format_ value) as [[[sch nm] v]|e]; simpl in E;
    [|discriminate].
  injection E as <-. auto.
Qed.

Lemma ixbrlNonNumeric_init_raises `{Runtime} c c' name format_ value s :
  raises (ixbrlNonNumeric_init c name format_ value s)
  = raises (ixbrlNonNumeric_init c' name format_ value s) /\
  (forall e, ixbrlNonNumeric_init c name format_ value s = Raise e ->
             ixbrlNonNumeric_init c' name format_ value s = Raise e).
Proof.
  unfold ixbrlNonNumeric_init.
  destruct (nonnumeric_fields name format_ value) as [[[sch nm] v]|e]; simpl; [|auto].
  split; [reflexivity|discriminate].
Qed.

Lemma getitem_Ok (n : node) (key v : string) :
  Soup.getitem n key = Ok v -> Soup.get n key = Some v.
Proof. unfold Soup.getitem. destruct (Soup.get n key); congruence. Qed.

Lemma inline_numeric_fact_kept `{Runtime} (P0 : parser) (s : path) (P : parser) :
  numeric_refs_kept P0 P ->
  numeric_refs_kept P0 (snd (IXBRLParser.numeric_body s P)).
Proof.
  intros (Hs & Hc & Hu & Hf). unfold IXBRLParser.numeric_body. rewrite guarded_snd.
  unfold IXBRLParser.numeric_fact. unfold_method.
  destruct (Soup.getitem (Soup.deref (soup P) s) "contextRef") as [cref|e] eqn:Ec;
    [|repeat split; assumption].
  destruct (Soup.getitem (Soup.deref (soup P) s) "unitRef") as [uref|e] eqn:Eu;
    [|repeat split; assumption].
  destruct (ixbrlNumeric_init _ _ _ _ _ _) as [f|e] eqn:Ef;
    [|repeat split; assumption].
  simpl. repeat split; try assumption.
  apply Forall_app. split; [assumption|]. constructor; [|constructor].
  apply ixbrlNumeric_init_fields in Ef. destruct Ef as (-> & -> & ->).
  apply getitem_Ok in Ec, Eu. rewrite Hs in Ec, Eu. rewrite Hc, Hu.
  split; intros ref Hr Hn; rewrite Hr in *; simplify_eq.
  - now apply resolve_context_unresolved.
  - now apply resolve_unit_unresolved.
Qed.

Lemma bare_numeric_fact_kept `{Runtime} (P0 : parser) (s : path) (P : parser) :
  numeric_refs_kept P0 P ->
  numeric_refs_kept P0 (snd (XBRLParser.numeric_body (soup P0) s P)).
Proof.
  intros (Hs & Hc & Hu & Hf). unfold XBRLParser.numeric_body. cbv zeta.
  destruct (negb _ || negb _); [repeat split; assumption|].
  unfold bind at 1, lift at 1.
  destruct (Soup.getitem (Soup.deref (soup P0) s) "contextRef") as [cref|e] eqn:Ec;
    [|repeat split; assumption].
  unfold bind at 1, lift at 1.
  destruct (Soup.getitem (Soup.deref (soup P0) s) "unitRef") as [uref|e] eqn:Eu;
    [|repeat split; assumption].
  rewrite guarded_snd. unfold XBRLParser.numeric_fact. unfold_method.
  destruct (ixbrlNumeric_init _ _ _ _ _ _) as [f|e] eqn:Ef;
    [|repeat split; assumption].
  simpl. repeat split; try assumption.
  apply Forall_app. split; [assumption|]. constructor; [|constructor].
  apply ixbrlNumeric_init_fields in Ef. destruct Ef as (-> & -> & ->).
  apply getitem_Ok in Ec, Eu. rewrite Hc, Hu.
  split; intros ref Hr Hn; rewrite Hr in *; simplify_eq.
  - now apply resolve_context_unresolved.
  - now apply resolve_unit_unresolved.
Qed.

Lemma inline_nonnumeric_fact_kept `{Runtime} (P0 : parser) (s : path) (P : parser) :
  nonnumeric_refs_kept P0 P ->
  nonnumeric_refs_kept P0 (snd (IXBRLParser.nonnumeric_body s P)).
Proof.
  intros (Hs & Hc & Hf). unfold IXBRLParser.nonnumeric_body. rewrite guarded_snd.
  unfold IXBRLParser.nonnumeric_fact. unfold_method.
  destruct (Soup.getitem (Soup.deref (soup P) s) "contextRef") as [cref|e] eqn:Ec;
    [|repeat split; assumption].
  assert (Hfact : forall (Q : parser) text,
             nonnumeric_refs_kept P0 Q -> nonnumeric Q = nonnumeric P ->
             nonnumeric_refs_kept P0
               (match
                  (let '(r, Q') :=
                     match Soup.getitem (Soup.deref (soup Q) s) "name" with
                     | Ok name =>
                         match ixbrlNonNumeric_init
                                 (resolve_context (contexts Q) cref) name
                                 (Soup.get (Soup.deref (soup P) s) "format")
                                 (IXBRLParser.clean text) s with
                         | Ok fact => (Ok tt, set_nonnumeric (nonnumeric Q ++ [fact]) Q)
                         | Raise e => (Raise e, Q)
                         end
                     | Raise e => (Raise e, Q)
                     end in (r, Q'))
                with
                | (Ok _, Q') => Q'
                | (Raise e, Q') => set_errors (errors Q' ++ [ixbrlError e s]) Q'
                end)).
  { intros Q text (Hs' & Hc' & Hf') Hnn.
    destruct (Soup.getitem (Soup.deref (soup Q) s) "name") as [name|e];
      [|repeat split; assumption].
    destruct (ixbrlNonNumeric_init _ _ _ _ _) as [f|e] eqn:Ef;
      [|repeat split; assumption].
    simpl. repeat split; try assumption.
    apply Forall_app. split; [assumption|]. constructor; [|constructor].
    apply ixbrlNonNumeric_init_fields in Ef. destruct Ef as (-> & ->).
    apply getitem_Ok in Ec. rewrite Hs in Ec. rewrite Hc'.
    intros ref Hr Hn. rewrite Hr in Ec. simplify_eq.
    now apply resolve_context_unresolved. }
  destruct (Soup.find (soup P) s ["exclude"]) as [x|]; simpl.
  - assert (HQ : nonnumeric_refs_kept P0 (set_soup (Soup.extract (soup P) x) P)).
    { repeat split; try assumption. intros p key. simpl.
      now rewrite get_deref_extract. }
    destruct (IXBRLParser.nonnumeric_text _ _ _) as [text|e];
      [|exact HQ].
    specialize (Hfact _ text HQ eq_refl). simpl in Hfact.
    destruct (Soup.getitem _ "name") as [name|e]; [|exact Hfact].
    destruct (ixbrlNonNumeric_init _ _ _ _ _) as [f|e]; exact Hfact.
  - assert (HQ : nonnumeric_refs_kept P0 P) by (repeat split; assumption).
    destruct (IXBRLParser.nonnumeric_text _ _ _) as [text|e];
      [|exact HQ].
    specialize (Hfact _ text HQ eq_refl). simpl in Hfact.
    destruct (Soup.getitem _ "name") as [name|e]; [|exact Hfact].
    destruct (ixbrlNonNumeric_init _ _ _ _ _) as [f|e]; exact Hfact.
Qed.

Lemma bare_nonnumeric_fact_kept `{Runtime} (P0 : parser) (s : path) (P : parser) :
  nonnumeric_refs_kept P0 P ->
  nonnumeric_refs_kept P0 (snd (XBRLParser.nonnumeric_body (soup P0) s P)).
Proof.
  intros (Hs & Hc & Hf). unfold XBRLParser.nonnumeric_body. rewrite guarded_snd.
  unfold XBRLParser.nonnumeric_fact. cbv zeta.
  destruct (negb _ || _); [repeat split; assumption|].
  unfold_method.
  destruct (Soup.getitem (Soup.deref (soup P0) s) "contextRef") as [cref|e] eqn:Ec;
    [|repeat split; assumption].
  destruct (ixbrlNonNumeric_init _ _ _ _ _) as [f|e] eqn:Ef;
    [|repeat split; assumption].
  simpl. repeat split; try assumption.
  apply Forall_app. split; [assumption|]. constructor; [|constructor].
  apply ixbrlNonNumeric_init_fields in Ef. destruct Ef as (-> & ->).
  apply getitem_Ok in Ec. rewrite Hc.
  intros ref Hr Hn. rewrite Hr in Ec. simplify_eq.
  now apply resolve_context_unresolved.
Qed.

Lemma _get_numeric_loop `{Runtime} (cls : parser_class) (P : parser) :
  _get_numeric cls P
  = for_each (numeric_elements cls (soup P)) (numeric_loop_body cls (soup P))
             (set_numeric [] P).
Proof. destruct cls; reflexivity. Qed.

Lemma _get_nonnumeric_loop `{Runtime} (cls : parser_class) (P : parser) :
  _get_nonnumeric cls P
  = for_each (nonnumeric_elements cls (soup P)) (nonnumeric_loop_body cls (soup P))
             (set_nonnumeric [] P).
Proof. destruct cls; reflexivity. Qed.

Lemma numeric_facts_kept `{Runtime} (cls : parser_class) (P : parser) :
  numeric_refs_kept P (snd (_get_numeric cls P)).
Proof.
  rewrite _get_numeric_loop.
  apply for_each_invariant; [|repeat split; constructor].
  intros s Q HQ. destruct cls; simpl.
  - now apply inline_numeric_fact_kept.
  - now apply bare_numeric_fact_kept.
Qed.

Lemma nonnumeric_facts_kept `{Runtime} (cls : parser_class) (P : parser) :
  nonnumeric_refs_kept P (snd (_get_nonnumeric cls P)).
Proof.
  rewrite _get_nonnumeric_loop.
  apply for_each_invariant; [|repeat split; constructor].
  intros s Q HQ. destruct cls; simpl.
  - now apply inline_nonnumeric_fact_kept.
  - now apply bare_nonnumeric_fact_kept.
Qed.

Lemma inline_numeric_fact_related `{Runtime} (s : path) (P Q : parser) :
  same_but_tables P Q ->
  fst (IXBRLParser.numeric_body s P) = fst (IXBRLParser.numeric_body s Q) /\
  same_but_tables (snd (IXBRLParser.numeric_body s P)) (snd (IXBRLParser.numeric_body s Q)).
Proof.
  intros HR. assert (HR' := HR). destruct HR' as (Hs & Hr & He).
  unfold IXBRLParser.numeric_body, IXBRLParser.numeric_fact. unfold_method.
  rewrite Hs.
  destruct (Soup.getitem (Soup.deref (soup Q) s) "contextRef") as [cref|e]; simpl.
  2:{ same_tables. }
  destruct (Soup.getitem (Soup.deref (soup Q) s) "unitRef") as [uref|e]; simpl.
  2:{ same_tables. }
  destruct (ixbrlNumeric_init None _ (resolve_context (contexts P) cref) _ _ _)
    as [f1|e1] eqn:E1;
  destruct (ixbrlNumeric_init None _ (resolve_context (contexts Q) cref) _ _ _)
    as [f2|e2] eqn:E2;
  same_constructor_outcome (@ixbrlNumeric_init_raises _) (@ixbrlNonNumeric_init_raises _) E1 E2 Hsame; try discriminate; simpl.
  - same_tables.
  - assert (e2 = e1) as -> by (specialize (Hsame e1 E1); congruence).
    same_tables.
Qed.

Lemma bare_numeric_fact_related `{Runtime} (doc : node) (s : path) (P Q : parser) :
  same_but_tables P Q ->
  fst (XBRLParser.numeric_body doc s P) = fst (XBRLParser.numeric_body doc s Q) /\
  same_but_tables (snd (XBRLParser.numeric_body doc s P)) (snd (XBRLParser.numeric_body doc s Q)).
Proof.
  intros HR. assert (HR' := HR). destruct HR' as (Hs & Hr & He).
  unfold XBRLParser.numeric_body. cbv zeta.
  destruct (negb _ || negb _); [same_tables|].
  unfold XBRLParser.numeric_fact. unfold_method.
  destruct (Soup.getitem (Soup.deref doc s) "contextRef") as [cref|e]; simpl.
  2:{ same_tables. }
  destruct (Soup.getitem (Soup.deref doc s) "unitRef") as [uref|e]; simpl.
  2:{ same_tables. }
  destruct (ixbrlNumeric_init (Some _) _ (resolve_context (contexts P) cref) _ _ _)
    as [f1|e1] eqn:E1;
  destruct (ixbrlNumeric_init (Some _) _ (resolve_context (contexts Q) cref) _ _ _)
    as [f2|e2] eqn:E2;
  same_constructor_outcome (@ixbrlNumeric_init_raises _) (@ixbrlNonNumeric_init_raises _) E1 E2 Hsame; try discriminate; simpl.
  - same_tables.
  - assert (e2 = e1) as -> by (specialize (Hsame e1 E1); congruence).
    same_tables.
Qed.

Lemma inline_nonnumeric_fact_related `{Runtime} (s : path) (P Q : parser) :
  same_but_tables P Q ->
  fst (IXBRLParser.nonnumeric_body s P) = fst (IXBRLParser.nonnumeric_body s Q) /\
  same_but_tables (snd (IXBRLParser.nonnumeric_body s P)) (snd (IXBRLParser.nonnumeric_body s Q)).
Proof.
  intros HR. assert (HR' := HR). destruct HR' as (Hs & Hr & He).
  unfold IXBRLParser.nonnumeric_body, IXBRLParser.nonnumeric_fact. unfold_method.
  rewrite Hs.
  destruct (Soup.getitem (Soup.deref (soup Q) s) "contextRef") as [cref|e]; simpl.
  2:{ same_tables. }
  destruct (Soup.find (soup Q) s ["exclude"]) as [x|]; simpl; rewrite ?Hs.
  - destruct (IXBRLParser.nonnumeric_text _ _ _) as [text|e]; simpl.
    2:{ same_tables. }
    destruct (Soup.getitem _ "name") as [name|e]; simpl.
    2:{ same_tables. }
    destruct (ixbrlNonNumeric_init (resolve_context (contexts P) cref) _ _ _ _)
      as [f1|e1] eqn:E1;
    destruct (ixbrlNonNumeric_init (resolve_context (contexts Q) cref) _ _ _ _)
      as [f2|e2] eqn:E2;
    same_constructor_outcome (@ixbrlNumeric_init_raises _) (@ixbrlNonNumeric_init_raises _) E1 E2 Hsame; try discriminate; simpl.
    + same_tables.
    + assert (e2 = e1) as -> by (specialize (Hsame e1 E1); congruence).
      same_tables.
  - destruct (IXBRLParser.nonnumeric_text _ _ _) as [text|e]; simpl.
    2:{ same_tables. }
    destruct (Soup.getitem _ "name") as [name|e]; simpl.
    2:{ same_tables. }
    destruct (ixbrlNonNumeric_init (resolve_context (contexts P) cref) _ _ _ _)
      as [f1|e1] eqn:E1;
    destruct (ixbrlNonNumeric_init (resolve_context (contexts Q) cref) _ _ _ _)
      as [f2|e2] eqn:E2;
    same_constructor_outcome (@ixbrlNumeric_init_raises _) (@ixbrlNonNumeric_init_raises _) E1 E2 Hsame; try discriminate; simpl.
    + same_tables.
    + assert (e2 = e1) as -> by (specialize (Hsame e1 E1); congruence).
      same_tables.
Qed.

Lemma bare_nonnumeric_fact_related `{Runtime} (doc : node) (s : path) (P Q : parser) :
  same_but_tables P Q ->
  fst (XBRLParser.nonnumeric_body doc s P) = fst (XBRLParser.nonnumeric_body doc s Q) /\
  same_but_tables (snd (XBRLParser.nonnumeric_body doc s P)) (snd (XBRLParser.nonnumeric_body doc s Q)).
Proof.
  intros HR. assert (HR' := HR). destruct HR' as (Hs & Hr & He).
  unfold XBRLParser.nonnumeric_body, XBRLParser.nonnumeric_fact. cbv zeta.
  destruct (negb _ || _); [same_tables|].
  unfold_method.
  destruct (Soup.getitem (Soup.deref doc s) "contextRef") as [cref|e]; simpl.
  2:{ same_tables. }
  destruct (ixbrlNonNumeric_init (resolve_context (contexts P) cref) _ _ _ _)
    as [f1|e1] eqn:E1;
  destruct (ixbrlNonNumeric_init (resolve_context (contexts Q) cref) _ _ _ _)
    as [f2|e2] eqn:E2;
  same_constructor_outcome (@ixbrlNumeric_init_raises _) (@ixbrlNonNumeric_init_raises _) E1 E2 Hsame; try discriminate; simpl.
  - same_tables.
  - assert (e2 = e1) as -> by (specialize (Hsame e1 E1); congruence).
    same_tables.
Qed.

Lemma numeric_outcome_same `{Runtime} (cls : parser_class) (P Q : parser) :
  same_but_tables P Q ->
  fst (_get_numeric cls P) = fst (_get_numeric cls Q) /\
  same_but_tables (snd (_get_numeric cls P)) (snd (_get_numeric cls Q)).
Proof.
  intros HR. assert (Hs : soup P = soup Q) by apply HR.
  rewrite !_get_numeric_loop, Hs.
  apply for_each_related.
  - intros s P' Q' HR'. destruct cls; simpl.
    + now apply inline_numeric_fact_related.
    + now apply bare_numeric_fact_related.
  - destruct HR as (? & ? & ?); repeat split; assumption.
Qed.

Lemma nonnumeric_outcome_same `{Runtime} (cls : parser_class) (P Q : parser) :
  same_but_tables P Q ->
  fst (_get_nonnumeric cls P) = fst (_get_nonnumeric cls Q) /\
  same_but_tables (snd (_get_nonnumeric cls P)) (snd (_get_nonnumeric cls Q)).
Proof.
  intros HR. assert (Hs : soup P = soup Q) by apply HR.
  rewrite !_get_nonnumeric_loop, Hs.
  apply for_each_related.
  - intros s P' Q' HR'. destruct cls; simpl.
    + now apply inline_nonnumeric_fact_related.
    + now apply bare_nonnumeric_fact_related.
  - destruct HR as (? & ? & ?); repeat split; assumption.
Qed.

Lemma same_but_tables_replaced (P : parser) ctable utable :
  same_but_tables (set_units utable (set_contexts ctable P)) P.
Proof. repeat split. Qed.

(** C1: in both variants, a numeric or non-numeric fact whose element
    refers to a context (or, for a numeric fact, a unit) that is not a key
    of the resolved table holds that literal reference as its context (or
    unit): [Raw ref] and [Some ref], never [None].  The reference being
    unknown raises and records nothing: whether an extraction pass raises,
    and the errors it leaves behind, are the same whatever the two tables
    contain. *)
Theorem unresolved_reference_is_literal `{Runtime} (cls : parser_class) (P : parser) :
  (forall f, f ∈ numeric (snd (_get_numeric cls P)) ->
     unresolved_context_stays_raw (soup P) (contexts P) (num_soup_tag f) (num_context f) /\
     unresolved_unit_stays_raw (soup P) (units P) (num_soup_tag f) (num_unit f)) /\
  (forall f, f ∈ nonnumeric (snd (_get_nonnumeric cls P)) ->
     unresolved_context_stays_raw (soup P) (contexts P) (nn_soup_tag f) (nn_context f)) /\
  (forall ctable utable,
     let Q := set_units utable (set_contexts ctable P) in
     fst (_get_numeric cls Q) = fst (_get_numeric cls P) /\
     errors (snd (_get_numeric cls Q)) = errors (snd (_get_numeric cls P)) /\
     fst (_get_nonnumeric cls Q) = fst (_get_nonnumeric cls P) /\
     errors (snd (_get_nonnumeric cls Q)) = errors (snd (_get_nonnumeric cls P))).
Proof.
  split; [|split].
  - intros f Hf. destruct (numeric_facts_kept cls P) as (_ & _ & _ & Hall).
    rewrite Forall_forall in Hall. now apply Hall.
  - intros f Hf. destruct (nonnumeric_facts_kept cls P) as (_ & _ & Hall).
    rewrite Forall_forall in Hall. now apply Hall.
  - intros ctable utable Q.
    destruct (numeric_outcome_same cls Q P (same_but_tables_replaced P ctable utable))
      as (Hn1 & _ & _ & Hn2).
    destruct (nonnumeric_outcome_same cls Q P (same_but_tables_replaced P ctable utable))
      as (Hm1 & _ & _ & Hm2).
    auto.
Qed.

Lemma unresolved_reference_witness :
  exists f,
    numeric (snd (_get_numeric IXBRLParser_class (parser_init dangling_refs_doc false))) = [f] /\
    num_context f = Raw "c9" /\ num_unit f = Some "u9".
Proof.
  eexists. split; [vm_compute; reflexivity|].
  destruct (unresolved_reference_is_literal IXBRLParser_class
              (parser_init dangling_refs_doc false)) as [Hnum _].
  match goal with
  | |- num_context ?f = _ /\ _ =>
      destruct (Hnum f) as [Hc Hu]; [vm_compute; left|]
  end.
  split; [apply Hc | apply Hu]; reflexivity.
Defined.

(** ** Truthiness of reference attributes *)

Lemma truthy_empty : Py.truthy (Some "") = false.
Proof. reflexivity. Qed.

Lemma truthy_not_empty (o : option string) : Py.truthy o = true -> o <> Some "".
Proof. intros E ->. discriminate. Qed.

Lemma truthy_Some (k : string) : Py.truthy (Some k) = true -> k <> "".
Proof. intros E ->. discriminate. Qed.

Lemma _get_contexts_loop `{Runtime} (cls : parser_class) (P : parser) :
  _get_contexts cls P
  = for_each (context_elements cls (soup P))
             (IXBRLParser.context_body BaseParser._get_tag_text (soup P)) (set_contexts ∅ P).
Proof. destruct cls; reflexivity. Qed.

Lemma _get_units_loop (cls : parser_class) (P : parser) :
  _get_units cls P
  = for_each (unit_elements cls (soup P))
             (IXBRLParser.unit_body BaseParser._get_tag_text (soup P)) (set_units ∅ P).
Proof. destruct cls; reflexivity. Qed.

Lemma bare_numeric_truthy `{Runtime} (P : parser) :
  Forall (fun f =>
            Py.truthy (Soup.get (Soup.deref (soup P) (num_soup_tag f)) "contextRef") = true /\
            Py.truthy (Soup.get (Soup.deref (soup P) (num_soup_tag f)) "unitRef") = true)
         (numeric (snd (XBRLParser._get_numeric P))).
Proof.
  change (XBRLParser._get_numeric P) with (_get_numeric XBRLParser_class P).
  rewrite _get_numeric_loop.
  apply (for_each_invariant
           (fun Q => Forall (fun f =>
              Py.truthy (Soup.get (Soup.deref (soup P) (num_soup_tag f)) "contextRef") = true /\
              Py.truthy (Soup.get (Soup.deref (soup P) (num_soup_tag f)) "unitRef") = true)
              (numeric Q))); [|constructor].
  intros s Q HQ. simpl. unfold XBRLParser.numeric_body. cbv zeta.
  destruct (Py.truthy (Soup.get (Soup.deref (soup P) s) "contextRef")) eqn:Ec;
    [|exact HQ].
  destruct (Py.truthy (Soup.get (Soup.deref (soup P) s) "unitRef")) eqn:Eu;
    [|exact HQ].
  simpl. unfold bind at 1, lift at 1.
  destruct (Soup.getitem (Soup.deref (soup P) s) "contextRef") as [cref|e];
    [|exact HQ].
  unfold bind at 1, lift at 1.
  destruct (Soup.getitem (Soup.deref (soup P) s) "unitRef") as [uref|e];
    [|exact HQ].
  rewrite guarded_snd. unfold XBRLParser.numeric_fact. unfold_method.
  destruct (ixbrlNumeric_init _ _ _ _ _ _) as [f|e] eqn:Ef; [|exact HQ].
  simpl. apply Forall_app. split; [exact HQ|]. constructor; [|constructor].
  apply ixbrlNumeric_init_fields in Ef. destruct Ef as (_ & _ & ->). auto.
Qed.

Lemma bare_nonnumeric_truthy `{Runtime} (P : parser) :
  Forall (fun f =>
            Py.truthy (Soup.get (Soup.deref (soup P) (nn_soup_tag f)) "contextRef") = true)
         (nonnumeric (snd (XBRLParser._get_nonnumeric P))).
Proof.
  change (XBRLParser._get_nonnumeric P) with (_get_nonnumeric XBRLParser_class P).
  rewrite _get_nonnumeric_loop.
  apply (for_each_invariant
           (fun Q => Forall (fun f =>
              Py.truthy (Soup.get (Soup.deref (soup P) (nn_soup_tag f)) "contextRef") = true)
              (nonnumeric Q))); [|constructor].
  intros s Q HQ. simpl. unfold XBRLParser.nonnumeric_body. rewrite guarded_snd.
  unfold XBRLParser.nonnumeric_fact. cbv zeta.
  destruct (Py.truthy (Soup.get (Soup.deref (soup P) s) "contextRef")) eqn:Ec;
    [|exact HQ].
  destruct (Py.truthy (Soup.get (Soup.deref (soup P) s) "unitRef")) eqn:Eu;
    [exact HQ|].
  simpl. unfold_method.
  destruct (Soup.getitem (Soup.deref (soup P) s) "contextRef") as [cref|e];
    [|exact HQ].
  destruct (ixbrlNonNumeric_init _ _ _ _ _) as [f|e] eqn:Ef; [|exact HQ].
  simpl. apply Forall_app. split; [exact HQ|]. constructor; [|constructor].
  apply ixbrlNonNumeric_init_fields in Ef. destruct Ef as (_ & ->). auto.
Qed.

Lemma context_keys_truthy `{Runtime} (cls : parser_class) (P : parser) :
  contexts (snd (_get_contexts cls P)) !! "" = None.
Proof.
  rewrite _get_contexts_loop.
  apply (for_each_invariant (fun Q => contexts Q !! "" = None));
    [|apply lookup_empty].
  intros s Q HQ. unfold IXBRLParser.context_body.
  destruct (Py.truthy (Soup.get (Soup.deref (soup P) s) "id")) eqn:Ei; [|exact HQ].
  simpl. unfold bind at 1, lift at 1. unfold Soup.getitem.
  destruct (Soup.get (Soup.deref (soup P) s) "id") as [s_id|]; [|discriminate].
  rewrite guarded_snd. unfold IXBRLParser.context_entry. unfold_method.
  destruct (IXBRLParser.build_context _ _ _ _) as [c|e]; [|exact HQ].
  simpl. rewrite lookup_insert_ne; [exact HQ|]. now apply truthy_Some.
Qed.

(** C10: presence of a reference attribute is decided by truthiness, so
    the empty string counts as absent.  In the bare variant the loop body
    for an element whose [contextRef] or [unitRef] is [""] does
    nothing in numeric extraction, and the iteration for an element whose
    [contextRef] is [""] does nothing in non-numeric extraction: no fact is
    built and no error recorded.  Hence no numeric fact comes from an
    element with an empty [contextRef] or [unitRef], and no non-numeric fact
    from one with an empty [contextRef].  Likewise the iteration of context
    resolution for a context element whose [id] is [""] does nothing, and
    the context table never has the key [""]. *)
Theorem empty_reference_counts_as_absent `{Runtime} (P : parser) :
  (forall doc s Q,
      Soup.get (Soup.deref doc s) "contextRef" = Some ""
      \/ Soup.get (Soup.deref doc s) "unitRef" = Some "" ->
      XBRLParser.numeric_body doc s Q = (Ok tt, Q)) /\
  (forall doc s Q,
      Soup.get (Soup.deref doc s) "contextRef" = Some "" ->
      XBRLParser.nonnumeric_body doc s Q = (Ok tt, Q)) /\
  (forall get_tag_text doc s Q,
      Soup.get (Soup.deref doc s) "id" = Some "" ->
      IXBRLParser.context_body get_tag_text doc s Q = (Ok tt, Q)) /\
  (forall f, f ∈ numeric (snd (XBRLParser._get_numeric P)) ->
      Soup.get (Soup.deref (soup P) (num_soup_tag f)) "contextRef" <> Some "" /\
      Soup.get (Soup.deref (soup P) (num_soup_tag f)) "unitRef" <> Some "") /\
  (forall f, f ∈ nonnumeric (snd (XBRLParser._get_nonnumeric P)) ->
      Soup.get (Soup.deref (soup P) (nn_soup_tag f)) "contextRef" <> Some "") /\
  (forall cls, contexts (snd (_get_contexts cls P)) !! "" = None).
Proof.
  split; [|split; [|split; [|split; [|split]]]].
  - intros doc s Q [E|E]; unfold XBRLParser.numeric_body; cbv zeta; rewrite E;
      rewrite truthy_empty; simpl; rewrite ?orb_true_r; reflexivity.
  - intros doc s Q E. unfold XBRLParser.nonnumeric_body, guarded, try_except,
      XBRLParser.nonnumeric_fact. cbv zeta. rewrite E, truthy_empty. reflexivity.
  - intros gt doc s Q E. unfold IXBRLParser.context_body. rewrite E, truthy_empty. reflexivity.
  - intros f Hf. assert (Hall := bare_numeric_truthy P).
    rewrite Forall_forall in Hall. destruct (Hall f Hf) as [Hc Hu].
    split; now apply truthy_not_empty.
  - intros f Hf. assert (Hall := bare_nonnumeric_truthy P).
    rewrite Forall_forall in Hall. apply truthy_not_empty. now apply Hall.
  - intros cls. apply context_keys_truthy.
Qed.

Lemma empty_reference_witness :
  XBRLParser.numeric_body empty_refs_doc [0; 3] (parser_init empty_refs_doc false)
    = (Ok tt, parser_init empty_refs_doc false) /\
  XBRLParser.numeric_body empty_refs_doc [0; 4] (parser_init empty_refs_doc false)
    = (Ok tt, parser_init empty_refs_doc false) /\
  XBRLParser.nonnumeric_body empty_refs_doc [0; 5] (parser_init empty_refs_doc false)
    = (Ok tt, parser_init empty_refs_doc false) /\
  IXBRLParser.context_body BaseParser._get_tag_text empty_refs_doc [0; 0]
    (parser_init empty_refs_doc false) = (Ok tt, parser_init empty_refs_doc false).
Proof.
  destruct (empty_reference_counts_as_absent (parser_init empty_refs_doc false))
    as (Hnum & Hnn & Hctx & _).
  split; [|split; [|split]].
  - apply Hnum. left. reflexivity.
  - apply Hnum. right. reflexivity.
  - apply Hnn. reflexivity.
  - apply Hctx. reflexivity.
Defined.

(** The same document, run through the whole constructor: the two
    elements with an empty reference give no numeric fact, the element
    with context [c1] and an empty [unitRef] is taken as non-numeric, and
    only the context [c1] is resolved. *)
Example empty_refs_doc_parsed :
  match IXBRL_init empty_refs_doc false with
  | Ok x =>
      map num_soup_tag (numeric (parser_obj x)) = [] /\
      map nn_soup_tag (nonnumeric (parser_obj x)) = [[0; 4]] /\
      map fst (map_to_list (contexts (parser_obj x))) = ["c1"] /\
      errors (parser_obj x) = []
  | Raise _ => False
  end.
Proof. vm_compute. repeat split. Qed.

(** ** Continuation chains *)

Lemma append_nil_r (s : string) : s +:+ "" = s.
Proof.
  induction s as [|c s IH]; [reflexivity|].
  change (String c (s +:+ "") = String c s). now rewrite IH.
Qed.

Lemma append_assoc (s t u : string) : (s +:+ t) +:+ u = s +:+ (t +:+ u).
Proof.
  induction s as [|c s IH]; [reflexivity|].
  change (String c ((s +:+ t) +:+ u) = String c (s +:+ (t +:+ u))). now rewrite IH.
Qed.

Lemma tag_continuation_step (depth : nat) (doc : node) (s : path) (start : string) :
  Soup.is_tag (Soup.deref doc s) = true ->
  IXBRLParser._get_tag_continuation (S depth) doc s start =
  match continuation_of doc s with
  | Some t =>
      IXBRLParser._get_tag_continuation depth doc t (start +:+ Soup.text (Soup.deref doc s))
  | None => Ok (start +:+ Soup.text (Soup.deref doc s))
  end.
Proof.
  intros Htag. cbn [IXBRLParser._get_tag_continuation]. rewrite Htag. cbn [negb].
  unfold continuation_of.
  destruct (Soup.get (Soup.deref doc s) "continuedAt") as [ref|]; [|reflexivity].
  destruct (Py.truthy (Some ref)); [|reflexivity].
  destruct (Soup.find_id doc ref) as [t|]; [|reflexivity].
  destruct (Soup.name_of (Soup.deref doc t) =? "continuation")%string; reflexivity.
Qed.

Lemma continuation_of_is_tag (doc : node) (s t : path) :
  continuation_of doc s = Some t -> Soup.is_tag (Soup.deref doc t) = true.
Proof.
  unfold continuation_of.
  destruct (Soup.get (Soup.deref doc s) "continuedAt") as [ref|]; [|discriminate].
  destruct (Py.truthy (Some ref)); [|discriminate].
  destruct (Soup.find_id doc ref) as [t'|]; [|discriminate].
  destruct (Soup.name_of (Soup.deref doc t') =? "continuation")%string eqn:E;
    [|discriminate].
  intros [= <-]. destruct (Soup.deref doc t'); [reflexivity|discriminate].
Qed.

Lemma tag_continuation_chain (doc : node) (rest : list path) :
  forall (s : path) (depth : nat) (start : string),
    Soup.is_tag (Soup.deref doc s) = true ->
    is_chain doc s rest ->
    length rest < depth ->
    IXBRLParser._get_tag_continuation depth doc s start
    = Ok (start +:+ concat_texts doc (s :: rest)).
Proof.
  induction rest as [|t rest IH]; intros s depth start Htag Hchain Hdepth;
    (destruct depth as [|depth]; [lia|]); rewrite tag_continuation_step by exact Htag;
    simpl in Hchain.
  - rewrite Hchain. simpl. now rewrite append_nil_r.
  - destruct Hchain as [Hnext Hchain]. rewrite Hnext.
    rewrite IH; [|now apply (continuation_of_is_tag doc s)|exact Hchain|simpl in Hdepth; lia].
    cbn [concat_texts]. now rewrite append_assoc.
Qed.

Lemma nonnumeric_text_chain (doc : node) (s : path) (rest : list path) (depth : nat) :
  Soup.is_tag (Soup.deref doc s) = true ->
  is_chain doc s rest ->
  length rest < depth ->
  IXBRLParser.nonnumeric_text depth doc s = Ok (concat_texts doc (s :: rest)).
Proof.
  intros Htag Hchain Hdepth. unfold IXBRLParser.nonnumeric_text.
  destruct (Py.truthy (Soup.get (Soup.deref doc s) "continuedAt")) eqn:E.
  - now rewrite (tag_continuation_chain doc rest s depth "").
  - destruct rest as [|t rest]; simpl in Hchain.
    + simpl. now rewrite append_nil_r.
    + destruct Hchain as [Hnext _]. unfold continuation_of in Hnext.
      destruct (Soup.get (Soup.deref doc s) "continuedAt") as [ref|]; [|discriminate].
      rewrite E in Hnext. discriminate.
Qed.

(** C4: a non-numeric element [s] heading the chain [rest] of continuation
    elements gets, as its value, the texts of [s] and of the linked
    elements concatenated in link order, then stripped and freed of
    newlines once ([clean]): this is the value the fact is built from.  The
    texts are read once the exclusion of [s] is removed; the recursion
    needs one level of depth per link. *)
Theorem continuation_value_is_concatenation `{Runtime}
    (P : parser) (s : path) (rest : list path) (cref name : string)
    (fields : string * string * pyval) :
  let doc := after_exclusion (soup P) s in
  Soup.is_tag (Soup.deref doc s) = true ->
  is_chain doc s rest ->
  length rest < recursion_limit ->
  Soup.get (Soup.deref (soup P) s) "contextRef" = Some cref ->
  Soup.get (Soup.deref (soup P) s) "name" = Some name ->
  nonnumeric_fields name (Soup.get (Soup.deref (soup P) s) "format")
    (IXBRLParser.clean (concat_texts doc (s :: rest))) = Ok fields ->
  IXBRLParser.nonnumeric_text recursion_limit doc s = Ok (concat_texts doc (s :: rest)) /\
  exists P',
    IXBRLParser.nonnumeric_fact s P = (Ok tt, P') /\
    soup P' = doc /\
    nonnumeric P' =
      nonnumeric P ++
      [{| nn_context := resolve_context (contexts P) cref;
          nn_schema := fst (fst fields);
          nn_name := snd (fst fields);
          nn_format := Soup.get (Soup.deref (soup P) s) "format";
          nn_value := snd fields;
          nn_soup_tag := s |}].
Proof.
  intros doc Htag Hchain Hdepth Hcref Hname Hfields.
  assert (Htext := nonnumeric_text_chain doc s rest recursion_limit Htag Hchain Hdepth).
  split; [exact Htext|].
  assert (Hname' : Soup.getitem (Soup.deref doc s) "name" = Ok name).
  { unfold Soup.getitem, doc, after_exclusion.
    destruct (Soup.find (soup P) s ["exclude"]) as [x|];
      rewrite ?get_deref_extract, Hname; reflexivity. }
  unfold IXBRLParser.nonnumeric_fact. unfold_method.
  unfold Soup.getitem at 1. rewrite Hcref.
  subst doc. unfold after_exclusion in *.
  destruct (Soup.find (soup P) s ["exclude"]) as [x|]; cbn [soup set_soup];
    rewrite Htext, Hname'; unfold ixbrlNonNumeric_init; rewrite Hfields;
    destruct fields as [[sch nm] v]; simpl; eexists; repeat split.
Qed.

Lemma continuation_value_witness :
  exists P',
    IXBRLParser.nonnumeric_fact [0; 0] (parser_init chain_doc false) = (Ok tt, P') /\
    map nn_value (nonnumeric P') = [PyStr "A-B-C"].
Proof.
  destruct (continuation_value_is_concatenation
              (parser_init chain_doc false) [0; 0] [[0; 1]; [0; 2]] "c1" "uk:Note"
              ("uk", "Note", PyStr "A-B-C"))
    as (_ & P' & Hrun & _ & Hfacts).
  - reflexivity.
  - repeat split.
  - apply Nat.ltb_lt. reflexivity.
  - reflexivity.
  - reflexivity.
  - reflexivity.
  - exists P'. split; [exact Hrun|]. rewrite Hfacts. reflexivity.
Defined.

(** The chain of C4 run through the whole constructor. *)
Example chain_doc_parsed :
  match IXBRL_init chain_doc false with
  | Ok x => map nn_value (nonnumeric (parser_obj x)) = [PyStr "A-B-C"] /\
            errors (parser_obj x) = []
  | Raise _ => False
  end.
Proof. vm_compute. split; reflexivity. Qed.

(** ** Exclusions *)

(** C5 fails on the code: [_get_nonnumeric] detaches the first [exclude]
    element only.  On [two_exclusions_doc] the text [Y] of the second
    exclusion is part of the value. *)
Lemma second_exclusion_survives :
  Soup.find two_exclusions_doc [0; 0] ["exclude"] = Some [0; 0; 1] /\
  Soup.text (Soup.deref (after_exclusion two_exclusions_doc [0; 0]) [0; 0]) = "ABYC" /\
  match IXBRL_init two_exclusions_doc false with
  | Ok x => map nn_value (nonnumeric (parser_obj x)) = [PyStr "ABYC"]
  | Raise _ => False
  end.
Proof. vm_compute. repeat split. Qed.

(** ** Best-effort extraction *)

Lemma set_errors_same (P : parser) : set_errors (errors P) P = P.
Proof. destruct P; reflexivity. Qed.

Lemma best_effort_loop (mk : exn -> path -> error_entry)
    (attempt body : path -> M unit) (elems : list path) :
  guards mk attempt body -> error_frame attempt ->
  forall P l,
    raise_on_error P = false ->
    for_each elems body (set_errors l P)
    = (Ok tt, set_errors (l ++ failed_elements mk attempt elems P)
                         (snd (attempt_all mk attempt elems P))).
Proof.
  intros Hguard Hframe. unfold failed_elements.
  induction elems as [|s rest IH]; intros P l Hflag.
  - simpl. now rewrite app_nil_r.
  - rewrite for_each_cons, Hguard.
    destruct (Hframe s P) as (Hf & _ & Hl). rewrite Hl.
    cbn [attempt_all].
    destruct (attempt s P) as [[[]|e] P'] eqn:E; cbn [fst snd] in *.
    + apply IH. congruence.
    + unfold_method. cbn [raise_on_error set_errors errors].
      rewrite Hf, Hflag.
      change (set_errors (l ++ [mk e s]) (set_errors l P'))
        with (set_errors (l ++ [mk e s]) P').
      rewrite IH by congruence. cbn [fst snd]. now rewrite <- app_assoc.
Qed.

Lemma best_effort_stage (mk : exn -> path -> error_entry)
    (attempt body : path -> M unit) (elems : list path) (P : parser) :
  guards mk attempt body -> error_frame attempt ->
  raise_on_error P = false ->
  exists P',
    for_each elems body P = (Ok tt, P') /\
    raise_on_error P' = false /\
    errors P' = errors P ++ failed_elements mk attempt elems P.
Proof.
  intros Hguard Hframe Hflag.
  assert (Hrun := best_effort_loop mk attempt body elems Hguard Hframe P (errors P) Hflag).
  rewrite set_errors_same in Hrun. eexists. split; [exact Hrun|].
  split; [|reflexivity]. cbn [raise_on_error set_errors].
  clear Hrun. revert P Hflag. induction elems as [|s rest IH]; intros P Hflag.
  - exact Hflag.
  - cbn [attempt_all]. destruct (Hframe s P) as (Hf & _ & _).
    destruct (attempt s P) as [[[]|e] P']; cbn [fst snd] in *; apply IH; congruence.
Qed.

Lemma guarded_guards (mk : exn -> path -> error_entry) (attempt : path -> M unit) :
  guards mk attempt (fun s => guarded mk s (attempt s)).
Proof.
  intros s P. unfold guarded, try_except.
  destruct (attempt s P) as [[[]|e] P']; reflexivity.
Qed.

Lemma truthy_getitem (n : node) (key : string) :
  Py.truthy (Soup.get n key) = true -> exists v, Soup.getitem n key = Ok v.
Proof.
  unfold Soup.getitem. destruct (Soup.get n key) as [v|]; [eauto|discriminate].
Qed.

Lemma bare_numeric_guards `{Runtime} (doc : node) :
  guards error_dict (bare_numeric_attempt doc) (XBRLParser.numeric_body doc).
Proof.
  intros s P. unfold XBRLParser.numeric_body, bare_numeric_attempt. cbv zeta.
  destruct (Py.truthy (Soup.get (Soup.deref doc s) "contextRef")) eqn:Ec;
    [|reflexivity].
  destruct (Py.truthy (Soup.get (Soup.deref doc s) "unitRef")) eqn:Eu;
    [|reflexivity].
  destruct (truthy_getitem _ _ Ec) as [c ->], (truthy_getitem _ _ Eu) as [u ->].
  exact (guarded_guards error_dict (fun s => XBRLParser.numeric_fact doc s c u) s P).
Qed.

Lemma context_guards `{Runtime}
    (get_tag_text : node -> path -> list string -> result (option string)) (doc : node) :
  guards ixbrlError (context_attempt get_tag_text doc) (IXBRLParser.context_body get_tag_text doc).
Proof.
  intros s P. unfold IXBRLParser.context_body, context_attempt.
  destruct (Py.truthy (Soup.get (Soup.deref doc s) "id")) eqn:Ei; [|reflexivity].
  destruct (truthy_getitem _ _ Ei) as [s_id ->].
  exact (guarded_guards ixbrlError
           (fun s => IXBRLParser.context_entry get_tag_text doc s s_id) s P).
Qed.

Lemma numeric_guards `{Runtime} (cls : parser_class) (doc : node) :
  guards (numeric_entry cls) (numeric_attempt cls doc) (numeric_loop_body cls doc).
Proof.
  destruct cls; simpl.
  - apply (guarded_guards ixbrlError IXBRLParser.numeric_fact).
  - apply bare_numeric_guards.
Qed.

Lemma nonnumeric_guards `{Runtime} (cls : parser_class) (doc : node) :
  guards ixbrlError (nonnumeric_attempt cls doc) (nonnumeric_loop_body cls doc).
Proof.
  destruct cls; simpl.
  - apply (guarded_guards ixbrlError IXBRLParser.nonnumeric_fact).
  - apply (guarded_guards ixbrlError (XBRLParser.nonnumeric_fact doc)).
Qed.

Lemma numeric_frame `{Runtime} (cls : parser_class) (doc : node) :
  error_frame (numeric_attempt cls doc).
Proof.
  intros s P. destruct cls; simpl.
  - unfold IXBRLParser.numeric_fact. frame_cases.
  - unfold bare_numeric_attempt, XBRLParser.numeric_fact. cbv zeta. frame_cases.
Qed.

Lemma nonnumeric_frame `{Runtime} (cls : parser_class) (doc : node) :
  error_frame (nonnumeric_attempt cls doc).
Proof.
  intros s P. destruct cls; simpl.
  - unfold IXBRLParser.nonnumeric_fact. frame_cases.
  - unfold XBRLParser.nonnumeric_fact. cbv zeta. frame_cases.
Qed.

Lemma context_frame `{Runtime}
    (get_tag_text : node -> path -> list string -> result (option string)) (doc : node) :
  error_frame (context_attempt get_tag_text doc).
Proof.
  intros s P. unfold context_attempt, IXBRLParser.context_entry. frame_cases.
Qed.

Lemma schema_stage (cls : parser_class) (P : parser) :
  _get_schema cls P = (Ok tt, snd (_get_schema cls P)) /\
  soup (snd (_get_schema cls P)) = soup P /\
  raise_on_error (snd (_get_schema cls P)) = raise_on_error P /\
  errors (snd (_get_schema cls P)) = errors P.
Proof.
  destruct cls; unfold _get_schema, IXBRLParser._get_schema; unfold_method; simpl;
    unfold Soup.getitem;
    repeat (case_match; simplify_eq; simpl in * );
    repeat split; try reflexivity; try discriminate.
Qed.

Lemma context_attempt_outcome `{Runtime} (doc : node) (s : path) (Q : parser) :
  context_attempt BaseParser._get_tag_text doc s Q =
  match context_outcome doc s with
  | Some (s_id, Ok c) => (Ok tt, set_contexts (<[s_id := c]> (contexts Q)) Q)
  | Some (_, Raise e) => (Raise e, Q)
  | None => (Ok tt, Q)
  end.
Proof.
  unfold context_attempt, context_outcome, IXBRLParser.context_entry, Soup.getitem.
  destruct (Soup.get (Soup.deref doc s) "id") as [s_id|]; [|reflexivity].
  destruct (Py.truthy (Some s_id)); [|reflexivity].
  unfold_method. cbn [negb].
  destruct (IXBRLParser.build_context BaseParser._get_tag_text doc s s_id);
    reflexivity.
Qed.

Lemma failed_contexts_cons `{Runtime} (doc : node) (s : path) (rest : list path) :
  failed_contexts doc (s :: rest) =
  match context_outcome doc s with
  | Some (_, Raise e) => ixbrlError e s :: failed_contexts doc rest
  | _ => failed_contexts doc rest
  end.
Proof.
  unfold failed_contexts. cbn [omap list_omap].
  destruct (context_outcome doc s) as [[s_id [c|e]]|]; reflexivity.
Qed.

Lemma valid_contexts_cons `{Runtime} (doc : node) (s : path) (rest : list path)
    (table : gmap string ixbrlContext) :
  valid_contexts doc (s :: rest) table =
  valid_contexts doc rest
    match context_outcome doc s with
    | Some (s_id, Ok c) => <[s_id := c]> table
    | _ => table
    end.
Proof. reflexivity. Qed.

Lemma context_attempts `{Runtime} (doc : node) (elems : list path) :
  forall Q,
    attempt_all ixbrlError (context_attempt BaseParser._get_tag_text doc) elems Q
    = (failed_contexts doc elems,
       set_contexts (valid_contexts doc elems (contexts Q)) Q).
Proof.
  induction elems as [|s rest IH]; intros Q.
  - destruct Q; reflexivity.
  - cbn [attempt_all].
    rewrite context_attempt_outcome, failed_contexts_cons, valid_contexts_cons.
    destruct (context_outcome doc s) as [[s_id [c|e]]|]; rewrite IH; reflexivity.
Qed.

Lemma contexts_stage `{Runtime} (cls : parser_class) (P : parser) :
  raise_on_error P = false ->
  _get_contexts cls P = (Ok tt, snd (_get_contexts cls P)) /\
  soup (snd (_get_contexts cls P)) = soup P /\
  raise_on_error (snd (_get_contexts cls P)) = false /\
  errors (snd (_get_contexts cls P))
    = errors P ++ failed_contexts (soup P) (context_elements cls (soup P)) /\
  contexts (snd (_get_contexts cls P))
    = valid_contexts (soup P) (context_elements cls (soup P)) ∅.
Proof.
  intros Hflag. rewrite _get_contexts_loop.
  assert (Hrun := best_effort_loop ixbrlError
                    (context_attempt BaseParser._get_tag_text (soup P))
                    (IXBRLParser.context_body BaseParser._get_tag_text (soup P))
                    (context_elements cls (soup P))
                    (context_guards _ _) (context_frame _ _)
                    (set_contexts ∅ P) (errors P) Hflag).
  change (set_errors (errors P) (set_contexts ∅ P))
    with (set_contexts ∅ (set_errors (errors P) P)) in Hrun.
  rewrite set_errors_same in Hrun. rewrite Hrun.
  unfold failed_elements. rewrite context_attempts.
  repeat split; try reflexivity. exact Hflag.
Qed.

Lemma units_loop_outcome
    (get_tag_text : node -> path -> list string -> result (option string))
    (doc : node) (elems : list path) :
  forall Q,
    fst (for_each elems (IXBRLParser.unit_body get_tag_text doc) Q)
    = match first_unit_failure get_tag_text doc elems with
      | Some e => Raise e
      | None => Ok tt
      end /\
    errors (snd (for_each elems (IXBRLParser.unit_body get_tag_text doc) Q)) = errors Q /\
    raise_on_error (snd (for_each elems (IXBRLParser.unit_body get_tag_text doc) Q))
      = raise_on_error Q /\
    soup (snd (for_each elems (IXBRLParser.unit_body get_tag_text doc) Q)) = soup Q /\
    contexts (snd (for_each elems (IXBRLParser.unit_body get_tag_text doc) Q)) = contexts Q.
Proof.
  induction elems as [|s rest IH]; intros Q.
  - repeat split.
  - rewrite for_each_cons. cbn [first_unit_failure]. unfold IXBRLParser.unit_body at 1 3 5 7 9.
    destruct (Soup.get (Soup.deref doc s) "id") as [s_id|].
    + unfold_method.
      destruct (get_tag_text doc s ["xbrli:measure"; "measure"]) as [m|e].
      * apply (IH (set_units (<[s_id:=m]> (units Q)) Q)).
      * repeat split.
    + apply IH.
Qed.

Lemma base_reader_never_fails (doc : node) (elems : list path) :
  first_unit_failure BaseParser._get_tag_text doc elems = None.
Proof.
  induction elems as [|s rest IH]; [reflexivity|].
  cbn [first_unit_failure]. unfold BaseParser._get_tag_text at 1.
  destruct (Soup.get (Soup.deref doc s) "id"); [|exact IH].
  destruct (Soup.find doc s ["xbrli:measure"; "measure"]); exact IH.
Qed.

Lemma units_stage (cls : parser_class) (P : parser) :
  _get_units cls P = (Ok tt, snd (_get_units cls P)) /\
  soup (snd (_get_units cls P)) = soup P /\
  raise_on_error (snd (_get_units cls P)) = raise_on_error P /\
  errors (snd (_get_units cls P)) = errors P /\
  contexts (snd (_get_units cls P)) = contexts P.
Proof.
  rewrite _get_units_loop.
  destruct (units_loop_outcome BaseParser._get_tag_text (soup P)
              (unit_elements cls (soup P)) (set_units ∅ P))
    as (Hfst & He & Hr & Hs & Hc).
  rewrite base_reader_never_fails in Hfst.
  repeat split; try assumption.
  rewrite <- Hfst. apply surjective_pairing.
Qed.

Lemma nonnumeric_stage `{Runtime} (cls : parser_class) (P : parser) :
  raise_on_error P = false ->
  _get_nonnumeric cls P = (Ok tt, snd (_get_nonnumeric cls P)) /\
  raise_on_error (snd (_get_nonnumeric cls P)) = false /\
  errors (snd (_get_nonnumeric cls P))
    = errors P ++ failed_elements ixbrlError (nonnumeric_attempt cls (soup P))
                    (nonnumeric_elements cls (soup P)) (set_nonnumeric [] P).
Proof.
  intros Hflag. rewrite _get_nonnumeric_loop.
  destruct (best_effort_stage ixbrlError (nonnumeric_attempt cls (soup P))
              (nonnumeric_loop_body cls (soup P)) (nonnumeric_elements cls (soup P))
              (set_nonnumeric [] P) (nonnumeric_guards _ _) (nonnumeric_frame _ _) Hflag)
    as (P' & -> & Hf & He).
  auto.
Qed.

Lemma numeric_stage `{Runtime} (cls : parser_class) (P : parser) :
  raise_on_error P = false ->
  _get_numeric cls P = (Ok tt, snd (_get_numeric cls P)) /\
  raise_on_error (snd (_get_numeric cls P)) = false /\
  errors (snd (_get_numeric cls P))
    = errors P ++ failed_elements (numeric_entry cls) (numeric_attempt cls (soup P))
                    (numeric_elements cls (soup P)) (set_numeric [] P).
Proof.
  intros Hflag. rewrite _get_numeric_loop.
  destruct (best_effort_stage (numeric_entry cls) (numeric_attempt cls (soup P))
              (numeric_loop_body cls (soup P)) (numeric_elements cls (soup P))
              (set_numeric [] P) (numeric_guards _ _) (numeric_frame _ _) Hflag)
    as (P' & -> & Hf & He).
  auto.
Qed.

(** C3, as the claim states it, fails: with the fail-fast flag disabled,
    the parse of a document that has neither an [html] nor an [xbrl]
    element does not complete; [_get_parser] raises whatever the flag. *)
Lemma unrecognised_document_does_not_complete :
  _get_parser report_doc = Raise (IXBRLParseError "Filetype not recognised") /\
  IXBRL_init report_doc false = Raise (IXBRLParseError "Filetype not recognised").
Proof. split; reflexivity. Qed.

(** C3 (amended): with the fail-fast flag disabled, the parse of every
    document whose format is recognised completes.  The error list then
    holds, in this order, one entry per context element (with a non-empty
    id) whose construction raised, one per non-numeric candidate whose
    attempt raised and one per numeric candidate whose attempt raised, each
    group in encounter order; and the context table holds exactly the
    contexts whose construction succeeded. *)
Theorem best_effort_parse_completes `{Runtime}
    (doc : node) (sel : string * parser_class) :
  _get_parser doc = Ok sel ->
  let cls := snd sel in
  let P1 := snd (_get_schema cls (parser_init doc false)) in
  let P2 := snd (_get_contexts cls P1) in
  let P3 := snd (_get_units cls P2) in
  let P4 := snd (_get_nonnumeric cls P3) in
  exists x,
    IXBRL_init doc false = Ok x /\
    errors (parser_obj x) =
      failed_contexts doc (context_elements cls doc)
      ++ failed_elements ixbrlError (nonnumeric_attempt cls doc)
           (nonnumeric_elements cls doc) (set_nonnumeric [] P3)
      ++ failed_elements (numeric_entry cls) (numeric_attempt cls (soup P4))
           (numeric_elements cls (soup P4)) (set_numeric [] P4) /\
    contexts (parser_obj x) = valid_contexts doc (context_elements cls doc) ∅.
Proof.
  intros Hsel cls P1 P2 P3 P4.
  destruct (schema_stage cls (parser_init doc false)) as (R1 & S1 & F1 & E1).
  fold P1 in R1, S1, F1, E1. cbn [soup raise_on_error errors parser_init] in S1, F1, E1.
  destruct (contexts_stage cls P1 F1) as (R2 & S2 & F2 & E2 & C2).
  fold P2 in R2, S2, F2, E2, C2. rewrite S1 in S2, E2, C2. rewrite E1 in E2.
  destruct (units_stage cls P2) as (R3 & S3 & F3 & E3 & C3).
  fold P3 in R3, S3, F3, E3. rewrite S2 in S3. rewrite F2 in F3. rewrite E2 in E3.
  destruct (nonnumeric_stage cls P3 F3) as (R4 & F4 & E4).
  fold P4 in R4, F4, E4. rewrite S3, E3 in E4.
  destruct (numeric_stage cls P4 F4) as (R5 & F5 & E5).
  rewrite E4 in E5.
  eexists. split; [|split].
  - unfold IXBRL_init. rewrite Hsel. cbn [mbind result_bind].
    fold cls. unfold extraction, bind.
    rewrite R1. fold P1. rewrite R2. fold P2. rewrite R3. fold P3.
    rewrite R4. fold P4. rewrite R5. reflexivity.
  - cbn [parser_obj]. rewrite E5. cbn [app]. now rewrite <- app_assoc.
  - cbn [parser_obj].
    destruct (numeric_facts_kept cls P4) as (_ & -> & _).
    destruct (nonnumeric_facts_kept cls P3) as (_ & C4 & _). fold P4 in C4.
    rewrite C4. fold P3 in C3. now rewrite C3.
Qed.

Lemma best_effort_parse_witness :
  exists x,
    IXBRL_init three_contexts_doc false = Ok x /\
    length (errors (parser_obj x)) = 1 /\
    map entry_element (errors (parser_obj x)) = [[0; 0; 1]] /\
    size (contexts (parser_obj x)) = 2 /\
    ctx_id <$> contexts (parser_obj x) !! "c1" = Some "c1" /\
    contexts (parser_obj x) !! "c2" = None /\
    ctx_id <$> contexts (parser_obj x) !! "c3" = Some "c3".
Proof.
  destruct (best_effort_parse_completes three_contexts_doc
              (FILETYPE_IXBRL, IXBRLParser_class) eq_refl)
    as (x & Hrun & Herr & Hctx).
  exists x. split; [exact Hrun|].
  rewrite Herr, Hctx. vm_compute. repeat split.
Defined.


(** ** Unit resolution *)

(** C9: [_get_units] has no handler.  Whatever [self._get_tag_text] does,
    the outcome of [_get_units] is the first exception raised while reading
    the measure of a unit element that carries an id, if there is one: it
    reaches the caller as it is, the error list is left as it was, and
    neither depends on the fail-fast flag.  A unit element without an [id]
    attribute is passed over without its measure being read.  Context
    resolution differs: there the same exception is recorded, and raised
    again only when the flag is set. *)
Theorem unit_failure_propagates `{Runtime}
    (get_tag_text : node -> path -> list string -> result (option string))
    (unit_elems : node -> list path) (P : parser) :
  let run := IXBRLParser._get_units get_tag_text unit_elems P in
  fst run = match first_unit_failure get_tag_text (soup P) (unit_elems (soup P)) with
            | Some e => Raise e
            | None => Ok tt
            end /\
  errors (snd run) = errors P /\
  (forall s Q, Soup.get (Soup.deref (soup P) s) "id" = None ->
               IXBRLParser.unit_body get_tag_text (soup P) s Q = (Ok tt, Q)) /\
  (forall s Q s_id e,
      Soup.get (Soup.deref (soup P) s) "id" = Some s_id -> s_id <> "" ->
      IXBRLParser.build_context get_tag_text (soup P) s s_id = Raise e ->
      IXBRLParser.context_body get_tag_text (soup P) s Q
      = (if raise_on_error Q then Raise e else Ok tt,
         set_errors (errors Q ++ [ixbrlError e s]) Q)).
Proof.
  intros run.
  assert (Hloop : run = for_each (unit_elems (soup P))
                          (IXBRLParser.unit_body get_tag_text (soup P)) (set_units ∅ P))
    by reflexivity.
  destruct (units_loop_outcome get_tag_text (soup P) (unit_elems (soup P))
              (set_units ∅ P)) as (Hfst & He & _).
  rewrite <- Hloop in Hfst, He.
  split; [exact Hfst|]. split; [exact He|]. split.
  - intros s Q Hid. unfold IXBRLParser.unit_body. now rewrite Hid.
  - intros s Q s_id e Hid Hne Hbuild. unfold IXBRLParser.context_body, Soup.getitem.
    rewrite Hid. cbn [Py.truthy].
    destruct (s_id =? "")%string eqn:E; [apply String.eqb_eq in E; contradiction|].
    cbn [negb]. unfold IXBRLParser.context_entry. unfold_method. rewrite Hbuild.
    cbn [raise_on_error set_errors]. destruct (raise_on_error Q); reflexivity.
Qed.

Lemma unit_failure_witness :
  (forall flag,
      fst (IXBRLParser._get_units failing_reader IXBRLParser._get_unit_elements
             (parser_init one_unit_doc flag)) = Raise (ValueError "unreadable") /\
      errors (snd (IXBRLParser._get_units failing_reader IXBRLParser._get_unit_elements
                     (parser_init one_unit_doc flag))) = []) /\
  IXBRLParser.unit_body failing_reader one_unit_doc [0; 0; 0] (parser_init one_unit_doc false)
  = (Ok tt, parser_init one_unit_doc false).
Proof.
  split.
  - intros flag.
    destruct (unit_failure_propagates failing_reader IXBRLParser._get_unit_elements
                (parser_init one_unit_doc flag)) as (Hfst & Herr & _).
    split; [rewrite Hfst; reflexivity|exact Herr].
  - destruct (unit_failure_propagates failing_reader IXBRLParser._get_unit_elements
                (parser_init one_unit_doc false)) as (_ & _ & Hskip & _).
    apply Hskip. reflexivity.
Defined.

(** ** Further properties of the code *)

(** *** Strings *)

Lemma isspace_newline : Py.isspace Py.newline = true.
Proof. reflexivity. Qed.




(** A string that starts with no white space: what [lstrip] returns. *)
Lemma lstrip_head (s : string) :
  match Py.lstrip s with
  | EmptyString => True
  | String c _ => Py.isspace c = false
  end.
Proof.
  induction s as [|c s IH]; simpl; [exact I|].
  destruct (Py.isspace c) eqn:E; [exact IH|exact E].
Qed.

Lemma rstrip_idempotent (s : string) : Py.rstrip (Py.rstrip s) = Py.rstrip s.
Proof.
  induction s as [|c s IH]; simpl; [reflexivity|].
  destruct (Py.rstrip s) as [|d t] eqn:E.
  - destruct (Py.isspace c) eqn:Ec; simpl; [reflexivity|]. rewrite Ec. reflexivity.
  - simpl in *. rewrite IH. reflexivity.
Qed.

Lemma rstrip_head (c : ascii) (s : string) :
  Py.isspace c = false -> exists t, Py.rstrip (String c s) = String c t.
Proof.
  intros Hc. simpl. destruct (Py.rstrip s); [rewrite Hc|]; eauto.
Qed.

Lemma lstrip_strip (s : string) : Py.lstrip (Py.strip s) = Py.strip s.
Proof.
  unfold Py.strip. pose proof (lstrip_head s) as Hh.
  destruct (Py.lstrip s) as [|c u]; [reflexivity|].
  destruct (rstrip_head c u Hh) as [t ->]. simpl. rewrite Hh. reflexivity.
Qed.

Lemma rstrip_strip (s : string) : Py.rstrip (Py.strip s) = Py.strip s.
Proof. unfold Py.strip. apply rstrip_idempotent. Qed.

Lemma strip_idempotent (s : string) : Py.strip (Py.strip s) = Py.strip s.
Proof.
  unfold Py.strip at 1. rewrite lstrip_strip. apply rstrip_strip.
Qed.





(** *** Continuations *)

Lemma tag_continuation_start (depth : nat) (doc : node) :
  forall (s : path) (start : string),
    IXBRLParser._get_tag_continuation depth doc s start
    = match IXBRLParser._get_tag_continuation depth doc s "" with
      | Ok r => Ok (start +:+ r)
      | Raise e => Raise e
      end.
Proof.
  induction depth as [|depth IH]; intros s start; [reflexivity|].
  cbn [IXBRLParser._get_tag_continuation].
  destruct (negb (Soup.is_tag (Soup.deref doc s))); [rewrite append_nil_r; reflexivity|].
  change ("" +:+ Soup.text (Soup.deref doc s)) with (Soup.text (Soup.deref doc s)).
  destruct (Soup.get (Soup.deref doc s) "continuedAt") as [ref|]; [|reflexivity].
  destruct (Py.truthy (Some ref)); [|reflexivity].
  destruct (Soup.find_id doc ref) as [t|]; [|reflexivity].
  destruct (Soup.name_of (Soup.deref doc t) =? "continuation")%string; [|reflexivity].
  rewrite (IH t (start +:+ Soup.text (Soup.deref doc s))).
  rewrite (IH t (Soup.text (Soup.deref doc s))).
  destruct (IXBRLParser._get_tag_continuation depth doc t ""); [|reflexivity].
  rewrite append_assoc. reflexivity.
Qed.

Lemma tag_continuation_deeper (depth : nat) (doc : node) :
  forall (s : path) (start r : string),
    IXBRLParser._get_tag_continuation depth doc s start = Ok r ->
    IXBRLParser._get_tag_continuation (S depth) doc s start = Ok r.
Proof.
  induction depth as [|depth IH]; intros s start r; [discriminate|].
  intros Hr. cbn [IXBRLParser._get_tag_continuation] in Hr |- *.
  destruct (negb (Soup.is_tag (Soup.deref doc s))); [exact Hr|].
  destruct (Soup.get (Soup.deref doc s) "continuedAt") as [ref|]; [|exact Hr].
  destruct (Py.truthy (Some ref)); [|exact Hr].
  destruct (Soup.find_id doc ref) as [t|]; [|exact Hr].
  destruct (Soup.name_of (Soup.deref doc t) =? "continuation")%string; [|exact Hr].
  apply IH in Hr. exact Hr.
Qed.

(** X2: the text [_get_tag_continuation] returns for a start string is the
    start string followed by what it returns for the empty start string, and
    it raises for one exactly when it raises for the other; a result
    obtained within some recursion depth is the result at every greater
    depth. *)
Theorem continuation_extends_start (depth : nat) (doc : node) (s : path) (start : string) :
  IXBRLParser._get_tag_continuation depth doc s start
  = match IXBRLParser._get_tag_continuation depth doc s "" with
    | Ok r => Ok (start +:+ r)
    | Raise e => Raise e
    end /\
  (forall deeper r,
      IXBRLParser._get_tag_continuation depth doc s start = Ok r ->
      depth <= deeper ->
      IXBRLParser._get_tag_continuation deeper doc s start = Ok r).
Proof.
  split; [apply tag_continuation_start|].
  intros deeper r Hr Hle. induction Hle as [|deeper Hle IH]; [exact Hr|].
  apply tag_continuation_deeper. exact IH.
Qed.

(** *** Dictionaries *)

Section Dict.

Context {V : Type}.
Implicit Types (d e : Py.dict V) (k : string) (v : V).

Lemma get_app d e k :
  Py.get (d ++ e) k = match Py.get d k with Some v => Some v | None => Py.get e k end.
Proof.
  induction d as [|[k' v'] d IH]; simpl; [reflexivity|].
  destruct (k' =? k)%string; [reflexivity|exact IH].
Qed.

Lemma get_None_keys d k : Py.get d k = None <-> k ∉ map fst d.
Proof.
  induction d as [|[k' v'] d IH]; simpl.
  - split; [intros _; apply not_elem_of_nil|reflexivity].
  - rewrite not_elem_of_cons. destruct (String.eqb_spec k' k) as [->|Hne].
    + split; [discriminate|]. intros [Hn _]. congruence.
    + rewrite IH. split; [intros Hk; split; [congruence|exact Hk]|intros [_ Hk]; exact Hk].
Qed.

Lemma get_Some_keys d k v : Py.get d k = Some v -> k ∈ map fst d.
Proof.
  intros Hg. destruct (decide (k ∈ map fst d)) as [Hin|Hn]; [exact Hin|].
  apply get_None_keys in Hn. congruence.
Qed.

Lemma set_fresh d k v : Py.get d k = None -> Py.set d k v = d ++ [(k, v)].
Proof.
  induction d as [|[k' v'] d IH]; simpl; [reflexivity|].
  destruct (k' =? k)%string; [discriminate|]. intros Hg. rewrite IH by exact Hg. reflexivity.
Qed.

Lemma get_set d k v k' :
  Py.get (Py.set d k v) k' = if (k =? k')%string then Some v else Py.get d k'.
Proof.
  induction d as [|[k0 v0] d IH]; simpl; [reflexivity|].
  destruct (String.eqb_spec k0 k) as [->|Hne]; simpl.
  - destruct (k =? k')%string; reflexivity.
  - destruct (String.eqb_spec k0 k') as [->|Hne']; [|exact IH].
    destruct (String.eqb_spec k k'); [congruence|reflexivity].
Qed.

Lemma keys_set d k v :
  map fst (Py.set d k v)
  = match Py.get d k with Some _ => map fst d | None => map fst d ++ [k] end.
Proof.
  induction d as [|[k0 v0] d IH]; simpl; [reflexivity|].
  destruct (String.eqb_spec k0 k) as [->|Hne]; simpl; [reflexivity|].
  rewrite IH. destruct (Py.get d k); reflexivity.
Qed.

Lemma update_fresh e :
  forall d, NoDup (map fst e) -> (forall k, k ∈ map fst e -> k ∉ map fst d) ->
            Py.update d e = d ++ e.
Proof.
  induction e as [|[k v] e IH]; intros d Hnd Hfresh.
  - simpl. rewrite app_nil_r. reflexivity.
  - change (Py.update d ((k, v) :: e)) with (Py.update (Py.set d k v) e).
    simpl in Hnd. apply NoDup_cons in Hnd as [Hk Hnd].
    rewrite set_fresh by (apply get_None_keys, Hfresh; simpl; left).
    rewrite IH; [rewrite <- app_assoc; reflexivity|exact Hnd|].
    intros k' Hk'. rewrite map_app, elem_of_app. simpl.
    intros [Hin|Hin%list_elem_of_singleton].
    + revert Hin. apply Hfresh. simpl. right. exact Hk'.
    + subst k'. contradiction.
Qed.

Lemma keys_update e :
  forall d, NoDup (map fst e) ->
            map fst (Py.update d e)
            = map fst d ++ List.filter (fun k => negb (bool_decide (k ∈ map fst d))) (map fst e).
Proof.
  induction e as [|[k v] e IH]; intros d Hnd.
  - simpl. rewrite app_nil_r. reflexivity.
  - change (Py.update d ((k, v) :: e)) with (Py.update (Py.set d k v) e).
    simpl in Hnd. apply NoDup_cons in Hnd as [Hk Hnd].
    rewrite IH by exact Hnd. rewrite keys_set. simpl.
    destruct (Py.get d k) as [v'|] eqn:Hg.
    + rewrite bool_decide_eq_true_2 by (eapply get_Some_keys; exact Hg). reflexivity.
    + rewrite bool_decide_eq_false_2 by (apply get_None_keys; exact Hg). simpl.
      rewrite <- app_assoc. simpl. do 2 f_equal.
      apply List.filter_ext_in. intros k' Hk'. f_equal.
      apply bool_decide_ext. rewrite elem_of_app, list_elem_of_singleton.
      split; [intros [Hin | ->]; [exact Hin|]|intros Hin; left; exact Hin].
      exfalso. apply Hk. apply list_elem_of_In. exact Hk'.
Qed.

Lemma elem_of_keys_update e :
  forall d k, k ∈ map fst (Py.update d e) <-> k ∈ map fst d \/ k ∈ map fst e.
Proof.
  induction e as [|[k0 v0] e IH]; intros d k.
  - simpl. split; [intros Hin; left; exact Hin|intros [Hin|Hin]; [exact Hin|]].
    apply elem_of_nil in Hin. contradiction.
  - change (Py.update d ((k0, v0) :: e)) with (Py.update (Py.set d k0 v0) e).
    rewrite IH, keys_set. simpl. rewrite elem_of_cons.
    destruct (Py.get d k0) as [v'|] eqn:Hg.
    + apply get_Some_keys in Hg. split; [tauto|]. intros [Hin|[-> | Hin]]; tauto.
    + rewrite elem_of_app, list_elem_of_singleton. tauto.
Qed.

Lemma NoDup_keys_update e :
  forall d, NoDup (map fst d) -> NoDup (map fst (Py.update d e)).
Proof.
  induction e as [|[k v] e IH]; intros d Hnd; [exact Hnd|].
  change (Py.update d ((k, v) :: e)) with (Py.update (Py.set d k v) e).
  apply IH. rewrite keys_set. destruct (Py.get d k) eqn:Hg; [exact Hnd|].
  apply NoDup_app. split; [exact Hnd|]. split; [|apply NoDup_singleton].
  intros k' Hin ->%list_elem_of_singleton. apply get_None_keys in Hg. contradiction.
Qed.

Lemma get_update e :
  forall d k, NoDup (map fst e) ->
    Py.get (Py.update d e) k
    = match Py.get e k with Some v => Some v | None => Py.get d k end.
Proof.
  induction e as [|[k0 v0] e IH]; intros d k Hnd; [reflexivity|].
  change (Py.update d ((k0, v0) :: e)) with (Py.update (Py.set d k0 v0) e).
  simpl in Hnd. apply NoDup_cons in Hnd as [Hk Hnd].
  rewrite IH by exact Hnd. rewrite get_set. simpl.
  destruct (String.eqb_spec k0 k) as [->|Hne]; [|reflexivity].
  apply get_None_keys in Hk. rewrite Hk. reflexivity.
Qed.

Lemma get_lookup d i k v :
  NoDup (map fst d) -> d !! i = Some (k, v) -> Py.get d k = Some v.
Proof.
  revert i. induction d as [|[k0 v0] d IH]; intros i Hnd Hi; [discriminate|].
  simpl in Hnd. apply NoDup_cons in Hnd as [Hk Hnd]. simpl.
  destruct i as [|i]; simpl in Hi.
  - injection Hi as -> ->. rewrite String.eqb_refl. reflexivity.
  - destruct (String.eqb_spec k0 k) as [->|Hne]; [|eapply IH; eassumption].
    exfalso. apply Hk. apply list_elem_of_lookup. exists i.
    rewrite list_lookup_fmap, Hi. reflexivity.
Qed.

End Dict.

(** *** Numerals *)

Lemma digit_value (d : nat) : d < 10 -> nat_of_ascii (Py.digit d) - 48 = d.
Proof. intros Hd. unfold Py.digit. rewrite nat_ascii_embedding by lia. lia. Qed.

Lemma decimal_value_aux (fuel : nat) :
  forall (n : nat) (acc : string),
    n < fuel ->
    decimal_value (Py.str_of_nat_aux fuel n acc)
    = n * 10 ^ String.length acc + decimal_value acc.
Proof.
  induction fuel as [|fuel IH]; intros n acc Hlt; [lia|].
  cbn [Py.str_of_nat_aux].
  assert (Hmod : n mod 10 < 10) by (apply Nat.mod_upper_bound; lia).
  destruct (Nat.ltb_spec n 10) as [Hsmall|Hbig].
  - cbn [decimal_value]. rewrite digit_value by exact Hmod.
    rewrite Nat.mod_small by exact Hsmall. reflexivity.
  - rewrite IH by (pose proof (Nat.div_lt n 10); lia).
    cbn [decimal_value String.length]. rewrite digit_value by exact Hmod.
    rewrite Nat.pow_succ_r'.
    pose proof (Nat.div_mod_eq n 10) as Hn.
    clear IH Hlt Hbig Hmod. revert Hn.
    generalize (n / 10), (n mod 10), (10 ^ String.length acc).
    intros q r p ->. lia.
Qed.

Lemma decimal_value_str_of_nat (n : nat) : decimal_value (Py.str_of_nat n) = n.
Proof.
  unfold Py.str_of_nat. rewrite decimal_value_aux by lia. simpl. lia.
Qed.

Lemma str_of_nat_inj (i j : nat) : Py.str_of_nat i = Py.str_of_nat j -> i = j.
Proof.
  intros Heq. rewrite <- (decimal_value_str_of_nat i), <- (decimal_value_str_of_nat j).
  rewrite Heq. reflexivity.
Qed.

Lemma segment_key_inj (i j : nat) : segment_key i = segment_key j -> i = j.
Proof.
  unfold segment_key. intros Heq. apply str_of_nat_inj.
  change ("segment:" +:+ Py.str_of_nat i)
    with (String "s" (String "e" (String "g" (String "m" (String "e" (String "n"
         (String "t" (String ":" (Py.str_of_nat i))))))))) in Heq.
  change ("segment:" +:+ Py.str_of_nat j)
    with (String "s" (String "e" (String "g" (String "m" (String "e" (String "n"
         (String "t" (String ":" (Py.str_of_nat j))))))))) in Heq.
  congruence.
Qed.

Lemma segment_key_not_fixed (i : nat) : segment_key i ∉ fixed_columns.
Proof.
  unfold segment_key, fixed_columns.
  change ("segment:" +:+ Py.str_of_nat i)
    with (String "s" (String "e" (String "g" (String "m" (String "e" (String "n"
         (String "t" (String ":" (Py.str_of_nat i))))))))).
  rewrite !not_elem_of_cons. repeat split; try discriminate. apply not_elem_of_nil.
Qed.

(** *** Rows *)

Lemma enumerate_keys {A} (l : list A) :
  forall i, map fst (enumerate i l) = seq i (length l).
Proof.
  induction l as [|x l IH]; intros i; simpl; [reflexivity|]. rewrite IH. reflexivity.
Qed.

Lemma enumerate_lookup {A} (l : list A) :
  forall i j x, l !! j = Some x -> enumerate i l !! j = Some (i + j, x).
Proof.
  induction l as [|y l IH]; intros i j x Hj; [discriminate|].
  destruct j as [|j]; simpl in *.
  - injection Hj as ->. rewrite Nat.add_0_r. reflexivity.
  - rewrite (IH (S i) j x Hj). do 2 f_equal. lia.
Qed.

Lemma map_lookup {A B} (f : A -> B) (l : list A) :
  forall i x, l !! i = Some x -> map f l !! i = Some (f x).
Proof.
  induction l as [|y l IH]; intros i x Hi; [discriminate|].
  destruct i as [|i]; simpl in *; [congruence|]. apply IH. exact Hi.
Qed.

Lemma NoDup_segment_keys (l : list nat) : NoDup l -> NoDup (map segment_key l).
Proof.
  induction l as [|i l IH]; intros Hnd; simpl; [apply NoDup_nil_2|].
  apply NoDup_cons in Hnd as [Hi Hnd]. apply NoDup_cons. split; [|apply IH, Hnd].
  intros (j & Heq & Hj)%list_elem_of_fmap. apply segment_key_inj in Heq. subst j.
  contradiction.
Qed.

Lemma segment_columns_list (v : fact) :
  segment_columns v =
  match row_segments v with
  | [] => [(segment_key 0, PyStr "")]
  | segs => map (fun '(i, s) => (segment_key i, PyStr (segment_label s))) (enumerate 0 segs)
  end.
Proof.
  unfold segment_columns, row_segments.
  destruct (fact_context v) as [c|ref]; [|reflexivity].
  destruct (ctx_segments c) as [|seg segs] eqn:E; [reflexivity|].
  rewrite update_fresh; [reflexivity| |intros k _; apply not_elem_of_nil].
  assert (Hkeys : forall l : list (nat * Py.dict string),
             map fst (map (fun '(i, s) => ("segment:" +:+ Py.str_of_nat i,
                                            PyStr (segment_label s))) l)
             = map segment_key (map fst l)).
  { induction l as [|[i s] l IH]; simpl; [reflexivity|]. rewrite IH. reflexivity. }
  rewrite Hkeys, enumerate_keys. apply NoDup_segment_keys, NoDup_seq.
Qed.

Lemma segment_columns_keys (v : fact) :
  map fst (segment_columns v) = map segment_key (seq 0 (segment_count v)).
Proof.
  rewrite segment_columns_list. unfold segment_count.
  destruct (row_segments v) as [|seg segs]; [reflexivity|].
  assert (Hkeys : forall l : list (nat * Py.dict string),
             map fst (map (fun '(i, s) => (segment_key i, PyStr (segment_label s))) l)
             = map segment_key (map fst l)).
  { induction l as [|[i s] l IH]; simpl; [reflexivity|]. rewrite IH. reflexivity. }
  rewrite Hkeys, enumerate_keys. reflexivity.
Qed.

Lemma NoDup_segment_columns (v : fact) : NoDup (map fst (segment_columns v)).
Proof. rewrite segment_columns_keys. apply NoDup_segment_keys, NoDup_seq. Qed.

Lemma to_row_app (x : IXBRL) (v : fact) :
  exists base, map fst base = fixed_columns /\ to_row x v = base ++ segment_columns v.
Proof.
  unfold to_row.
  match goal with |- context [Py.update (Py.update [] ?l) _] => set (base := Py.update [] l) end.
  exists base. split; [reflexivity|].
  assert (Hb : map fst base = fixed_columns) by reflexivity.
  apply update_fresh; [apply NoDup_segment_columns|].
  intros k. rewrite segment_columns_keys, Hb.
  intros (i & -> & _)%list_elem_of_fmap. apply segment_key_not_fixed.
Qed.

Lemma NoDup_header (m : nat) : NoDup (header m).
Proof.
  destruct m as [|m]; [apply NoDup_nil_2|]. unfold header.
  apply NoDup_app. split; [|split].
  - unfold fixed_columns.
    repeat (apply NoDup_cons_2;
            [rewrite ?not_elem_of_cons; repeat split; try discriminate; apply not_elem_of_nil|]).
    apply NoDup_nil_2.
  - intros k Hk (i & -> & _)%list_elem_of_fmap. revert Hk. apply segment_key_not_fixed.
  - apply NoDup_segment_keys, NoDup_seq.
Qed.

Lemma to_row_keys (x : IXBRL) (v : fact) :
  map fst (to_row x v) = header (segment_count v).
Proof.
  destruct (to_row_app x v) as (base & Hb & ->).
  rewrite map_app, Hb, segment_columns_keys.
  unfold segment_count. destruct (Nat.max 1 (length (row_segments v))) eqn:E; [lia|].
  reflexivity.
Qed.

(** X3: the row of a fact has the seven fixed columns, then one column
    [segment:i] for each segment of its context, [segment:0] alone when
    there is none, under pairwise different names; column [segment:i]
    holds the label of the i-th segment. *)
Theorem row_layout (x : IXBRL) (v : fact) :
  map fst (to_row x v)
    = fixed_columns ++ map segment_key (seq 0 (Nat.max 1 (length (row_segments v)))) /\
  NoDup (map fst (to_row x v)) /\
  (forall i seg, row_segments v !! i = Some seg ->
     Py.get (to_row x v) (segment_key i) = Some (PyStr (segment_label seg))) /\
  (forall i, Nat.max 1 (length (row_segments v)) <= i ->
     Py.get (to_row x v) (segment_key i) = None).
Proof.
  pose proof (to_row_keys x v) as Hkeys.
  assert (Hhead : header (segment_count v)
                  = fixed_columns ++ map segment_key (seq 0 (segment_count v))).
  { unfold segment_count. destruct (Nat.max 1 (length (row_segments v))) eqn:E; [lia|].
    reflexivity. }
  split; [rewrite Hkeys; exact Hhead|].
  split; [rewrite Hkeys; apply NoDup_header|].
  split.
  - intros i seg Hi. destruct (to_row_app x v) as (base & Hb & Hrow).
    rewrite Hrow, get_app.
    assert (Hnone : Py.get base (segment_key i) = None).
    { apply get_None_keys. rewrite Hb. apply segment_key_not_fixed. }
    rewrite Hnone. apply (get_lookup _ i); [apply NoDup_segment_columns|].
    rewrite segment_columns_list.
    destruct (row_segments v) as [|seg0 segs] eqn:E; [discriminate|].
    exact (map_lookup (fun '(i0, s) => (segment_key i0, PyStr (segment_label s))) _ i (i, seg)
             (enumerate_lookup _ 0 i seg Hi)).
  - intros i Hi. apply get_None_keys. rewrite Hkeys, Hhead.
    rewrite not_elem_of_app. split; [apply segment_key_not_fixed|].
    intros (j & Heq & Hj)%list_elem_of_fmap. apply segment_key_inj in Heq. subst j.
    apply elem_of_seq in Hj. unfold segment_count in Hj. lia.
Qed.

(** *** The header of the CSV output *)

Lemma fromkeys_keys (keys : list string) (k : string) :
  k ∈ map fst (cli.fromkeys keys) <-> k ∈ keys.
Proof.
  unfold cli.fromkeys. rewrite elem_of_keys_update. simpl.
  rewrite map_map, map_id. split; [intros [Hin|Hin]; [|exact Hin]|intros Hin; right; exact Hin].
  apply elem_of_nil in Hin. contradiction.
Qed.

Lemma NoDup_fromkeys (keys : list string) : NoDup (map fst (cli.fromkeys keys)).
Proof. unfold cli.fromkeys. apply NoDup_keys_update. apply NoDup_nil_2. Qed.

Lemma fromkeys_NoDup (keys : list string) :
  NoDup keys -> map fst (cli.fromkeys keys) = keys.
Proof.
  intros Hnd. unfold cli.fromkeys.
  assert (Hk : map fst (map (fun k : string => (k, PyNone)) keys) = keys).
  { rewrite map_map. apply map_id. }
  rewrite update_fresh; [exact Hk|rewrite Hk; exact Hnd|intros k _; apply not_elem_of_nil].
Qed.

Lemma columns_fold (values : list (Py.dict pyval)) :
  forall cols : Py.dict pyval,
    NoDup (map fst cols) ->
    let result :=
      fold_left (fun columns r => Py.update (cli.fromkeys (map fst r)) columns) values cols in
    NoDup (map fst result) /\
    forall k, k ∈ map fst result <->
              k ∈ map fst cols \/ exists r, r ∈ values /\ k ∈ map fst r.
Proof.
  induction values as [|r values IH]; intros cols Hnd; simpl.
  - split; [exact Hnd|]. intros k. split; [intros Hin; left; exact Hin|].
    intros [Hin|(r & Hr & _)]; [exact Hin|]. apply elem_of_nil in Hr. contradiction.
  - destruct (IH (Py.update (cli.fromkeys (map fst r)) cols)) as [IH1 IH2].
    { apply NoDup_keys_update, NoDup_fromkeys. }
    split; [exact IH1|]. intros k. rewrite IH2, elem_of_keys_update, fromkeys_keys.
    split.
    + intros [[Hin|Hin]|(r' & Hr' & Hin)].
      * right. exists r. split; [left|exact Hin].
      * left. exact Hin.
      * right. exists r'. split; [right; exact Hr'|exact Hin].
    + intros [Hin|(r' & Hr' & Hin)]; [left; right; exact Hin|].
      apply elem_of_cons in Hr' as [-> | Hr']; [left; left; exact Hin|].
      right. exists r'. split; assumption.
Qed.

(** X4: the field names the command line hands to [csv.DictWriter] are
    pairwise different and are exactly the keys that occur in some row:
    no row has a key outside the header. *)
Theorem csv_header_covers_rows (values : list (Py.dict pyval)) :
  NoDup (cli.fieldnames values) /\
  (forall k, k ∈ cli.fieldnames values <-> exists r, r ∈ values /\ k ∈ map fst r) /\
  (forall r k v, r ∈ values -> Py.get r k = Some v -> k ∈ cli.fieldnames values).
Proof.
  destruct (columns_fold values [] (@NoDup_nil_2 _)) as [Hnd Hin].
  assert (Hiff : forall k, k ∈ cli.fieldnames values
                           <-> exists r, r ∈ values /\ k ∈ map fst r).
  { intros k. unfold cli.fieldnames, cli.columns. rewrite Hin. simpl.
    split; [intros [Hk|Hk]; [apply elem_of_nil in Hk; contradiction|exact Hk]|].
    intros Hk. right. exact Hk. }
  split; [exact Hnd|]. split; [exact Hiff|].
  intros r k v Hr Hg. apply Hiff. exists r. split; [exact Hr|].
  eapply get_Some_keys. exact Hg.
Qed.

Lemma segment_key_in_header (i n : nat) : segment_key i ∈ header n <-> i < n.
Proof.
  destruct n as [|n]; [simpl; rewrite elem_of_nil; lia|]. unfold header.
  rewrite elem_of_app. split.
  - intros [Hin|(j & Heq & Hj)%list_elem_of_fmap].
    + exfalso. revert Hin. apply segment_key_not_fixed.
    + apply segment_key_inj in Heq. subst j. apply elem_of_seq in Hj. lia.
  - intros Hlt. right. apply list_elem_of_fmap. exists i. split; [reflexivity|].
    apply elem_of_seq. lia.
Qed.

Lemma filter_segment_keys (n m : nat) :
  List.filter (fun k => negb (bool_decide (k ∈ header n))) (map segment_key (seq 0 m))
  = map segment_key (seq n (m - n)).
Proof.
  induction m as [|m IH]; [reflexivity|].
  rewrite seq_S, map_app, List.filter_app, IH. simpl.
  destruct (decide (m < n)) as [Hlt|Hge].
  - rewrite bool_decide_eq_true_2 by (apply segment_key_in_header; exact Hlt). simpl.
    replace (S m - n) with 0 by lia. replace (m - n) with 0 by lia. reflexivity.
  - rewrite bool_decide_eq_false_2 by (rewrite segment_key_in_header; exact Hge). simpl.
    replace (S m - n) with (S (m - n)) by lia. rewrite seq_S, map_app. simpl.
    replace (n + (m - n)) with m by lia. reflexivity.
Qed.

Lemma filter_none {A} (f : A -> bool) (l : list A) :
  (forall x, x ∈ l -> f x = false) -> List.filter f l = [].
Proof.
  induction l as [|x l IH]; intros Hf; [reflexivity|]. simpl.
  rewrite (Hf x) by left. apply IH. intros y Hy. apply Hf. right. exact Hy.
Qed.

Lemma header_merge (n m : nat) :
  0 < n ->
  header n ++ List.filter (fun k => negb (bool_decide (k ∈ header n))) (header m)
  = header (Nat.max m n).
Proof.
  intros Hn. destruct m as [|m]; [simpl; rewrite app_nil_r; reflexivity|].
  destruct n as [|n]; [lia|].
  change (header (S m)) with (fixed_columns ++ map segment_key (seq 0 (S m))).
  rewrite List.filter_app, filter_segment_keys.
  rewrite filter_none.
  2:{ intros k Hk. rewrite bool_decide_eq_true_2; [reflexivity|].
      unfold header. apply elem_of_app. left. exact Hk. }
  change (header (S n)) with (fixed_columns ++ map segment_key (seq 0 (S n))).
  change ([] ++ ?l) with l.
  rewrite <- app_assoc, <- map_app, <- seq_app.
  replace (S n + (S m - S n)) with (Nat.max (S m) (S n)) by lia.
  destruct (Nat.max (S m) (S n)) eqn:E; [lia|]. reflexivity.
Qed.

Lemma columns_of_rows (x : IXBRL) (vs : list fact) :
  forall (cols : Py.dict pyval) (m : nat),
    map fst cols = header m ->
    map fst (fold_left (fun columns r => Py.update (cli.fromkeys (map fst r)) columns)
               (map (to_row x) vs) cols)
    = header (fold_left (fun m v => Nat.max m (segment_count v)) vs m).
Proof.
  induction vs as [|v vs IH]; intros cols m Hcols; [exact Hcols|].
  simpl. apply IH.
  rewrite keys_update by (rewrite Hcols; apply NoDup_header).
  rewrite to_row_keys, (fromkeys_NoDup _ (NoDup_header _)), Hcols.
  apply header_merge. unfold segment_count. lia.
Qed.

Lemma widest_bounds (vs : list fact) :
  forall m,
    let w := fold_left (fun m v => Nat.max m (segment_count v)) vs m in
    m <= w /\ (forall v, v ∈ vs -> segment_count v <= w) /\
    (w = m \/ exists v, v ∈ vs /\ w = segment_count v).
Proof.
  induction vs as [|v vs IH]; intros m; simpl.
  - split; [lia|]. split; [|left; reflexivity].
    intros v Hv. apply elem_of_nil in Hv. contradiction.
  - destruct (IH (Nat.max m (segment_count v))) as (Hle & Hall & Hmax).
    split; [lia|]. split.
    + intros v' [-> | Hv']%elem_of_cons; [lia|]. apply Hall. exact Hv'.
    + destruct Hmax as [Hw|(v' & Hv' & Hw)].
      * destruct (Nat.max_spec m (segment_count v)) as [[_ Hm]|[_ Hm]].
        -- right. exists v. split; [left|congruence].
        -- left. congruence.
      * right. exists v'. split; [right; exact Hv'|exact Hw].
Qed.

(** X5: the header of the CSV output of a table is empty when the table
    has no row; otherwise it is the seven fixed columns followed by
    [segment:0], ..., [segment:(m-1)], where [m] is the greatest number of
    segment columns of a row. *)
Theorem csv_header_of_table (x : IXBRL) (fields : string) :
  let facts := selected_facts x fields in
  to_table x fields = map (to_row x) facts /\
  cli.fieldnames (to_table x fields) = header (widest facts) /\
  (facts = [] -> cli.fieldnames (to_table x fields) = []) /\
  (facts <> [] ->
   cli.fieldnames (to_table x fields)
     = fixed_columns ++ map segment_key (seq 0 (widest facts)) /\
   (forall v, v ∈ facts -> segment_count v <= widest facts) /\
   (exists v, v ∈ facts /\ widest facts = segment_count v)).
Proof.
  intros facts.
  assert (Htable : to_table x fields = map (to_row x) facts) by reflexivity.
  assert (Hhead : cli.fieldnames (to_table x fields) = header (widest facts)).
  { rewrite Htable. apply (columns_of_rows x facts [] 0). reflexivity. }
  split; [exact Htable|]. split; [exact Hhead|]. split.
  - intros Hnil. rewrite Hhead, Hnil. reflexivity.
  - intros Hne. destruct (widest_bounds facts 0) as (_ & Hall & Hmax).
    fold (widest facts) in Hall, Hmax.
    assert (Hpos : 0 < widest facts).
    { destruct facts as [|v vs]; [congruence|].
      pose proof (Hall v ltac:(left)) as Hv. unfold segment_count in Hv. lia. }
    split; [|split].
    + rewrite Hhead. destruct (widest facts); [lia|]. reflexivity.
    + exact Hall.
    + destruct Hmax as [Hw|Hex]; [lia|exact Hex].
Qed.

(** *** Fail fast and best effort *)

Lemma set_raise_on_error_same (P : parser) :
  set_raise_on_error (raise_on_error P) P = P.
Proof. destruct P; reflexivity. Qed.

Lemma attempt_all_flag (mk : exn -> path -> error_entry) (attempt : path -> M unit) :
  flag_frame attempt ->
  forall elems P b,
    attempt_all mk attempt elems (set_raise_on_error b P)
    = (fst (attempt_all mk attempt elems P),
       set_raise_on_error b (snd (attempt_all mk attempt elems P))).
Proof.
  intros Hflag. induction elems as [|s rest IH]; intros P b; [reflexivity|].
  cbn [attempt_all]. rewrite Hflag.
  destruct (attempt s P) as [[[]|e] P']; cbn [fst snd]; rewrite IH; reflexivity.
Qed.

Lemma attempt_all_errors (mk : exn -> path -> error_entry) (attempt : path -> M unit) :
  error_frame attempt ->
  forall elems P, errors (snd (attempt_all mk attempt elems P)) = errors P.
Proof.
  intros Hframe. induction elems as [|s rest IH]; intros P; [reflexivity|].
  cbn [attempt_all]. destruct (Hframe s P) as (_ & He & _).
  destruct (attempt s P) as [[[]|e] P']; cbn [fst snd] in *; rewrite IH; exact He.
Qed.

Lemma fail_fast_loop (mk : exn -> path -> error_entry)
    (attempt body : path -> M unit) (elems : list path) :
  guards mk attempt body -> error_frame attempt ->
  (forall e s, entry_error (mk e s) = e) ->
  forall P,
    raise_on_error P = true ->
    match failed_elements mk attempt elems P with
    | [] => for_each elems body P = (Ok tt, snd (attempt_all mk attempt elems P))
    | entry :: _ => fst (for_each elems body P) = Raise (entry_error entry)
    end.
Proof.
  intros Hguard Hframe Hmk. unfold failed_elements.
  induction elems as [|s rest IH]; intros P Hflag; [reflexivity|].
  rewrite for_each_cons, Hguard. cbn [attempt_all].
  destruct (Hframe s P) as (Hf & _ & _).
  destruct (attempt s P) as [[[]|e] P'] eqn:E; cbn [fst snd] in *.
  - apply IH. congruence.
  - unfold_method. cbn [raise_on_error set_errors]. rewrite Hf, Hflag.
    cbn [fst]. rewrite Hmk. reflexivity.
Qed.

Lemma modes_agree_loop (mk : exn -> path -> error_entry)
    (attempt body : path -> M unit) (elems : list path) :
  guards mk attempt body -> error_frame attempt -> flag_frame attempt ->
  (forall e s, entry_error (mk e s) = e) ->
  modes_agree (for_each elems body).
Proof.
  intros Hguard Hframe Hflagf Hmk P Hflag.
  assert (Hrun := best_effort_loop mk attempt body elems Hguard Hframe P (errors P) Hflag).
  rewrite set_errors_same in Hrun.
  assert (Hfast := fail_fast_loop mk attempt body elems Hguard Hframe Hmk
                     (set_raise_on_error true P) eq_refl).
  unfold failed_elements in *. rewrite attempt_all_flag in Hfast by exact Hflagf.
  cbn [fst snd] in Hfast.
  eexists. exists (fst (attempt_all mk attempt elems P)).
  split; [exact Hrun|]. split; [|split; [reflexivity|]].
  - cbn [raise_on_error set_errors]. clear Hrun Hfast.
    revert P Hflag. induction elems as [|s rest IH]; intros P Hflag; [exact Hflag|].
    cbn [attempt_all]. destruct (Hframe s P) as (Hf & _ & _).
    destruct (attempt s P) as [[[]|e] P']; cbn [fst snd] in *; apply IH; congruence.
  - destruct (fst (attempt_all mk attempt elems P)) as [|entry F]; [|exact Hfast].
    rewrite Hfast, app_nil_r.
    rewrite <- (attempt_all_errors mk attempt Hframe elems P) at 1.
    rewrite set_errors_same. reflexivity.
Qed.

Lemma modes_agree_quiet (m : M unit) : flag_blind m -> quiet m -> modes_agree m.
Proof.
  intros Hblind Hquiet P Hflag. destruct (Hquiet P) as (Hrun & Hf & He).
  exists (snd (m P)), []. split; [exact Hrun|]. split; [congruence|].
  split; [rewrite app_nil_r; exact He|].
  rewrite Hblind, Hrun. reflexivity.
Qed.

Lemma modes_agree_seq (m1 m2 : M unit) :
  modes_agree m1 -> modes_agree m2 -> modes_agree (m1;; m2)%method.
Proof.
  intros H1 H2 P Hflag.
  destruct (H1 P Hflag) as (P1 & F1 & R1 & Fl1 & E1 & M1).
  destruct (H2 P1 Fl1) as (P2 & F2 & R2 & Fl2 & E2 & M2).
  exists P2, (F1 ++ F2). unfold bind. rewrite R1.
  split; [exact R2|]. split; [exact Fl2|].
  split; [rewrite E2, E1, app_assoc; reflexivity|].
  destruct F1 as [|entry F1]; cbn [app].
  - rewrite M1. exact M2.
  - destruct (m1 (set_raise_on_error true P)) as [[[]|e] Q]; cbn [fst] in M1 |- *;
      [discriminate|exact M1].
Qed.

Lemma numeric_flag_frame `{Runtime} (cls : parser_class) (doc : node) :
  flag_frame (numeric_attempt cls doc).
Proof.
  intros s P b. destruct cls; simpl.
  - unfold IXBRLParser.numeric_fact. frame_cases.
  - unfold bare_numeric_attempt, XBRLParser.numeric_fact. cbv zeta. frame_cases.
Qed.

Lemma nonnumeric_flag_frame `{Runtime} (cls : parser_class) (doc : node) :
  flag_frame (nonnumeric_attempt cls doc).
Proof.
  intros s P b. destruct cls; simpl.
  - unfold IXBRLParser.nonnumeric_fact. frame_cases.
  - unfold XBRLParser.nonnumeric_fact. cbv zeta. frame_cases.
Qed.

Lemma context_flag_frame `{Runtime}
    (get_tag_text : node -> path -> list string -> result (option string)) (doc : node) :
  flag_frame (context_attempt get_tag_text doc).
Proof.
  intros s P b. unfold context_attempt, IXBRLParser.context_entry. frame_cases.
Qed.

Lemma schema_modes (cls : parser_class) : modes_agree (_get_schema cls).
Proof.
  apply modes_agree_quiet.
  - intros P b. destruct cls; unfold _get_schema, IXBRLParser._get_schema; unfold_method;
      simpl; unfold Soup.getitem; repeat (case_match; simplify_eq; simpl in * );
      try reflexivity; try discriminate.
  - intros P. destruct (schema_stage cls P) as (Hrun & _ & Hf & He). auto.
Qed.

Lemma units_loop_flag
    (get_tag_text : node -> path -> list string -> result (option string))
    (doc : node) (elems : list path) :
  flag_blind (for_each elems (IXBRLParser.unit_body get_tag_text doc)).
Proof.
  induction elems as [|s rest IH]; intros Q b; [reflexivity|].
  rewrite !for_each_cons. unfold IXBRLParser.unit_body at 1 3 5.
  destruct (Soup.get (Soup.deref doc s) "id") as [s_id|].
  - unfold_method.
    destruct (get_tag_text doc s ["xbrli:measure"; "measure"]) as [m|e]; [|reflexivity].
    exact (IH (set_units (<[s_id:=m]> (units Q)) Q) b).
  - apply IH.
Qed.

Lemma units_modes (cls : parser_class) : modes_agree (_get_units cls).
Proof.
  apply modes_agree_quiet.
  - intros P b. rewrite !_get_units_loop.
    apply (units_loop_flag BaseParser._get_tag_text (soup P) _ (set_units ∅ P) b).
  - intros P. destruct (units_stage cls P) as (Hrun & _ & Hf & He & _). auto.
Qed.

Lemma contexts_modes `{Runtime} (cls : parser_class) : modes_agree (_get_contexts cls).
Proof.
  intros P Hflag.
  destruct (modes_agree_loop ixbrlError
              (context_attempt BaseParser._get_tag_text (soup P))
              (IXBRLParser.context_body BaseParser._get_tag_text (soup P))
              (context_elements cls (soup P))
              (context_guards _ _) (context_frame _ _) (context_flag_frame _ _)
              (fun e s => eq_refl) (set_contexts ∅ P) Hflag)
    as (P' & F & Hrun & Hf & He & Hfast).
  exists P', F. rewrite !_get_contexts_loop. auto.
Qed.

Lemma nonnumeric_modes `{Runtime} (cls : parser_class) : modes_agree (_get_nonnumeric cls).
Proof.
  intros P Hflag.
  destruct (modes_agree_loop ixbrlError
              (nonnumeric_attempt cls (soup P)) (nonnumeric_loop_body cls (soup P))
              (nonnumeric_elements cls (soup P))
              (nonnumeric_guards _ _) (nonnumeric_frame _ _) (nonnumeric_flag_frame _ _)
              (fun e s => eq_refl) (set_nonnumeric [] P) Hflag)
    as (P' & F & Hrun & Hf & He & Hfast).
  exists P', F. rewrite !_get_nonnumeric_loop. auto.
Qed.

Lemma numeric_modes `{Runtime} (cls : parser_class) : modes_agree (_get_numeric cls).
Proof.
  intros P Hflag.
  destruct (modes_agree_loop (numeric_entry cls)
              (numeric_attempt cls (soup P)) (numeric_loop_body cls (soup P))
              (numeric_elements cls (soup P))
              (numeric_guards _ _) (numeric_frame _ _) (numeric_flag_frame _ _)
              (fun e s => match cls with
                          | IXBRLParser_class => eq_refl
                          | XBRLParser_class => eq_refl
                          end) (set_numeric [] P) Hflag)
    as (P' & F & Hrun & Hf & He & Hfast).
  exists P', F. rewrite !_get_numeric_loop. auto.
Qed.

Lemma extraction_modes `{Runtime} (cls : parser_class) : modes_agree (extraction cls).
Proof.
  unfold extraction.
  apply modes_agree_seq; [apply schema_modes|].
  apply modes_agree_seq; [apply contexts_modes|].
  apply modes_agree_seq; [apply units_modes|].
  apply modes_agree_seq; [apply nonnumeric_modes|apply numeric_modes].
Qed.

(** X6: a document that is recognised is parsed in best-effort mode to
    the end; when that parse records no error, the fail-fast parse returns
    the same object (the flag aside), and otherwise the fail-fast parse
    raises the error of the first entry of the best-effort error list. *)
Theorem fail_fast_raises_first_error `{Runtime}
    (doc : node) (sel : string * parser_class) :
  _get_parser doc = Ok sel ->
  exists x,
    IXBRL_init doc false = Ok x /\
    match errors (parser_obj x) with
    | [] =>
        IXBRL_init doc true
        = Ok {| filetype := filetype x; parser_cls := parser_cls x;
                parser_obj := set_raise_on_error true (parser_obj x) |}
    | entry :: _ => IXBRL_init doc true = Raise (entry_error entry)
    end.
Proof.
  intros Hsel. unfold IXBRL_init. rewrite Hsel. cbn [mbind result_bind].
  destruct (extraction_modes (snd sel) (parser_init doc false) eq_refl)
    as (P' & F & Hrun & _ & He & Hfast).
  rewrite Hrun. eexists. split; [reflexivity|]. cbn [parser_obj filetype parser_cls].
  change (parser_init doc true) with (set_raise_on_error true (parser_init doc false)).
  rewrite He. cbn [errors parser_init app].
  destruct F as [|entry F].
  - rewrite Hfast. reflexivity.
  - destruct (extraction (snd sel) (set_raise_on_error true (parser_init doc false)))
      as [[[]|e] Q]; cbn [fst] in Hfast; [discriminate|]. congruence.
Qed.

Lemma fail_fast_raises_first_error_witness :
  exists x,
    IXBRL_init three_contexts_doc false = Ok x /\
    match errors (parser_obj x) with
    | [] =>
        IXBRL_init three_contexts_doc true
        = Ok {| filetype := filetype x; parser_cls := parser_cls x;
                parser_obj := set_raise_on_error true (parser_obj x) |}
    | entry :: _ => IXBRL_init three_contexts_doc true = Raise (entry_error entry)
    end.
Proof.
  exact (fail_fast_raises_first_error three_contexts_doc
           (FILETYPE_IXBRL, IXBRLParser_class) eq_refl).
Defined.

(** X7: a fail-fast parse that returns has an empty error list, and the
    best-effort parse of the same document returns the same object (the
    flag aside): the two modes differ only on documents with an error. *)
Theorem fail_fast_result_has_no_error `{Runtime} (doc : node) (y : IXBRL) :
  IXBRL_init doc true = Ok y ->
  errors (parser_obj y) = [] /\
  raise_on_error (parser_obj y) = true /\
  IXBRL_init doc false
  = Ok {| filetype := filetype y; parser_cls := parser_cls y;
          parser_obj := set_raise_on_error false (parser_obj y) |}.
Proof.
  unfold IXBRL_init. destruct (_get_parser doc) as [sel|e]; [|discriminate].
  cbn [mbind result_bind].
  destruct (extraction_modes (snd sel) (parser_init doc false) eq_refl)
    as (P' & F & Hrun & Hf & He & Hfast).
  change (parser_init doc true) with (set_raise_on_error true (parser_init doc false)).
  rewrite Hrun. cbn [errors parser_init app] in He.
  destruct F as [|entry F].
  - rewrite Hfast. intros [= <-]. cbn [parser_obj filetype parser_cls].
    split; [exact He|]. split; [reflexivity|].
    change (set_raise_on_error false (set_raise_on_error true P'))
      with (set_raise_on_error false P').
    rewrite <- Hf at 1. rewrite set_raise_on_error_same. reflexivity.
  - destruct (extraction (snd sel) (set_raise_on_error true (parser_init doc false)))
      as [[[]|e] Q]; cbn [fst] in Hfast; discriminate.
Qed.

Lemma fail_fast_result_has_no_error_witness :
  exists y,
    IXBRL_init segment_doc true = Ok y /\
    errors (parser_obj y) = [] /\
    raise_on_error (parser_obj y) = true /\
    IXBRL_init segment_doc false
    = Ok {| filetype := filetype y; parser_cls := parser_cls y;
            parser_obj := set_raise_on_error false (parser_obj y) |}.
Proof.
  destruct (IXBRL_init segment_doc true) as [y|e] eqn:E.
  - exists y. split; [reflexivity|].
    exact (fail_fast_result_has_no_error segment_doc y E).
  - vm_compute in E. discriminate E.
Defined.

(** *** What each pass leaves alone *)

Lemma schema_pass_frame (cls : parser_class) (P : parser) :
  schema_pass_keeps P (snd (_get_schema cls P)).
Proof.
  unfold schema_pass_keeps.
  destruct cls; unfold _get_schema, IXBRLParser._get_schema; unfold Soup.getitem; pass_frame.
Qed.

Lemma contexts_pass_frame `{Runtime} (cls : parser_class) (P : parser) :
  contexts_pass_keeps P (snd (_get_contexts cls P)).
Proof.
  rewrite _get_contexts_loop.
  apply (for_each_invariant (contexts_pass_keeps P)); [|repeat split].
  intros s Q HQ. unfold contexts_pass_keeps in *.
  destruct HQ as (? & ? & ? & ? & ? & ? & ?).
  unfold IXBRLParser.context_body, IXBRLParser.context_entry, Soup.getitem. pass_frame.
Qed.

Lemma units_pass_frame (cls : parser_class) (P : parser) :
  units_pass_keeps P (snd (_get_units cls P)).
Proof.
  rewrite _get_units_loop.
  apply (for_each_invariant (units_pass_keeps P)); [|repeat split].
  intros s Q HQ. unfold units_pass_keeps in *.
  destruct HQ as (? & ? & ? & ? & ? & ? & ? & ?).
  unfold IXBRLParser.unit_body, BaseParser._get_tag_text. pass_frame.
Qed.

Lemma numeric_pass_frame `{Runtime} (cls : parser_class) (P : parser) :
  numeric_pass_keeps P (snd (_get_numeric cls P)).
Proof.
  rewrite _get_numeric_loop.
  apply (for_each_invariant (numeric_pass_keeps P)); [|repeat split].
  intros s Q HQ. unfold numeric_pass_keeps in *.
  destruct HQ as (? & ? & ? & ? & ? & ? & ?).
  destruct cls; simpl.
  - unfold IXBRLParser.numeric_body, IXBRLParser.numeric_fact, Soup.getitem. pass_frame.
  - unfold XBRLParser.numeric_body, XBRLParser.numeric_fact, Soup.getitem. cbv zeta.
    pass_frame.
Qed.

Lemma nonnumeric_pass_frame `{Runtime} (cls : parser_class) (P : parser) :
  nonnumeric_pass_keeps P (snd (_get_nonnumeric cls P)) /\
  (cls = XBRLParser_class -> soup (snd (_get_nonnumeric cls P)) = soup P).
Proof.
  rewrite _get_nonnumeric_loop. split.
  - apply (for_each_invariant (nonnumeric_pass_keeps P)); [|repeat split].
    intros s Q HQ. unfold nonnumeric_pass_keeps in *.
    destruct HQ as (? & ? & ? & ? & ? & ? & Hattrs).
    destruct cls; simpl.
    + unfold IXBRLParser.nonnumeric_body, IXBRLParser.nonnumeric_fact, Soup.getitem.
      pass_frame; intros q; try rewrite attrs_of_deref_extract; apply Hattrs.
    + unfold XBRLParser.nonnumeric_body, XBRLParser.nonnumeric_fact, Soup.getitem. cbv zeta.
      pass_frame.
  - intros ->. simpl.
    apply (for_each_invariant (fun Q => soup Q = soup P)); [|reflexivity].
    intros s Q HQ.
    unfold XBRLParser.nonnumeric_body, XBRLParser.nonnumeric_fact, Soup.getitem. cbv zeta.
    pass_frame.
Qed.

(** X8: each pass writes its own fields only.  No pass changes the flag;
    only the inline non-numeric pass changes the document, and it keeps the
    attributes of every element; the schema and the unit pass leave the
    error list alone. *)
Theorem passes_keep_other_fields `{Runtime} (cls : parser_class) (P : parser) :
  schema_pass_keeps P (snd (_get_schema cls P)) /\
  contexts_pass_keeps P (snd (_get_contexts cls P)) /\
  units_pass_keeps P (snd (_get_units cls P)) /\
  nonnumeric_pass_keeps P (snd (_get_nonnumeric cls P)) /\
  (cls = XBRLParser_class -> soup (snd (_get_nonnumeric cls P)) = soup P) /\
  numeric_pass_keeps P (snd (_get_numeric cls P)).
Proof.
  split; [apply schema_pass_frame|]. split; [apply contexts_pass_frame|].
  split; [apply units_pass_frame|].
  split; [apply nonnumeric_pass_frame|]. split; [apply nonnumeric_pass_frame|].
  apply numeric_pass_frame.
Qed.

Lemma extraction_stages `{Runtime} (cls : parser_class) (P0 P5 : parser) :
  extraction cls P0 = (Ok tt, P5) ->
  let P1 := snd (_get_schema cls P0) in
  let P2 := snd (_get_contexts cls P1) in
  let P3 := snd (_get_units cls P2) in
  let P4 := snd (_get_nonnumeric cls P3) in
  P5 = snd (_get_numeric cls P4).
Proof.
  unfold extraction, bind. intros Hrun. cbv zeta.
  destruct (_get_schema cls P0) as [[[]|e1] P1]; [|discriminate]. cbn [snd].
  destruct (_get_contexts cls P1) as [[[]|e2] P2]; [|discriminate]. cbn [snd].
  destruct (_get_units cls P2) as [[[]|e3] P3]; [|discriminate]. cbn [snd].
  destruct (_get_nonnumeric cls P3) as [[[]|e4] P4]; [|discriminate]. cbn [snd].
  rewrite Hrun. reflexivity.
Qed.

Lemma IXBRL_init_Ok `{Runtime} (doc : node) (flag : bool) (x : IXBRL) :
  IXBRL_init doc flag = Ok x ->
  _get_parser doc = Ok (filetype x, parser_cls x) /\
  extraction (parser_cls x) (parser_init doc flag) = (Ok tt, parser_obj x).
Proof.
  unfold IXBRL_init. destruct (_get_parser doc) as [[ft cls]|e]; [|discriminate].
  cbn [mbind result_bind fst snd].
  destruct (extraction cls (parser_init doc flag)) as [[[]|e] P] eqn:E; [|discriminate].
  intros [= <-]. split; [reflexivity|exact E].
Qed.

(** *** The facts and the elements they come from *)

Lemma for_each_trace (I : list path -> parser -> Prop) (body : path -> M unit)
    (elems : list path) :
  (forall done s P, I done P -> I (done ++ [s]) (snd (body s P))) ->
  (forall done s P, I done P -> I (done ++ [s]) P) ->
  forall done P, I done P -> I (done ++ elems) (snd (for_each elems body P)).
Proof.
  intros Hstep Hmono.
  assert (Hmore : forall k done P, I done P -> I (done ++ k) P).
  { induction k as [|a k IH]; intros done P HI; [rewrite app_nil_r; exact HI|].
    change (a :: k) with ([a] ++ k). rewrite app_assoc. apply IH, Hmono, HI. }
  induction elems as [|s rest IH]; intros done P HI.
  - rewrite app_nil_r. exact HI.
  - rewrite for_each_cons. pose proof (Hstep done s P HI) as Hs.
    change (s :: rest) with ([s] ++ rest). rewrite app_assoc.
    destruct (body s P) as [[[]|e] P']; cbn [snd] in *.
    + apply IH. exact Hs.
    + apply Hmore. exact Hs.
Qed.

Lemma filter_sublist {A} (f : A -> bool) (l : list A) : List.filter f l `sublist_of` l.
Proof.
  induction l as [|x l IH]; simpl; [apply sublist_nil|].
  destruct (f x); [apply sublist_skip|apply sublist_cons]; exact IH.
Qed.

Lemma filter_snoc {A} (f : A -> bool) (l : list A) (x : A) :
  List.filter f (l ++ [x]) = List.filter f l ++ (if f x then [x] else []).
Proof. rewrite List.filter_app. simpl. destruct (f x); reflexivity. Qed.

Lemma guards_numeric (mk : exn -> path -> error_entry) (attempt body : path -> M unit) :
  guards mk attempt body ->
  forall s P, numeric (snd (body s P)) = numeric (snd (attempt s P)) /\
              nonnumeric (snd (body s P)) = nonnumeric (snd (attempt s P)).
Proof.
  intros Hguard s P. rewrite Hguard.
  destruct (attempt s P) as [[[]|e] P']; [split; reflexivity|].
  unfold_method. destruct (raise_on_error _); split; reflexivity.
Qed.

(** What an attempt of the numeric pass does to the list of facts. *)
Lemma numeric_attempt_outcome `{Runtime} (cls : parser_class) (doc : node)
    (s : path) (Q : parser) :
  match numeric_attempt cls doc s Q with
  | (Ok _, Q') =>
      if numeric_candidate cls doc s
      then exists f, numeric Q' = numeric Q ++ [f] /\ num_soup_tag f = s
      else numeric Q' = numeric Q
  | (Raise _, Q') => numeric_candidate cls doc s = true /\ numeric Q' = numeric Q
  end.
Proof.
  destruct cls; simpl.
  - unfold IXBRLParser.numeric_fact. unfold_method. unfold Soup.getitem.
    repeat (case_match; simplify_eq; simpl in * ); try (split; reflexivity).
    eexists. split; [reflexivity|].
    eapply ixbrlNumeric_init_fields. eassumption.
  - unfold bare_numeric_attempt, XBRLParser.numeric_fact. cbv zeta.
    unfold_method. unfold Soup.getitem.
    destruct (Py.truthy (Soup.get (Soup.deref doc s) "contextRef")) eqn:Ec;
      [|reflexivity].
    destruct (Py.truthy (Soup.get (Soup.deref doc s) "unitRef")) eqn:Eu;
      [|reflexivity].
    simpl.
    destruct (Soup.get (Soup.deref doc s) "contextRef"); [|discriminate].
    destruct (Soup.get (Soup.deref doc s) "unitRef"); [|discriminate].
    destruct (ixbrlNumeric_init _ _ _ _ _ _) as [f|e] eqn:Ef; simpl; [|split; reflexivity].
    exists f. split; [reflexivity|]. eapply ixbrlNumeric_init_fields. exact Ef.
Qed.

(** What an attempt of the non-numeric pass does to the list of facts. *)
Lemma nonnumeric_attempt_outcome `{Runtime} (cls : parser_class) (doc : node)
    (s : path) (Q : parser) :
  match nonnumeric_attempt cls doc s Q with
  | (Ok _, Q') =>
      if nonnumeric_candidate cls doc s
      then exists f, nonnumeric Q' = nonnumeric Q ++ [f] /\ nn_soup_tag f = s
      else nonnumeric Q' = nonnumeric Q
  | (Raise _, Q') => nonnumeric_candidate cls doc s = true /\ nonnumeric Q' = nonnumeric Q
  end.
Proof.
  destruct cls; simpl.
  - unfold IXBRLParser.nonnumeric_fact. unfold_method. unfold Soup.getitem.
    repeat (case_match; simplify_eq; simpl in * ); try (split; reflexivity);
      (eexists; split; [reflexivity|]; eapply ixbrlNonNumeric_init_fields; eassumption).
  - unfold XBRLParser.nonnumeric_fact. cbv zeta.
    unfold_method. unfold Soup.getitem.
    destruct (Py.truthy (Soup.get (Soup.deref doc s) "contextRef")) eqn:Ec;
      [|reflexivity].
    destruct (Py.truthy (Soup.get (Soup.deref doc s) "unitRef")) eqn:Eu;
      [reflexivity|].
    simpl.
    destruct (Soup.get (Soup.deref doc s) "contextRef"); [|discriminate].
    destruct (ixbrlNonNumeric_init _ _ _ _ _) as [f|e] eqn:Ef; simpl; [|split; reflexivity].
    exists f. split; [reflexivity|]. eapply ixbrlNonNumeric_init_fields. exact Ef.
Qed.

Lemma numeric_tags_sublist `{Runtime} (cls : parser_class) (P : parser) :
  map num_soup_tag (numeric (snd (_get_numeric cls P)))
    `sublist_of` numeric_candidates cls (soup P).
Proof.
  rewrite _get_numeric_loop. unfold numeric_candidates.
  apply (for_each_trace
           (fun done Q => map num_soup_tag (numeric Q)
                            `sublist_of` List.filter (numeric_candidate cls (soup P)) done)
           _ _) with (done := []); [| |apply sublist_nil].
  - intros done s Q HI.
    destruct (guards_numeric _ _ _ (numeric_guards cls (soup P)) s Q) as [-> _].
    pose proof (numeric_attempt_outcome cls (soup P) s Q) as Hout.
    rewrite filter_snoc.
    destruct (numeric_attempt cls (soup P) s Q) as [[[]|e] Q']; cbn [snd].
    + destruct (numeric_candidate cls (soup P) s).
      * destruct Hout as (f & -> & Hf). rewrite map_app. simpl. rewrite Hf.
        apply sublist_app; [exact HI|reflexivity].
      * rewrite Hout, app_nil_r. exact HI.
    + destruct Hout as [_ ->]. apply sublist_inserts_r. exact HI.
  - intros done s Q HI. rewrite filter_snoc. apply sublist_inserts_r. exact HI.
Qed.

Lemma nonnumeric_tags_sublist `{Runtime} (cls : parser_class) (P : parser) :
  map nn_soup_tag (nonnumeric (snd (_get_nonnumeric cls P)))
    `sublist_of` nonnumeric_candidates cls (soup P).
Proof.
  rewrite _get_nonnumeric_loop. unfold nonnumeric_candidates.
  apply (for_each_trace
           (fun done Q => map nn_soup_tag (nonnumeric Q)
                            `sublist_of` List.filter (nonnumeric_candidate cls (soup P)) done)
           _ _) with (done := []); [| |apply sublist_nil].
  - intros done s Q HI.
    destruct (guards_numeric _ _ _ (nonnumeric_guards cls (soup P)) s Q) as [_ ->].
    pose proof (nonnumeric_attempt_outcome cls (soup P) s Q) as Hout.
    rewrite filter_snoc.
    destruct (nonnumeric_attempt cls (soup P) s Q) as [[[]|e] Q']; cbn [snd].
    + destruct (nonnumeric_candidate cls (soup P) s).
      * destruct Hout as (f & -> & Hf). rewrite map_app. simpl. rewrite Hf.
        apply sublist_app; [exact HI|reflexivity].
      * rewrite Hout, app_nil_r. exact HI.
    + destruct Hout as [_ ->]. apply sublist_inserts_r. exact HI.
  - intros done s Q HI. rewrite filter_snoc. apply sublist_inserts_r. exact HI.
Qed.

(** X9: the numeric facts of a pass come from the candidate elements of
    the document, in document order and at most one per candidate; so do
    the non-numeric facts. *)
Theorem facts_follow_document_order `{Runtime} (cls : parser_class) (P : parser) :
  map num_soup_tag (numeric (snd (_get_numeric cls P)))
    `sublist_of` numeric_candidates cls (soup P) /\
  map nn_soup_tag (nonnumeric (snd (_get_nonnumeric cls P)))
    `sublist_of` nonnumeric_candidates cls (soup P) /\
  numeric_candidates cls (soup P) `sublist_of` numeric_elements cls (soup P) /\
  nonnumeric_candidates cls (soup P) `sublist_of` nonnumeric_elements cls (soup P).
Proof.
  split; [apply numeric_tags_sublist|]. split; [apply nonnumeric_tags_sublist|].
  split; apply filter_sublist.
Qed.

Lemma numeric_attempts_count `{Runtime} (cls : parser_class) (doc : node)
    (mk : exn -> path -> error_entry) (elems : list path) :
  forall Q,
    length (numeric (snd (attempt_all mk (numeric_attempt cls doc) elems Q)))
    + length (fst (attempt_all mk (numeric_attempt cls doc) elems Q))
    = length (numeric Q) + length (List.filter (numeric_candidate cls doc) elems).
Proof.
  induction elems as [|s rest IH]; intros Q; [simpl; lia|].
  cbn [attempt_all List.filter].
  pose proof (numeric_attempt_outcome cls doc s Q) as Hout.
  destruct (numeric_attempt cls doc s Q) as [[[]|e] Q']; cbn [fst snd length].
  - rewrite IH. destruct (numeric_candidate cls doc s).
    + destruct Hout as (f & -> & _). rewrite length_app. simpl. lia.
    + rewrite Hout. reflexivity.
  - destruct Hout as [-> <-]. simpl. specialize (IH Q'). lia.
Qed.

Lemma nonnumeric_attempts_count `{Runtime} (cls : parser_class) (doc : node)
    (mk : exn -> path -> error_entry) (elems : list path) :
  forall Q,
    length (nonnumeric (snd (attempt_all mk (nonnumeric_attempt cls doc) elems Q)))
    + length (fst (attempt_all mk (nonnumeric_attempt cls doc) elems Q))
    = length (nonnumeric Q) + length (List.filter (nonnumeric_candidate cls doc) elems).
Proof.
  induction elems as [|s rest IH]; intros Q; [simpl; lia|].
  cbn [attempt_all List.filter].
  pose proof (nonnumeric_attempt_outcome cls doc s Q) as Hout.
  destruct (nonnumeric_attempt cls doc s Q) as [[[]|e] Q']; cbn [fst snd length].
  - rewrite IH. destruct (nonnumeric_candidate cls doc s).
    + destruct Hout as (f & -> & _). rewrite length_app. simpl. lia.
    + rewrite Hout. reflexivity.
  - destruct Hout as [-> <-]. simpl. specialize (IH Q'). lia.
Qed.

(** X10: in best-effort mode a pass leaves no candidate element
    unaccounted for: the facts it produces and the entries it appends to
    the error list are together as many as the candidates. *)
Theorem best_effort_accounts_for_candidates `{Runtime} (cls : parser_class) (P : parser) :
  raise_on_error P = false ->
  length (numeric (snd (_get_numeric cls P))) + length (errors (snd (_get_numeric cls P)))
    = length (errors P) + length (numeric_candidates cls (soup P)) /\
  length (nonnumeric (snd (_get_nonnumeric cls P)))
    + length (errors (snd (_get_nonnumeric cls P)))
    = length (errors P) + length (nonnumeric_candidates cls (soup P)).
Proof.
  intros Hflag. split.
  - rewrite _get_numeric_loop.
    pose proof (best_effort_loop (numeric_entry cls) (numeric_attempt cls (soup P))
                  (numeric_loop_body cls (soup P)) (numeric_elements cls (soup P))
                  (numeric_guards _ _) (numeric_frame _ _)
                  (set_numeric [] P) (errors P) Hflag) as Hrun.
    change (set_errors (errors P) (set_numeric [] P)) with (set_numeric [] P) in Hrun.
    rewrite Hrun. cbn [snd numeric errors set_errors]. unfold failed_elements.
    rewrite length_app.
    pose proof (numeric_attempts_count cls (soup P) (numeric_entry cls)
                  (numeric_elements cls (soup P)) (set_numeric [] P)) as Hcount.
    cbn [numeric set_numeric length] in Hcount. unfold numeric_candidates. lia.
  - rewrite _get_nonnumeric_loop.
    pose proof (best_effort_loop ixbrlError (nonnumeric_attempt cls (soup P))
                  (nonnumeric_loop_body cls (soup P)) (nonnumeric_elements cls (soup P))
                  (nonnumeric_guards _ _) (nonnumeric_frame _ _)
                  (set_nonnumeric [] P) (errors P) Hflag) as Hrun.
    change (set_errors (errors P) (set_nonnumeric [] P)) with (set_nonnumeric [] P) in Hrun.
    rewrite Hrun. cbn [snd nonnumeric errors set_errors]. unfold failed_elements.
    rewrite length_app.
    pose proof (nonnumeric_attempts_count cls (soup P) ixbrlError
                  (nonnumeric_elements cls (soup P)) (set_nonnumeric [] P)) as Hcount.
    cbn [nonnumeric set_nonnumeric length] in Hcount. unfold nonnumeric_candidates. lia.
Qed.

Lemma best_effort_accounts_for_candidates_witness :
  length (numeric (snd (_get_numeric IXBRLParser_class (parser_init mixed_facts_doc false))))
    + length (errors (snd (_get_numeric IXBRLParser_class
                             (parser_init mixed_facts_doc false))))
    = length (errors (parser_init mixed_facts_doc false))
      + length (numeric_candidates IXBRLParser_class mixed_facts_doc) /\
  length (nonnumeric (snd (_get_nonnumeric IXBRLParser_class
                             (parser_init mixed_facts_doc false))))
    + length (errors (snd (_get_nonnumeric IXBRLParser_class
                             (parser_init mixed_facts_doc false))))
    = length (errors (parser_init mixed_facts_doc false))
      + length (nonnumeric_candidates IXBRLParser_class mixed_facts_doc).
Proof.
  exact (best_effort_accounts_for_candidates IXBRLParser_class
           (parser_init mixed_facts_doc false) eq_refl).
Defined.

Example mixed_facts_doc_parsed :
  match IXBRL_init mixed_facts_doc false with
  | Ok x =>
      map num_soup_tag (numeric (parser_obj x)) = [[0; 0]] /\
      map nn_soup_tag (nonnumeric (parser_obj x)) = [[0; 2]] /\
      map entry_element (errors (parser_obj x)) = [[0; 3]; [0; 1]]
  | Raise _ => False
  end.
Proof. vm_compute. repeat split. Qed.

Lemma sublist_In {A} (l k : list A) (x : A) : l `sublist_of` k -> x ∈ l -> x ∈ k.
Proof.
  induction 1 as [|y l k Hs IH|y l k Hs IH]; intros Hx.
  - exact Hx.
  - apply elem_of_cons in Hx as [-> | Hx]; [left|right; apply IH, Hx].
  - right. apply IH, Hx.
Qed.

Lemma elem_of_List_filter {A} (f : A -> bool) (l : list A) (x : A) :
  x ∈ List.filter f l <-> x ∈ l /\ f x = true.
Proof. rewrite !list_elem_of_In. apply List.filter_In. Qed.

(** The states a parse goes through before its two fact passes. *)
Lemma parse_passes `{Runtime} (doc : node) (flag : bool) (x : IXBRL) :
  IXBRL_init doc flag = Ok x ->
  exists P3,
    soup P3 = doc /\
    namespaces P3 = namespaces (snd (_get_schema (parser_cls x) (parser_init doc flag))) /\
    parser_obj x
    = snd (_get_numeric (parser_cls x) (snd (_get_nonnumeric (parser_cls x) P3))).
Proof.
  intros Hx. destruct (IXBRL_init_Ok doc flag x Hx) as [_ Hrun].
  apply extraction_stages in Hrun. cbv zeta in Hrun.
  set (P1 := snd (_get_schema (parser_cls x) (parser_init doc flag))) in *.
  set (P2 := snd (_get_contexts (parser_cls x) P1)) in *.
  set (P3 := snd (_get_units (parser_cls x) P2)) in *.
  exists P3. split; [|split; [|exact Hrun]].
  - destruct (schema_pass_frame (parser_cls x) (parser_init doc flag)) as (S1 & _).
    destruct (contexts_pass_frame (parser_cls x) P1) as (S2 & _).
    destruct (units_pass_frame (parser_cls x) P2) as (S3 & _).
    fold P1 in S1. fold P2 in S2. fold P3 in S3. rewrite S3, S2, S1. reflexivity.
  - destruct (contexts_pass_frame (parser_cls x) P1) as (_ & _ & _ & N2 & _).
    destruct (units_pass_frame (parser_cls x) P2) as (_ & _ & _ & _ & N3 & _).
    fold P2 in N2. fold P3 in N3. rewrite N3, N2. reflexivity.
Qed.

(** X11: in a parse of the bare variant an element is a numeric fact only
    if it has a context reference and a unit reference, and a non-numeric
    fact only if it has a context reference and no unit reference: no
    element is both. *)
Theorem bare_facts_are_classified_by_unit `{Runtime}
    (doc : node) (flag : bool) (x : IXBRL) :
  IXBRL_init doc flag = Ok x ->
  parser_cls x = XBRLParser_class ->
  (forall f, f ∈ numeric (parser_obj x) ->
     Py.truthy (Soup.get (Soup.deref doc (num_soup_tag f)) "contextRef") = true /\
     Py.truthy (Soup.get (Soup.deref doc (num_soup_tag f)) "unitRef") = true) /\
  (forall g, g ∈ nonnumeric (parser_obj x) ->
     Py.truthy (Soup.get (Soup.deref doc (nn_soup_tag g)) "contextRef") = true /\
     Py.truthy (Soup.get (Soup.deref doc (nn_soup_tag g)) "unitRef") = false) /\
  (forall f g, f ∈ numeric (parser_obj x) -> g ∈ nonnumeric (parser_obj x) ->
     num_soup_tag f <> nn_soup_tag g).
Proof.
  intros Hx Hcls. destruct (parse_passes doc flag x Hx) as (P3 & S3 & _ & Hobj).
  rewrite Hcls in Hobj.
  set (P4 := snd (_get_nonnumeric XBRLParser_class P3)) in *.
  assert (S4 : soup P4 = doc).
  { rewrite <- S3. apply (nonnumeric_pass_frame XBRLParser_class P3). reflexivity. }
  assert (Hnum : forall f, f ∈ numeric (parser_obj x) ->
            num_soup_tag f ∈ numeric_candidates XBRLParser_class doc).
  { intros f Hf. rewrite <- S4.
    apply (sublist_In _ _ _ (numeric_tags_sublist XBRLParser_class P4)).
    rewrite <- Hobj. apply list_elem_of_fmap. exists f. split; [reflexivity|exact Hf]. }
  assert (Hnn : forall g, g ∈ nonnumeric (parser_obj x) ->
            nn_soup_tag g ∈ nonnumeric_candidates XBRLParser_class doc).
  { intros g Hg. rewrite <- S3.
    apply (sublist_In _ _ _ (nonnumeric_tags_sublist XBRLParser_class P3)).
    fold P4. destruct (numeric_pass_frame XBRLParser_class P4) as (_ & _ & _ & _ & _ & _ & N5).
    rewrite <- Hobj in N5. rewrite <- N5.
    apply list_elem_of_fmap. exists g. split; [reflexivity|exact Hg]. }
  assert (Hnum' : forall f, f ∈ numeric (parser_obj x) ->
     Py.truthy (Soup.get (Soup.deref doc (num_soup_tag f)) "contextRef") = true /\
     Py.truthy (Soup.get (Soup.deref doc (num_soup_tag f)) "unitRef") = true).
  { intros f Hf. apply Hnum, elem_of_List_filter in Hf as [_ Hc].
    apply andb_true_iff in Hc. exact Hc. }
  assert (Hnn' : forall g, g ∈ nonnumeric (parser_obj x) ->
     Py.truthy (Soup.get (Soup.deref doc (nn_soup_tag g)) "contextRef") = true /\
     Py.truthy (Soup.get (Soup.deref doc (nn_soup_tag g)) "unitRef") = false).
  { intros g Hg. apply Hnn, elem_of_List_filter in Hg as [_ Hc].
    apply andb_true_iff in Hc as [Hc Hu]. apply negb_true_iff in Hu. split; assumption. }
  split; [exact Hnum'|]. split; [exact Hnn'|].
  intros f g Hf Hg Heq. destruct (Hnum' f Hf) as [_ Hu], (Hnn' g Hg) as [_ Hu'].
  rewrite Heq in Hu. congruence.
Qed.

Lemma bare_facts_are_classified_by_unit_witness :
  exists x,
    IXBRL_init bare_facts_doc false = Ok x /\
    map num_soup_tag (numeric (parser_obj x)) = [[0; 2]] /\
    map nn_soup_tag (nonnumeric (parser_obj x)) = [[0; 3]] /\
    forall f g, f ∈ numeric (parser_obj x) -> g ∈ nonnumeric (parser_obj x) ->
                num_soup_tag f <> nn_soup_tag g.
Proof.
  destruct (IXBRL_init bare_facts_doc false) as [x|e] eqn:E;
    [|vm_compute in E; discriminate E].
  exists x. split; [reflexivity|].
  assert (Hx : parser_cls x = XBRLParser_class /\
               map num_soup_tag (numeric (parser_obj x)) = [[0; 2]] /\
               map nn_soup_tag (nonnumeric (parser_obj x)) = [[0; 3]]).
  { vm_compute in E. injection E as <-. repeat split. }
  destruct Hx as (Hcls & Hnum & Hnn). split; [exact Hnum|]. split; [exact Hnn|].
  apply (bare_facts_are_classified_by_unit bare_facts_doc false x E Hcls).
Defined.

(** *** The schema and the namespaces *)

Lemma split_not_nil (sep : ascii) (s : string) : Py.split sep s <> [].
Proof.
  destruct s as [|c s]; simpl; [discriminate|].
  destruct (Ascii.eqb c sep); [discriminate|]. destruct (Py.split sep s); discriminate.
Qed.

Lemma join_cons (sep w : string) (ws : list string) :
  ws <> [] -> Py.join sep (w :: ws) = w +:+ sep +:+ Py.join sep ws.
Proof. destruct ws; [congruence|reflexivity]. Qed.

Lemma join_split (sep : ascii) (s : string) :
  Py.join (String sep EmptyString) (Py.split sep s) = s.
Proof.
  induction s as [|c s IH]; [reflexivity|]. simpl Py.split.
  pose proof (split_not_nil sep s) as Hne.
  destruct (Ascii.eqb_spec c sep) as [->|Hc].
  - rewrite join_cons by exact Hne. rewrite IH. reflexivity.
  - destruct (Py.split sep s) as [|w ws]; [congruence|].
    destruct ws as [|w' ws].
    + simpl in IH. subst w. reflexivity.
    + rewrite join_cons by discriminate. rewrite join_cons in IH by discriminate.
      rewrite <- IH. reflexivity.
Qed.

Lemma namespace_attrs_fold (attrs : Py.dict string) :
  forall (m : gmap string (list string)) (k : string),
    NoDup (map fst attrs) ->
    fold_left
      (fun ns kv =>
         if Py.startswith "xmlns" (fst kv) || Py.contains ":"%char (fst kv)
         then <[fst kv := Py.split " "%char (snd kv)]> ns
         else ns) attrs m !! k
    = match Py.get attrs k with
      | Some v => if is_namespace_key k then Some (Py.split " "%char v) else m !! k
      | None => m !! k
      end.
Proof.
  induction attrs as [|[k0 v0] attrs IH]; intros m k Hnd; [reflexivity|].
  simpl in Hnd. apply NoDup_cons in Hnd as [Hk0 Hnd].
  cbn [fold_left Py.get fst snd]. rewrite IH by exact Hnd.
  destruct (String.eqb_spec k0 k) as [->|Hne].
  - apply get_None_keys in Hk0. rewrite Hk0. unfold is_namespace_key.
    destruct (Py.startswith "xmlns" k || Py.contains ":"%char k); [|reflexivity].
    apply lookup_insert_eq.
  - assert (Hm : (if Py.startswith "xmlns" k0 || Py.contains ":"%char k0
                  then <[k0 := Py.split " "%char v0]> m else m) !! k = m !! k).
    { destruct (Py.startswith "xmlns" k0 || Py.contains ":"%char k0); [|reflexivity].
      apply lookup_insert_ne. exact Hne. }
    rewrite Hm. reflexivity.
Qed.

Lemma namespace_attrs_lookup (attrs : Py.dict string) (k : string) :
  NoDup (map fst attrs) ->
  IXBRLParser.namespace_attrs attrs !! k
  = if is_namespace_key k then Py.split " "%char <$> Py.get attrs k else None.
Proof.
  intros Hnd. unfold IXBRLParser.namespace_attrs. rewrite namespace_attrs_fold by exact Hnd.
  rewrite lookup_empty. destruct (Py.get attrs k), (is_namespace_key k); reflexivity.
Qed.

Lemma _get_schema_fields (cls : parser_class) (P : parser) :
  schema (snd (_get_schema cls P))
  = match Soup.find (soup P) []
            ["link:schemaRef"; "schemaRef"; "link:schemaref"; "schemaref"] with
    | Some t =>
        if Py.truthy (Soup.get (Soup.deref (soup P) t) "xlink:href")
        then Py.strip <$> Soup.get (Soup.deref (soup P) t) "xlink:href"
        else None
    | None => None
    end /\
  namespaces (snd (_get_schema cls P))
  = match Soup.find (soup P) [] [root_element_of cls] with
    | Some t => IXBRLParser.namespace_attrs (Soup.attrs_of (Soup.deref (soup P) t))
    | None => ∅
    end.
Proof.
  destruct cls; unfold _get_schema, IXBRLParser._get_schema, root_element_of;
    unfold_method; simpl; unfold Soup.getitem;
    repeat (case_match; simplify_eq; simpl in * ); split; try reflexivity; try discriminate.
Qed.

(** X12: the schema pass stores the stripped [xlink:href] of the first
    schema reference that has a non-empty one, else [None]; the namespace
    table is empty without a root element, and otherwise maps every
    attribute of the root named [xmlns...] or with a colon to its value
    split at the spaces, and nothing else; joining such a value with spaces
    gives the attribute back. *)
Theorem schema_pass_reads_root_attributes (cls : parser_class) (P : parser) :
  let Q := snd (_get_schema cls P) in
  schema Q
  = match Soup.find (soup P) []
            ["link:schemaRef"; "schemaRef"; "link:schemaref"; "schemaref"] with
    | Some t =>
        if Py.truthy (Soup.get (Soup.deref (soup P) t) "xlink:href")
        then Py.strip <$> Soup.get (Soup.deref (soup P) t) "xlink:href"
        else None
    | None => None
    end /\
  (Soup.find (soup P) [] [root_element_of cls] = None -> namespaces Q = ∅) /\
  (forall root,
     Soup.find (soup P) [] [root_element_of cls] = Some root ->
     NoDup (map fst (Soup.attrs_of (Soup.deref (soup P) root))) ->
     forall k,
       namespaces Q !! k
       = if is_namespace_key k
         then Py.split " "%char <$> Soup.get (Soup.deref (soup P) root) k
         else None) /\
  (forall value, Py.join " " (Py.split " "%char value) = value).
Proof.
  intros Q. destruct (_get_schema_fields cls P) as [Hs Hn]. fold Q in Hs, Hn.
  split; [exact Hs|]. split; [|split].
  - intros Hroot. rewrite Hn, Hroot. reflexivity.
  - intros root Hroot Hnd k. rewrite Hn, Hroot. apply namespace_attrs_lookup. exact Hnd.
  - intros value. apply (join_split " "%char).
Qed.

Example namespaced_doc_header :
  match IXBRL_init namespaced_doc true with
  | Ok x =>
      schema (parser_obj x) = Some "http://example.com/uk.xsd" /\
      namespaces (parser_obj x) !! "xmlns:uk" = Some ["http://example.com/uk"; "2020"] /\
      namespaces (parser_obj x) !! "lang" = None /\
      map (fun row => Py.get row "schema") (to_table x "numeric")
      = [Some (PyStr "http://example.com/uk 2020"); Some (PyStr "fr")]
  | Raise _ => False
  end.
Proof. vm_compute. repeat split. Qed.

Lemma recognised_root (doc : node) (ft : string) (cls : parser_class) :
  _get_parser doc = Ok (ft, cls) ->
  exists root, Soup.find doc [] [root_element_of cls] = Some root.
Proof.
  unfold _get_parser.
  destruct (Soup.find doc [] ["html"]) as [t|] eqn:Eh.
  - intros [= <- <-]. exists t. exact Eh.
  - destruct (Soup.find doc [] ["xbrl"]) as [t|] eqn:Ex; [|discriminate].
    intros [= <- <-]. exists t. exact Ex.
Qed.

Lemma to_row_schema (x : IXBRL) (v : fact) :
  Py.get (to_row x v) "schema"
  = Some (PyStr (Py.join " "
       (default [fact_schema v]
          (namespaces (parser_obj x) !! ("xmlns:" +:+ fact_schema v))))).
Proof.
  unfold to_row. rewrite get_update by apply NoDup_segment_columns.
  assert (Hnone : Py.get (segment_columns v) "schema" = None).
  { apply get_None_keys. rewrite segment_columns_keys.
    intros (i & Heq & _)%list_elem_of_fmap.
    apply (segment_key_not_fixed i). rewrite <- Heq. left. }
  rewrite Hnone. reflexivity.
Qed.

(** X13: the [schema] column of a row is the value of the attribute
    [xmlns:<schema>] of the root element (the first [html] or [xbrl]
    element, by parser class), as written in the document, when the root
    element declares it, and the schema of the fact itself otherwise. *)
Theorem schema_column_is_declared_namespace `{Runtime}
    (doc : node) (flag : bool) (x : IXBRL) :
  IXBRL_init doc flag = Ok x ->
  exists root,
    Soup.find doc [] [root_element_of (parser_cls x)] = Some root /\
    (NoDup (map fst (Soup.attrs_of (Soup.deref doc root))) ->
     forall v,
       Py.get (to_row x v) "schema"
       = Some (PyStr (default (fact_schema v)
                        (Soup.get (Soup.deref doc root) ("xmlns:" +:+ fact_schema v))))).
Proof.
  intros Hx. destruct (IXBRL_init_Ok doc flag x Hx) as [Hsel _].
  destruct (recognised_root doc _ _ Hsel) as [root Hroot].
  exists root. split; [exact Hroot|]. intros Hnd v.
  destruct (parse_passes doc flag x Hx) as (P3 & _ & N3 & Hobj).
  destruct (nonnumeric_pass_frame (parser_cls x) P3) as [(_ & _ & N4 & _) _].
  destruct (numeric_pass_frame (parser_cls x) (snd (_get_nonnumeric (parser_cls x) P3)))
    as (_ & _ & _ & N5 & _).
  rewrite <- Hobj in N5.
  destruct (_get_schema_fields (parser_cls x) (parser_init doc flag)) as [_ Hn].
  cbn [soup parser_init] in Hn. rewrite Hroot in Hn.
  rewrite to_row_schema, N5, N4, N3, Hn, namespace_attrs_lookup by exact Hnd.
  assert (Hkey : is_namespace_key ("xmlns:" +:+ fact_schema v) = true) by reflexivity.
  rewrite Hkey. unfold Soup.get.
  destruct (Py.get (Soup.attrs_of (Soup.deref doc root)) ("xmlns:" +:+ fact_schema v))
    as [uri|]; simpl; [|reflexivity].
  rewrite (join_split " "%char). reflexivity.
Qed.

Lemma schema_column_is_declared_namespace_witness :
  exists x root,
    IXBRL_init namespaced_doc true = Ok x /\
    Soup.find namespaced_doc [] [root_element_of (parser_cls x)] = Some root /\
    forall v,
      Py.get (to_row x v) "schema"
      = Some (PyStr (default (fact_schema v)
                       (Soup.get (Soup.deref namespaced_doc root)
                          ("xmlns:" +:+ fact_schema v)))).
Proof.
  destruct (IXBRL_init namespaced_doc true) as [x|e] eqn:E;
    [|vm_compute in E; discriminate E].
  destruct (schema_column_is_declared_namespace namespaced_doc true x E)
    as (root & Hroot & Hcol).
  exists x, root. split; [reflexivity|]. split; [exact Hroot|]. apply Hcol.
  assert (Hr : root = [0]).
  { destruct (IXBRL_init_Ok _ _ _ E) as [Hsel _].
    change (_get_parser namespaced_doc)
      with (Ok (A := string * parser_class) (FILETYPE_IXBRL, IXBRLParser_class)) in Hsel.
    injection Hsel as _ Hcls. rewrite <- Hcls in Hroot. vm_compute in Hroot. congruence. }
  subst root. vm_compute.
  repeat (apply NoDup_cons_2; [rewrite ?not_elem_of_cons; repeat split; try discriminate;
                               apply not_elem_of_nil|]).
  apply NoDup_nil_2.
Defined.

(** *** The tables *)

Lemma omap_cons_eq {A B} (f : A -> option B) (x : A) (l : list A) :
  omap f (x :: l) = match f x with Some y => y :: omap f l | None => omap f l end.
Proof. reflexivity. Qed.

Lemma fold_insert_lookup {V} (entry : path -> option (string * V)) (elems : list path) :
  forall (m : gmap string V) (k : string),
    fold_left (fun m s => match entry s with
                          | Some (k', v) => <[k' := v]> m
                          | None => m
                          end) elems m !! k
    = match last_entry entry elems k with
      | Some v => Some v
      | None => m !! k
      end.
Proof.
  unfold last_entry. induction elems as [|s rest IH]; intros m k; [reflexivity|].
  cbn [fold_left]. rewrite IH, omap_cons_eq.
  destruct (entry s) as [[k' v]|]; [|reflexivity].
  destruct (decide (k' = k)) as [->|Hne].
  - rewrite bool_decide_eq_true_2 by reflexivity. rewrite last_cons, lookup_insert_eq.
    destruct (last _); reflexivity.
  - rewrite bool_decide_eq_false_2 by exact Hne. rewrite lookup_insert_ne by exact Hne.
    reflexivity.
Qed.

Lemma units_loop_table (doc : node) (elems : list path) :
  forall Q,
    units (snd (for_each elems (IXBRLParser.unit_body BaseParser._get_tag_text doc) Q))
    = fold_left (fun m s => match unit_entry doc s with
                            | Some (k', v) => <[k' := v]> m
                            | None => m
                            end) elems (units Q).
Proof.
  induction elems as [|s rest IH]; intros Q; [reflexivity|].
  rewrite for_each_cons. cbn [fold_left].
  unfold IXBRLParser.unit_body at 1, unit_entry at 2, BaseParser._get_tag_text.
  destruct (Soup.get (Soup.deref doc s) "id") as [s_id|]; [|apply IH].
  unfold_method.
  destruct (Soup.find doc s ["xbrli:measure"; "measure"]) as [t|]; rewrite IH; reflexivity.
Qed.

(** X14: the unit pass never raises, and its table maps an identifier to
    the measure of the last unit element that carries it (to [None] when
    that element has no measure); a unit element without an [id] attribute
    is left out, one with an empty [id] is stored under the empty key. *)
Theorem units_table_holds_last_declaration (cls : parser_class) (P : parser) :
  fst (_get_units cls P) = Ok tt /\
  (forall k,
     units (snd (_get_units cls P)) !! k
     = last_entry (unit_entry (soup P)) (unit_elements cls (soup P)) k) /\
  (forall s k,
     Soup.get (Soup.deref (soup P) s) "id" = Some k ->
     s ∈ unit_elements cls (soup P) ->
     is_Some (units (snd (_get_units cls P)) !! k)).
Proof.
  assert (Htable : forall k,
     units (snd (_get_units cls P)) !! k
     = last_entry (unit_entry (soup P)) (unit_elements cls (soup P)) k).
  { intros k. rewrite _get_units_loop, units_loop_table, fold_insert_lookup.
    cbn [units set_units]. rewrite lookup_empty. destruct (last_entry _ _ _); reflexivity. }
  split; [|split; [exact Htable|]].
  - destruct (units_stage cls P) as (-> & _). reflexivity.
  - intros s k Hid Hin. rewrite Htable. unfold last_entry.
    apply list_elem_of_split in Hin as (l1 & l2 & ->).
    rewrite omap_app, omap_cons_eq. unfold unit_entry at 2. rewrite Hid.
    rewrite bool_decide_eq_true_2 by reflexivity.
    rewrite last_app, last_cons.
    destruct (last (omap _ l2)); eauto.
Qed.

Example redeclared_doc_parsed :
  match IXBRL_init redeclared_doc false with
  | Ok x =>
      units (parser_obj x) !! "u1" = Some (Some "iso4217:USD") /\
      units (parser_obj x) !! "" = Some None /\
      ctx_instant <$> contexts (parser_obj x) !! "c1" = Some (Some "2021-01-01") /\
      map entry_element (errors (parser_obj x)) = [[0; 0; 2]]
  | Raise _ => False
  end.
Proof. vm_compute. repeat split. Qed.

Lemma valid_contexts_fold `{Runtime} (doc : node) (elems : list path) :
  forall table,
    valid_contexts doc elems table
    = fold_left (fun m s => match context_entry_of doc s with
                            | Some (k', v) => <[k' := v]> m
                            | None => m
                            end) elems table.
Proof.
  induction elems as [|s rest IH]; intros table; [reflexivity|].
  rewrite valid_contexts_cons, IH. cbn [fold_left]. f_equal. unfold context_entry_of.
  destruct (context_outcome doc s) as [[s_id [c|e]]|]; reflexivity.
Qed.

Lemma contexts_table_best_effort `{Runtime} (cls : parser_class) (P : parser) (k : string) :
  raise_on_error P = false ->
  contexts (snd (_get_contexts cls P)) !! k
  = last_entry (context_entry_of (soup P)) (context_elements cls (soup P)) k.
Proof.
  intros Hflag. destruct (contexts_stage cls P Hflag) as (_ & _ & _ & _ & ->).
  rewrite valid_contexts_fold, fold_insert_lookup, lookup_empty.
  destruct (last_entry _ _ _); reflexivity.
Qed.

(** X15: when the context pass returns, in either mode, its table maps an
    identifier to the context built from the last context element with
    that identifier whose construction succeeded: a later declaration
    replaces an earlier one, and one that fails leaves it in place. *)
Theorem contexts_table_holds_last_valid `{Runtime} (cls : parser_class) (P : parser) :
  fst (_get_contexts cls P) = Ok tt ->
  forall k,
    contexts (snd (_get_contexts cls P)) !! k
    = last_entry (context_entry_of (soup P)) (context_elements cls (soup P)) k.
Proof.
  intros Hrun k. destruct (raise_on_error P) eqn:Hflag;
    [|apply contexts_table_best_effort; exact Hflag].
  set (P0 := set_raise_on_error false P).
  assert (HP : P = set_raise_on_error true P0).
  { destruct P; simpl in *; subst; reflexivity. }
  destruct (contexts_modes cls P0 eq_refl) as (P' & F & Hbest & _ & _ & Hfast).
  rewrite <- HP in Hfast.
  assert (Htable := contexts_table_best_effort cls P0 k eq_refl).
  rewrite Hbest in Htable. cbn [snd] in Htable.
  destruct F as [|entry F].
  - rewrite Hfast. cbn [snd contexts set_raise_on_error]. exact Htable.
  - rewrite Hrun in Hfast. discriminate Hfast.
Qed.

Lemma contexts_table_holds_last_valid_witness :
  ctx_instant <$>
    contexts (snd (_get_contexts IXBRLParser_class (parser_init redeclared_doc false)))
      !! "c1"
  = ctx_instant <$>
      last_entry (context_entry_of redeclared_doc)
        (context_elements IXBRLParser_class redeclared_doc) "c1" /\
  ctx_instant <$>
    contexts (snd (_get_contexts IXBRLParser_class (parser_init redeclared_doc false)))
      !! "c1"
  = Some (Some "2021-01-01").
Proof.
  split; [|vm_compute; reflexivity].
  exact (f_equal (fmap ctx_instant)
           (contexts_table_holds_last_valid IXBRLParser_class
              (parser_init redeclared_doc false) eq_refl "c1")).
Defined.

(** *** Segments *)

(** X16: the dictionary of a segment member holds every attribute of the
    member under its name; the keys [tag] and [value] hold the name and the
    stripped text of the member unless an attribute of that name replaces
    them.  Without such attributes the label of the segment in a table is
    the name, the [dimension] attribute and the text. *)
Theorem segment_dict_lookup (x : node) :
  NoDup (map fst (Soup.attrs_of x)) ->
  (forall k,
     Py.get (IXBRLParser.segment_dict x) k
     = match Soup.get x k with
       | Some v => Some v
       | None =>
           if ("tag" =? k)%string then Some (Soup.name_of x)
           else if ("value" =? k)%string then Some (Py.strip (Soup.text x))
           else None
       end) /\
  (Soup.get x "tag" = None -> Soup.get x "value" = None ->
   segment_label (IXBRLParser.segment_dict x)
   = Py.strip (Soup.name_of x +:+ " " +:+ Py.str_of_opt (Soup.get x "dimension")
               +:+ " " +:+ Py.strip (Soup.text x))).
Proof.
  intros Hnd.
  assert (Hget : forall k,
     Py.get (IXBRLParser.segment_dict x) k
     = match Soup.get x k with
       | Some v => Some v
       | None =>
           if ("tag" =? k)%string then Some (Soup.name_of x)
           else if ("value" =? k)%string then Some (Py.strip (Soup.text x))
           else None
       end).
  { intros k. unfold IXBRLParser.segment_dict. rewrite get_update by exact Hnd.
    reflexivity. }
  split; [exact Hget|]. intros Htag Hvalue.
  unfold segment_label. rewrite !Hget, Htag, Hvalue. cbn [String.eqb Ascii.eqb Bool.eqb].
  destruct (Soup.get x "dimension"); reflexivity.
Qed.

Lemma segment_dict_lookup_witness :
  Py.get (IXBRLParser.segment_dict overriding_member) "value" = Some "v2" /\
  Py.get (IXBRLParser.segment_dict overriding_member) "tag" = Some "explicitMember" /\
  segment_label (IXBRLParser.segment_dict overriding_member) = "explicitMember d1 v2".
Proof.
  assert (Hnd : NoDup (map fst (Soup.attrs_of overriding_member))).
  { simpl. repeat (apply NoDup_cons_2;
                   [rewrite ?not_elem_of_cons; repeat split; try discriminate;
                    apply not_elem_of_nil|]).
    apply NoDup_nil_2. }
  destruct (segment_dict_lookup overriding_member Hnd) as [Hget _].
  split; [rewrite Hget; reflexivity|]. split; [rewrite Hget; reflexivity|].
  vm_compute. reflexivity.
Defined.

(** *** Keyword arguments *)

Lemma check_kwargs_clash (explicit : list string) (attrs : Py.dict string) (k v : string) :
  k ∈ explicit -> Py.get attrs k = Some v ->
  exists msg, check_kwargs explicit attrs = Raise (TypeError msg).
Proof.
  intros Hk Hget. unfold check_kwargs.
  destruct (List.filter _ (map fst attrs)) as [|k' l] eqn:E; [|eauto].
  exfalso. apply get_Some_keys in Hget.
  assert (Hin : k ∈ List.filter (fun k0 => existsb (String.eqb k0) explicit) (map fst attrs)).
  { apply elem_of_List_filter. split; [exact Hget|].
    apply existsb_exists. exists k. split; [apply list_elem_of_In, Hk|apply String.eqb_refl]. }
  rewrite E in Hin. apply elem_of_nil in Hin. exact Hin.
Qed.

(** X17: an inline numeric element that has a context and a unit
    reference and an attribute named like a keyword of the constructor
    call ([text], [context], [unit], [soup_tag]) is never made a fact:
    the call raises [TypeError] before the constructor runs, and the pass
    records the error and, in fail-fast mode, raises it. *)
Theorem numeric_keyword_clash `{Runtime}
    (P : parser) (s : path) (c u k v : string) :
  Soup.get (Soup.deref (soup P) s) "contextRef" = Some c ->
  Soup.get (Soup.deref (soup P) s) "unitRef" = Some u ->
  k ∈ inline_numeric_keywords ->
  Soup.get (Soup.deref (soup P) s) k = Some v ->
  exists msg,
    IXBRLParser.numeric_fact s P = (Raise (TypeError msg), P) /\
    IXBRLParser.numeric_body s P
    = (if raise_on_error P then Raise (TypeError msg) else Ok tt,
       set_errors (errors P ++ [ixbrlError (TypeError msg) s]) P).
Proof.
  intros Hc Hu Hk Hget.
  destruct (check_kwargs_clash inline_numeric_keywords
              (Soup.attrs_of (Soup.deref (soup P) s)) k v Hk Hget) as [msg Hmsg].
  exists msg.
  assert (Hfact : IXBRLParser.numeric_fact s P = (Raise (TypeError msg), P)).
  { unfold IXBRLParser.numeric_fact. unfold_method. unfold Soup.getitem.
    rewrite Hc, Hu. unfold ixbrlNumeric_init. cbn [app].
    unfold inline_numeric_keywords in Hmsg. rewrite Hmsg. reflexivity. }
  split; [exact Hfact|].
  unfold IXBRLParser.numeric_body, guarded, try_except. rewrite Hfact.
  unfold_method. cbn [raise_on_error set_errors].
  destruct (raise_on_error P); reflexivity.
Qed.

Lemma numeric_keyword_clash_witness :
  exists msg,
    IXBRLParser.numeric_fact [0; 0] (parser_init keyword_clash_doc false)
    = (Raise (TypeError msg), parser_init keyword_clash_doc false) /\
    IXBRLParser.numeric_body [0; 0] (parser_init keyword_clash_doc false)
    = (Ok tt, set_errors [ixbrlError (TypeError msg) [0; 0]]
                (parser_init keyword_clash_doc false)).
Proof.
  assert (Hk : "unit" ∈ inline_numeric_keywords).
  { unfold inline_numeric_keywords. do 2 right. left. }
  exact (numeric_keyword_clash (parser_init keyword_clash_doc false) [0; 0]
           "c1" "u1" "unit" "GBP" eq_refl eq_refl Hk eq_refl).
Defined.

(** *** The command line *)

(** X18: the command line parses in fail-fast mode.  For a recognised
    document whose best-effort parse records no error, the CSV header is
    that of the table of the parse; if the best-effort parse records an
    error, the command line raises the first one and has no header. *)
Theorem cli_csv_is_fail_fast `{Runtime}
    (doc : node) (sel : string * parser_class) (fields : string) :
  _get_parser doc = Ok sel ->
  exists x,
    IXBRL_init doc false = Ok x /\
    match errors (parser_obj x) with
    | [] => cli.csv_fieldnames doc fields = Ok (header (widest (selected_facts x fields)))
    | entry :: _ => cli.csv_fieldnames doc fields = Raise (entry_error entry)
    end.
Proof.
  intros Hsel. unfold cli.csv_fieldnames, IXBRL_init. rewrite Hsel.
  cbn [mbind result_bind].
  destruct (extraction_modes (snd sel) (parser_init doc false) eq_refl)
    as (P' & F & Hrun & _ & He & Hfast).
  rewrite Hrun. eexists. split; [reflexivity|]. cbn [parser_obj].
  change (parser_init doc true) with (set_raise_on_error true (parser_init doc false)).
  rewrite He. cbn [errors parser_init app].
  destruct F as [|entry F].
  - rewrite Hfast. cbn [mbind result_bind mret result_ret]. f_equal.
    exact (columns_of_rows _ (selected_facts _ fields) [] 0 eq_refl).
  - destruct (extraction (snd sel) (set_raise_on_error true (parser_init doc false)))
      as [[[]|e] Q]; cbn [fst] in Hfast; [discriminate|].
    injection Hfast as ->. reflexivity.
Qed.

Lemma cli_csv_is_fail_fast_witness :
  (exists x,
     IXBRL_init three_contexts_doc false = Ok x /\
     match errors (parser_obj x) with
     | [] => cli.csv_fieldnames three_contexts_doc "all"
             = Ok (header (widest (selected_facts x "all")))
     | entry :: _ => cli.csv_fieldnames three_contexts_doc "all" = Raise (entry_error entry)
     end) /\
  raises (cli.csv_fieldnames three_contexts_doc "all") = true /\
  cli.csv_fieldnames segment_doc "all"
  = Ok ["schema"; "name"; "value"; "unit"; "instant"; "startdate"; "enddate"; "segment:0"].
Proof.
  split; [|split; vm_compute; reflexivity].
  exact (cli_csv_is_fail_fast three_contexts_doc (FILETYPE_IXBRL, IXBRLParser_class)
           "all" eq_refl).
Defined.

(** *** Inline documents without resources *)

(** X19: in an inline document without a [resources] element the context
    and the unit table are empty, so every fact holds its references as
    they are written: the context of a fact is its [contextRef] and the
    unit of a numeric fact its [unitRef]. *)
Theorem inline_without_resources `{Runtime} (doc : node) (flag : bool) (x : IXBRL) :
  IXBRL_init doc flag = Ok x ->
  parser_cls x = IXBRLParser_class ->
  Soup.find doc [] ["ix:resources"; "resources"] = None ->
  contexts (parser_obj x) = ∅ /\
  units (parser_obj x) = ∅ /\
  (forall f ref,
     f ∈ numeric (parser_obj x) ->
     Soup.get (Soup.deref doc (num_soup_tag f)) "contextRef" = Some ref ->
     num_context f = Raw ref) /\
  (forall f ref,
     f ∈ numeric (parser_obj x) ->
     Soup.get (Soup.deref doc (num_soup_tag f)) "unitRef" = Some ref ->
     num_unit f = Some ref) /\
  (forall g ref,
     g ∈ nonnumeric (parser_obj x) ->
     Soup.get (Soup.deref doc (nn_soup_tag g)) "contextRef" = Some ref ->
     nn_context g = Raw ref).
Proof.
  intros Hx Hcls Hres. destruct (IXBRL_init_Ok doc flag x Hx) as [_ Hrun].
  apply extraction_stages in Hrun. cbv zeta in Hrun. rewrite Hcls in Hrun.
  set (P1 := snd (_get_schema IXBRLParser_class (parser_init doc flag))) in *.
  set (P2 := snd (_get_contexts IXBRLParser_class P1)) in *.
  set (P3 := snd (_get_units IXBRLParser_class P2)) in *.
  set (P4 := snd (_get_nonnumeric IXBRLParser_class P3)) in *.
  destruct (schema_pass_frame IXBRLParser_class (parser_init doc flag)) as (S1 & _).
  fold P1 in S1. cbn [soup parser_init] in S1.
  assert (C2 : contexts P2 = ∅ /\ soup P2 = doc).
  { unfold P2. rewrite _get_contexts_loop. cbn [context_elements].
    unfold IXBRLParser._get_context_elements. rewrite S1, Hres.
    split; [reflexivity|exact S1]. }
  destruct C2 as [C2 S2].
  assert (U3 : units P3 = ∅ /\ soup P3 = doc /\ contexts P3 = ∅).
  { unfold P3. rewrite _get_units_loop. cbn [unit_elements].
    unfold IXBRLParser._get_unit_elements. rewrite S2, Hres.
    split; [reflexivity|]. split; [exact S2|exact C2]. }
  destruct U3 as (U3 & S3 & C3).
  destruct (nonnumeric_pass_frame IXBRLParser_class P3) as [(_ & _ & _ & C4 & U4 & _ & A4) _].
  fold P4 in C4, U4, A4. rewrite C3 in C4. rewrite U3 in U4. rewrite S3 in A4.
  destruct (numeric_pass_frame IXBRLParser_class P4) as (_ & _ & _ & _ & C5 & U5 & N5).
  rewrite <- Hrun in C5, U5, N5. rewrite C4 in C5. rewrite U4 in U5.
  destruct (numeric_facts_kept IXBRLParser_class P4) as (_ & _ & _ & Hnum).
  rewrite <- Hrun in Hnum. rewrite Forall_forall in Hnum.
  destruct (nonnumeric_facts_kept IXBRLParser_class P3) as (_ & _ & Hnn).
  fold P4 in Hnn. rewrite <- N5, Forall_forall in Hnn.
  split; [exact C5|]. split; [exact U5|]. split; [|split].
  - intros f ref Hf Href. destruct (Hnum f Hf) as [Hctx _]. apply Hctx.
    + unfold Soup.get. rewrite A4. exact Href.
    + rewrite C4. apply lookup_empty.
  - intros f ref Hf Href. destruct (Hnum f Hf) as [_ Hunit]. apply Hunit.
    + unfold Soup.get. rewrite A4. exact Href.
    + rewrite U4. apply lookup_empty.
  - intros g ref Hg Href. apply (Hnn g Hg).
    + rewrite S3. exact Href.
    + rewrite C3. apply lookup_empty.
Qed.

Lemma inline_without_resources_witness :
  exists x,
    IXBRL_init dangling_refs_doc false = Ok x /\
    map num_soup_tag (numeric (parser_obj x)) = [[0; 0]] /\
    contexts (parser_obj x) = ∅ /\
    forall f ref,
      f ∈ numeric (parser_obj x) ->
      Soup.get (Soup.deref dangling_refs_doc (num_soup_tag f)) "contextRef" = Some ref ->
      num_context f = Raw ref.
Proof.
  destruct (IXBRL_init dangling_refs_doc false) as [x|e] eqn:E;
    [|vm_compute in E; discriminate E].
  exists x. split; [reflexivity|].
  assert (Hx : parser_cls x = IXBRLParser_class /\
               map num_soup_tag (numeric (parser_obj x)) = [[0; 0]]).
  { vm_compute in E. injection E as <-. split; reflexivity. }
  destruct Hx as [Hcls Htags]. split; [exact Htags|].
  destruct (inline_without_resources dangling_refs_doc false x E Hcls eq_refl)
    as (Hc & _ & Hnum & _).
  split; [exact Hc|exact Hnum].
Defined.

(** *** Exclusions *)

Lemma walk_cons (q : path) (j : nat) (c : node) (l : list node) :
  walk q j (c :: l) = item q j c ++ walk q (S j) l.
Proof. reflexivity. Qed.

Lemma elem_of_walk (q : path) (l : list node) :
  forall j e, e ∈ walk q j l <-> exists k c, l !! k = Some c /\ e ∈ item q (j + k) c.
Proof.
  induction l as [|a l IH]; intros j e.
  - split; [intros He; apply elem_of_nil in He; contradiction|].
    intros (k & c & Hk & _). discriminate Hk.
  - rewrite walk_cons, elem_of_app, IH. split.
    + intros [He|(k & c & Hk & He)].
      * exists 0, a. rewrite Nat.add_0_r. split; [reflexivity|exact He].
      * exists (S k), c. replace (j + S k) with (S j + k) by lia. split; assumption.
    + intros (k & c & Hk & He). destruct k as [|k].
      * left. injection Hk as ->. rewrite Nat.add_0_r in He. exact He.
      * right. exists k, c. replace (S j + k) with (j + S k) by lia. split; assumption.
Qed.

Lemma descendants_paths (n : node) :
  forall q e, e ∈ Soup.descendants q n -> exists k r, fst e = q ++ k :: r.
Proof.
  induction n as [s|a pf nm ats cs IH] using node_children_ind; intros q e He.
  - apply elem_of_nil in He. contradiction.
  - rewrite descendants_Tag in He. apply elem_of_walk in He as (k & c & Hk & He).
    unfold item in He. destruct (Soup.is_attached c && Soup.is_tag c);
      [|apply elem_of_nil in He; contradiction].
    apply elem_of_cons in He as [-> | He]; [exists k, []; reflexivity|].
    rewrite Forall_lookup in IH. destruct (IH k c Hk (q ++ [k]) e He) as (k' & r & Hr).
    exists k, (k' :: r). rewrite <- app_assoc in Hr. exact Hr.
Qed.

Lemma item_paths (q : path) (k : nat) (c : node) (e : path * node) :
  e ∈ item q k c -> exists r, fst e = q ++ k :: r.
Proof.
  unfold item. destruct (Soup.is_attached c && Soup.is_tag c);
    [|intros He; apply elem_of_nil in He; contradiction].
  intros [-> | He]%elem_of_cons; [exists []; reflexivity|].
  destruct (descendants_paths c _ e He) as (k' & r & Hr).
  exists (k' :: r). rewrite <- app_assoc in Hr. exact Hr.
Qed.

Lemma is_tag_update_at (y : path) (c : node) :
  Soup.is_tag (Soup.update_at Soup.detach y c) = Soup.is_tag c.
Proof. destruct y, c; reflexivity. Qed.

Lemma is_attached_update_at (y : path) (c : node) :
  y <> [] -> Soup.is_attached (Soup.update_at Soup.detach y c) = Soup.is_attached c.
Proof. destruct y, c; congruence || reflexivity. Qed.

Lemma label_update_at (y : path) (c : node) :
  label (Soup.update_at Soup.detach y c) = label c.
Proof. destruct y, c; reflexivity. Qed.

Lemma descendants_detach (q : path) (n : node) :
  Soup.descendants q (Soup.detach n) = Soup.descendants q n.
Proof. destruct n; reflexivity. Qed.

Lemma item_detach (q : path) (k : nat) (c : node) : item q k (Soup.detach c) = [].
Proof. destruct c; reflexivity. Qed.

Lemma walk_alter_sublist (f : node -> node) (q : path) :
  (forall c k, map key (item q k (f c)) `sublist_of` map key (item q k c)) ->
  forall l i j, map key (walk q j (alter f i l)) `sublist_of` map key (walk q j l).
Proof.
  intros Hf. induction l as [|c l IH]; intros i j; [reflexivity|].
  destruct i as [|i].
  - change (alter f 0 (c :: l)) with (f c :: l). rewrite !walk_cons, !map_app.
    apply sublist_app; [apply Hf|reflexivity].
  - change (alter f (S i) (c :: l)) with (c :: alter f i l). rewrite !walk_cons, !map_app.
    apply sublist_app; [reflexivity|apply IH].
Qed.

Lemma descendants_extract_sublist (y : path) :
  forall n q,
    map key (Soup.descendants q (Soup.update_at Soup.detach y n))
      `sublist_of` map key (Soup.descendants q n).
Proof.
  induction y as [|i y IH]; intros n q.
  - cbn [Soup.update_at]. rewrite descendants_detach. reflexivity.
  - destruct n as [a pf nm ats cs|s]; [|reflexivity].
    cbn [Soup.update_at]. rewrite !descendants_Tag. apply walk_alter_sublist.
    intros c k. destruct y as [|i' y'].
    + cbn [Soup.update_at]. rewrite item_detach. apply sublist_nil_l.
    + unfold item. rewrite is_tag_update_at, is_attached_update_at by discriminate.
      destruct (Soup.is_attached c && Soup.is_tag c); [|reflexivity].
      cbn [map]. unfold key at 1 3. cbn [fst snd]. rewrite label_update_at.
      apply sublist_skip. apply IH.
Qed.

Lemma matches_any_label (aliases : list string) (n : node) :
  Soup.matches_any aliases n = label_matches aliases (label n).
Proof.
  destruct n as [a pf nm ats cs|s]; [reflexivity|]. unfold Soup.matches_any. simpl.
  induction aliases as [|alias aliases IH]; [reflexivity|exact IH].
Qed.

Lemma filter_map_key (aliases : list string) (l : list (path * node)) :
  map fst (List.filter (fun e => Soup.matches_any aliases (snd e)) l)
  = map fst (List.filter (fun k => label_matches aliases (snd k)) (map key l)).
Proof.
  induction l as [|e l IH]; [reflexivity|]. cbn [map List.filter].
  unfold key at 1. cbn [snd]. rewrite <- matches_any_label.
  destruct (Soup.matches_any aliases (snd e)); cbn [map fst]; rewrite IH; reflexivity.
Qed.

Lemma sublist_List_filter {A} (f : A -> bool) (l k : list A) :
  l `sublist_of` k -> List.filter f l `sublist_of` List.filter f k.
Proof.
  induction 1 as [|x l k Hs IH|x l k Hs IH]; simpl.
  - apply sublist_nil.
  - destruct (f x); [apply sublist_skip|]; exact IH.
  - destruct (f x); [apply sublist_cons|]; exact IH.
Qed.

Lemma sublist_map {A B} (f : A -> B) (l k : list A) :
  l `sublist_of` k -> map f l `sublist_of` map f k.
Proof.
  induction 1 as [|x l k Hs IH|x l k Hs IH]; simpl.
  - apply sublist_nil.
  - apply sublist_skip. exact IH.
  - apply sublist_cons. exact IH.
Qed.

Lemma find_all_extract_sublist (doc : node) (y : path) (aliases : list string) :
  Soup.find_all (Soup.extract doc y) [] aliases `sublist_of` Soup.find_all doc [] aliases.
Proof.
  unfold Soup.find_all, Soup.extract. cbn [Soup.deref]. rewrite !filter_map_key.
  apply sublist_map, sublist_List_filter, descendants_extract_sublist.
Qed.

Lemma extract_hides (x : path) :
  forall n q e,
    x <> [] ->
    e ∈ Soup.descendants q (Soup.update_at Soup.detach x n) ->
    ~ (q ++ x) `prefix_of` fst e.
Proof.
  induction x as [|i x IH]; intros n q e Hne He; [congruence|].
  destruct n as [a pf nm ats cs|s]; [|apply elem_of_nil in He; contradiction].
  cbn [Soup.update_at] in He. rewrite descendants_Tag in He.
  apply elem_of_walk in He as (k & c' & Hk & He). cbn [Nat.add] in He.
  rewrite list_lookup_alter in Hk. destruct (decide (i = k)) as [->|Hik].
  - destruct (cs !! k) as [c|] eqn:Ec; [|discriminate Hk].
    cbn in Hk. injection Hk as <-. destruct x as [|i' x'].
    + cbn [Soup.update_at] in He. rewrite item_detach in He.
      apply elem_of_nil in He. contradiction.
    + unfold item in He.
      destruct (Soup.is_attached _ && Soup.is_tag _);
        [|apply elem_of_nil in He; contradiction].
      apply elem_of_cons in He as [-> | He].
      * cbn [fst]. intros [r Hr]. apply (f_equal length) in Hr.
        rewrite !length_app in Hr. simpl in Hr. lia.
      * apply IH in He; [|discriminate]. rewrite <- app_assoc in He. exact He.
  - apply item_paths in He as [r Hr]. intros [r' Hr'].
    pose proof (eq_trans (eq_sym Hr) Hr') as Heq.
    rewrite <- app_assoc in Heq. apply app_inv_head in Heq. simpl in Heq.
    injection Heq as Hki _. congruence.
Qed.

Lemma find_below (doc : node) (s : path) (aliases : list string) (x : path) :
  Soup.find doc s aliases = Some x -> exists k r, x = s ++ k :: r.
Proof.
  unfold Soup.find, Soup.find_all. intros Hx. apply head_Some_elem_of in Hx.
  apply list_elem_of_In, in_map_iff in Hx as (e & <- & He).
  apply List.filter_In in He as [He _]. apply list_elem_of_In in He.
  exact (descendants_paths _ _ _ He).
Qed.

Lemma find_all_extract_hidden (doc : node) (x : path) (aliases : list string) (p : path) :
  x <> [] -> p ∈ Soup.find_all (Soup.extract doc x) [] aliases -> ~ x `prefix_of` p.
Proof.
  unfold Soup.find_all, Soup.extract. cbn [Soup.deref]. intros Hne Hp.
  apply list_elem_of_In, in_map_iff in Hp as (e & <- & He).
  apply List.filter_In in He as [He _]. apply list_elem_of_In in He.
  exact (extract_hides x doc [] e Hne He).
Qed.

Lemma inline_nonnumeric_body_soup `{Runtime} (P : parser) (s : path) :
  soup (snd (IXBRLParser.nonnumeric_body s P))
  = match Soup.get (Soup.deref (soup P) s) "contextRef" with
    | Some _ => after_exclusion (soup P) s
    | None => soup P
    end.
Proof.
  unfold IXBRLParser.nonnumeric_body, IXBRLParser.nonnumeric_fact, after_exclusion,
    Soup.getitem.
  unfold_method. simpl.
  repeat (case_match; simplify_eq; simpl in * ); reflexivity.
Qed.

Lemma inline_nonnumeric_body_shrinks `{Runtime} (P : parser) (s : path)
    (aliases : list string) :
  Soup.find_all (soup (snd (IXBRLParser.nonnumeric_body s P))) [] aliases
    `sublist_of` Soup.find_all (soup P) [] aliases.
Proof.
  rewrite inline_nonnumeric_body_soup. unfold after_exclusion.
  destruct (Soup.get (Soup.deref (soup P) s) "contextRef"); [|reflexivity].
  destruct (Soup.find (soup P) s ["exclude"]); [|reflexivity].
  apply find_all_extract_sublist.
Qed.

(** X20: when the inline non-numeric pass handles an element that has a
    context reference and an exclusion below it, it removes the first such
    exclusion from the document: afterwards a search of the document finds
    no element at or below the exclusion, and it finds no element it did
    not find before. *)
Theorem exclusion_removes_subtree `{Runtime} (P : parser) (s x : path) (c : string) :
  Soup.get (Soup.deref (soup P) s) "contextRef" = Some c ->
  Soup.find (soup P) s ["exclude"] = Some x ->
  let Q := snd (IXBRLParser.nonnumeric_body s P) in
  soup Q = Soup.extract (soup P) x /\
  forall aliases,
    Soup.find_all (soup Q) [] aliases `sublist_of` Soup.find_all (soup P) [] aliases /\
    forall p, p ∈ Soup.find_all (soup Q) [] aliases -> ~ x `prefix_of` p.
Proof.
  intros Hc Hx Q.
  assert (Hsoup : soup Q = Soup.extract (soup P) x).
  { unfold Q. rewrite inline_nonnumeric_body_soup, Hc. unfold after_exclusion.
    rewrite Hx. reflexivity. }
  split; [exact Hsoup|]. intros aliases. split.
  - apply inline_nonnumeric_body_shrinks.
  - intros p Hp. rewrite Hsoup in Hp.
    apply (find_all_extract_hidden (soup P) x aliases p); [|exact Hp].
    destruct (find_below _ _ _ _ Hx) as (k & r & ->). destruct s; discriminate.
Qed.

Lemma exclusion_removes_subtree_witness :
  soup (snd (IXBRLParser.nonnumeric_body [0; 0] (parser_init excluded_fact_doc false)))
  = Soup.extract excluded_fact_doc [0; 0; 1] /\
  Soup.find_all excluded_fact_doc [] ["nonFraction"] = [[0; 0; 1; 0]; [0; 1]] /\
  forall aliases,
    Soup.find_all
      (soup (snd (IXBRLParser.nonnumeric_body [0; 0] (parser_init excluded_fact_doc false))))
      [] aliases
      `sublist_of` Soup.find_all excluded_fact_doc [] aliases /\
    forall p,
      p ∈ Soup.find_all
            (soup (snd (IXBRLParser.nonnumeric_body [0; 0]
                          (parser_init excluded_fact_doc false))))
            [] aliases ->
      ~ [0; 0; 1] `prefix_of` p.
Proof.
  destruct (exclusion_removes_subtree (parser_init excluded_fact_doc false)
              [0; 0] [0; 0; 1] "c1" eq_refl eq_refl) as [Hsoup Hall].
  split; [exact Hsoup|]. split; [reflexivity|exact Hall].
Defined.

Lemma inline_nonnumeric_pass_shrinks `{Runtime} (cls : parser_class) (P : parser)
    (aliases : list string) :
  Soup.find_all (soup (snd (_get_nonnumeric cls P))) [] aliases
    `sublist_of` Soup.find_all (soup P) [] aliases.
Proof.
  destruct cls.
  - rewrite _get_nonnumeric_loop.
    apply (for_each_invariant
             (fun Q => Soup.find_all (soup Q) [] aliases
                         `sublist_of` Soup.find_all (soup P) [] aliases));
      [|reflexivity].
    intros s Q HQ. etransitivity; [|exact HQ]. apply inline_nonnumeric_body_shrinks.
  - destruct (nonnumeric_pass_frame XBRLParser_class P) as [_ ->]; reflexivity.
Qed.

(** X21: the document a parse ends with has no element that the given
    document lacks.  The non-numeric facts come from the candidate
    elements of the given document, and the numeric facts from the numeric
    elements the document still has after the non-numeric pass, which are
    among those of the given document; both in document order and at most
    one per element. *)
Theorem facts_come_from_the_document `{Runtime} (doc : node) (flag : bool) (x : IXBRL) :
  IXBRL_init doc flag = Ok x ->
  (forall aliases,
     Soup.find_all (soup (parser_obj x)) [] aliases
       `sublist_of` Soup.find_all doc [] aliases) /\
  map nn_soup_tag (nonnumeric (parser_obj x))
    `sublist_of` nonnumeric_elements (parser_cls x) doc /\
  map num_soup_tag (numeric (parser_obj x))
    `sublist_of` numeric_elements (parser_cls x) (soup (parser_obj x)) /\
  numeric_elements (parser_cls x) (soup (parser_obj x))
    `sublist_of` numeric_elements (parser_cls x) doc.
Proof.
  intros Hx. destruct (parse_passes doc flag x Hx) as (P3 & S3 & _ & Hobj).
  set (P4 := snd (_get_nonnumeric (parser_cls x) P3)) in *.
  destruct (numeric_pass_frame (parser_cls x) P4) as (S5 & _ & _ & _ & _ & _ & N5).
  rewrite <- Hobj in S5, N5.
  assert (Hshrink : forall aliases,
            Soup.find_all (soup (parser_obj x)) [] aliases
              `sublist_of` Soup.find_all doc [] aliases).
  { intros aliases. rewrite S5, <- S3. apply inline_nonnumeric_pass_shrinks. }
  split; [exact Hshrink|]. split; [|split].
  - rewrite N5, <- S3. etransitivity; [apply nonnumeric_tags_sublist|apply filter_sublist].
  - rewrite Hobj at 1. rewrite S5.
    etransitivity; [apply numeric_tags_sublist|apply filter_sublist].
  - destruct (parser_cls x) eqn:Hcls; cbn [numeric_elements].
    + apply Hshrink.
    + rewrite S5. unfold P4.
      destruct (nonnumeric_pass_frame XBRLParser_class P3) as [_ Hs].
      rewrite (Hs eq_refl), S3. reflexivity.

Qed.

Lemma facts_come_from_the_document_witness :
  exists x,
    IXBRL_init excluded_fact_doc false = Ok x /\
    map num_soup_tag (numeric (parser_obj x)) = [[0; 1]] /\
    numeric_elements (parser_cls x) excluded_fact_doc = [[0; 0; 1; 0]; [0; 1]] /\
    map num_soup_tag (numeric (parser_obj x))
      `sublist_of` numeric_elements (parser_cls x) (soup (parser_obj x)) /\
    numeric_elements (parser_cls x) (soup (parser_obj x))
      `sublist_of` numeric_elements (parser_cls x) excluded_fact_doc.
Proof.
  destruct (IXBRL_init excluded_fact_doc false) as [x|e] eqn:E;
    [|vm_compute in E; discriminate E].
  exists x. split; [reflexivity|].
  assert (Hx : map num_soup_tag (numeric (parser_obj x)) = [[0; 1]] /\
               numeric_elements (parser_cls x) excluded_fact_doc = [[0; 0; 1; 0]; [0; 1]]).
  { vm_compute in E. injection E as <-. split; reflexivity. }
  destruct Hx as [Htags Helems]. split; [exact Htags|]. split; [exact Helems|].
  destruct (facts_come_from_the_document excluded_fact_doc false x E) as (_ & _ & Hn & He).
  split; [exact Hn|exact He].
Defined.

